(** * ComfyUI-NS-Util: the preset store (nodes/FlexPreset.py) and the
    prompt list (nodes/prompt_list_node.py)

    A shallow embedding of the two file-backed nodes and of the Python
    builtins they lean on, followed by the properties of the
    specification that were checked against it and by further properties
    of the code.

    Conventions.
    - A Python [str] is a [string]; a character is its code point (the
      Latin-1 range is what [ascii] offers).
    - An ordered mapping ([dict], [OrderedDict]) is an association list in
      insertion order whose keys are pairwise distinct.
    - The presets directory is a finite map from file name to file text.
    - A function that can raise returns a [result]; a method that touches
      the directory, the singleton instance or the console takes a [World]
      and returns the next one. *)

From Stdlib Require Import ZArith NArith Ascii String List Bool Lia.
From stdpp Require Import gmap strings list.

Set Warnings "-register-all".
Local Open Scope Z_scope.

(* ===================================================================== *)
(** * Part I. Definitions                                                 *)
(* ===================================================================== *)

(** ** Python builtins: [str.strip], [int()], [float()], [re.match], [in] *)

Module Py.

(** The exceptions that travel through the two nodes. *)
Inductive exn : Type :=
| ValueError (msg : string)
| OSError
| RuntimeError.

Inductive result (A : Type) : Type :=
| Return (a : A)
| Raise (e : exn).
Arguments Return {A} a.
Arguments Raise {A} e.

(** [asyncio.get_event_loop()] in the calling thread: it raises
    [RuntimeError] (a thread without a loop), or returns a loop that is
    running, or one that is not. *)
Inductive loop_env : Type :=
| NoCurrentLoop
| LoopRunning
| LoopIdle.

(** [x in l] on a list of strings, [l.index(x)]. *)
Definition in_list (x : string) (l : list string) : bool :=
  existsb (String.eqb x) l.

Fixpoint index (x : string) (l : list string) : nat :=
  match l with
  | [] => O
  | y :: l' => if String.eqb x y then O else S (index x l')
  end.

(** [l.remove(x)] for an [x] of [l]: its first occurrence goes. *)
Fixpoint list_remove (x : string) (l : list string) : list string :=
  match l with
  | [] => []
  | y :: l' => if String.eqb x y then l' else y :: list_remove x l'
  end.

Definition code (c : ascii) : N := N_of_ascii c.

Definition is_digit (c : ascii) : bool :=
  ((48 <=? code c) && (code c <=? 57))%N.

Definition digit_val (c : ascii) : Z := Z.of_N (code c) - 48.

(** [str.isspace] on one character: TAB..CR, FS..US, SPACE, NEL, NBSP. *)
Definition is_space (c : ascii) : bool :=
  (((9 <=? code c) && (code c <=? 13)) || ((28 <=? code c) && (code c <=? 32))
   || (code c =? 133) || (code c =? 160))%N.

Definition is_empty (s : string) : bool :=
  match s with EmptyString => true | String _ _ => false end.

Fixpoint all_chars (p : ascii -> bool) (s : string) : bool :=
  match s with
  | String c s' => p c && all_chars p s'
  | EmptyString => true
  end.

(** How many decimal digits a text holds. *)
Fixpoint count_digits (s : string) : N :=
  match s with
  | String c s' => ((if is_digit c then 1 else 0) + count_digits s')%N
  | EmptyString => 0%N
  end.

(** [c * n] *)
Fixpoint repeat_char (c : ascii) (n : nat) : string :=
  match n with
  | O => EmptyString
  | S n' => String c (repeat_char c n')
  end.

Fixpoint lstrip (s : string) : string :=
  match s with
  | String c s' => if is_space c then lstrip s' else s
  | EmptyString => EmptyString
  end.

Fixpoint rstrip (s : string) : string :=
  match s with
  | String c s' =>
      let r := rstrip s' in
      if is_space c && is_empty r then EmptyString else String c r
  | EmptyString => EmptyString
  end.

Definition strip (s : string) : string := rstrip (lstrip s).

(** [digitpart ::= digit (["_"] digit)*]: the longest such prefix, as the
    number it denotes, the count of its digits, and what follows it. *)
Fixpoint digits_tail (acc : Z) (n : N) (s : string) : Z * N * string :=
  match s with
  | String c s' =>
      if is_digit c then digits_tail (10 * acc + digit_val c) (n + 1)%N s'
      else if Ascii.eqb c "_" then
        match s' with
        | String d s'' =>
            if is_digit d
            then digits_tail (10 * acc + digit_val d) (n + 1)%N s''
            else (acc, n, s)
        | EmptyString => (acc, n, s)
        end
      else (acc, n, s)
  | EmptyString => (acc, n, s)
  end.

Definition digitpart (s : string) : option (Z * N * string) :=
  match s with
  | String c s' =>
      if is_digit c then Some (digits_tail (digit_val c) 1%N s') else None
  | EmptyString => None
  end.

Definition split_sign (s : string) : bool * string :=
  match s with
  | String c s' =>
      if Ascii.eqb c "-" then (true, s')
      else if Ascii.eqb c "+" then (false, s')
      else (false, s)
  | EmptyString => (false, s)
  end.

(** CPython applies its digit limit only to literals of more than 640
    digits. *)
Definition MAX_STR_DIGITS_THRESHOLD : N := 640.

(** What [sys.get_int_max_str_digits()] returns unless the interpreter was
    reconfigured. *)
Definition DEFAULT_MAX_STR_DIGITS : N := 4300.

(** [int(s)] on a string, base ten: surrounding whitespace, an optional
    sign, one digitpart.  [None] stands for [ValueError].
    [max_str_digits] is the interpreter's integer string conversion length
    limit; zero switches the limit off. *)
Definition py_int (max_str_digits : N) (s : string) : option Z :=
  let '(neg, body) := split_sign (strip s) in
  match digitpart body with
  | Some (v, n, EmptyString) =>
      if ((MAX_STR_DIGITS_THRESHOLD <? n) && (0 <? max_str_digits)
          && (max_str_digits <? n))%N
      then None
      else Some (if neg then - v else v)
  | _ => None
  end.

(** The value of a float literal, before it is rounded to a double: an
    infinity, a NaN, or [mant * 10 ^ exp10] with a sign. *)
Inductive float_lit : Type :=
| FInf (neg : bool)
| FNan (neg : bool)
| FDec (neg : bool) (mant : Z) (exp10 : Z).

Definition float_zero : float_lit := FDec false 0 0.

Definition lower (c : ascii) : ascii :=
  if ((65 <=? code c) && (code c <=? 90))%N
  then ascii_of_N (code c + 32) else c.

Fixpoint lower_str (s : string) : string :=
  match s with
  | String c s' => String (lower c) (lower_str s')
  | EmptyString => EmptyString
  end.

(** [exponent ::= ("e" | "E") [sign] digitpart], up to the end of the
    literal; no exponent is exponent zero. *)
Definition float_exponent (s : string) : option Z :=
  match s with
  | EmptyString => Some 0
  | String c s' =>
      if Ascii.eqb (lower c) "e" then
        let '(neg, body) := split_sign s' in
        match digitpart body with
        | Some (v, _, EmptyString) => Some (if neg then - v else v)
        | _ => None
        end
      else None
  end.

(** [number ::= [digitpart] "." digitpart | digitpart ["."]] followed by an
    optional exponent. *)
Definition float_number (neg : bool) (s : string) : option float_lit :=
  match digitpart s with
  | Some (i, _, rest) =>
      match rest with
      | String c rest' =>
          if Ascii.eqb c "." then
            match digitpart rest' with
            | Some (f, k, rest'') =>
                match float_exponent rest'' with
                | Some e =>
                    Some (FDec neg (i * 10 ^ Z.of_N k + f) (e - Z.of_N k))
                | None => None
                end
            | None =>
                match float_exponent rest' with
                | Some e => Some (FDec neg i e)
                | None => None
                end
            end
          else
            match float_exponent rest with
            | Some e => Some (FDec neg i e)
            | None => None
            end
      | EmptyString => Some (FDec neg i 0)
      end
  | None =>
      match s with
      | String c rest' =>
          if Ascii.eqb c "." then
            match digitpart rest' with
            | Some (f, k, rest'') =>
                match float_exponent rest'' with
                | Some e => Some (FDec neg f (e - Z.of_N k))
                | None => None
                end
            | None => None
            end
          else None
      | EmptyString => None
      end
  end.

(** [float(s)] on a string.  [None] stands for [ValueError]. *)
Definition py_float (s : string) : option float_lit :=
  let '(neg, body) := split_sign (strip s) in
  let l := lower_str body in
  if String.eqb l "inf" || String.eqb l "infinity" then Some (FInf neg)
  else if String.eqb l "nan" then Some (FNan neg)
  else float_number neg body.

(** [needle in hay] on two strings. *)
Fixpoint starts_with (p s : string) : bool :=
  match p, s with
  | EmptyString, _ => true
  | String a p', String b s' => Ascii.eqb a b && starts_with p' s'
  | String _ _, EmptyString => false
  end.


Fixpoint ends_with (suffix s : string) : bool :=
  String.eqb suffix s
  || match s with
     | String _ s' => ends_with suffix s'
     | EmptyString => false
     end.

(** *** Regular expressions *)

(** The fragment of [re] syntax the validation table is written in. *)
Inductive regex : Type :=
| Lit (c : ascii)            (* an ordinary or an escaped character *)
| Dot                        (* [.]: anything but a newline *)
| Range (lo hi : ascii)      (* [[lo-hi]] *)
| Opt (r : regex)            (* [r?] *)
| Star (r : regex)           (* [r*] *)
| Plus (r : regex)           (* [r+] *)
| Bol                        (* [^] *)
| Eol                        (* [$] *)
| Cat (r1 r2 : regex)
| Eps.

Definition newline : ascii := ascii_of_N 10.

(** A position of the matcher: how many characters are behind it, and the
    text in front of it. *)
Definition mstate : Type := nat * string.

Definition in_range (lo hi c : ascii) : bool :=
  ((code lo <=? code c) && (code c <=? code hi))%N.

Definition step_char (p : ascii -> bool) (st : mstate)
    (k : mstate -> bool) : bool :=
  match st.2 with
  | String c s' => p c && k (S st.1, s')
  | EmptyString => false
  end.

(** [$] holds at the end of the text and just before a final newline. *)
Definition at_eol (s : string) : bool :=
  match s with
  | EmptyString => true
  | String c EmptyString => Ascii.eqb c newline
  | _ => false
  end.

(** Greedy repetition; an iteration that consumes nothing is cut off. *)
Fixpoint star_loop (body : mstate -> (mstate -> bool) -> bool)
    (k : mstate -> bool) (fuel : nat) (st : mstate) : bool :=
  match fuel with
  | O => k st
  | S fuel' =>
      body st (fun st' =>
        (String.length st'.2 <? String.length st.2)%nat
        && star_loop body k fuel' st')
      || k st
  end.

(** Backtracking matcher in continuation-passing style: [m r st k] holds
    when [r] matches some prefix of the text at [st] and [k] accepts the
    position after it. *)
Fixpoint m (r : regex) (st : mstate) (k : mstate -> bool) : bool :=
  match r with
  | Lit c => step_char (Ascii.eqb c) st k
  | Dot => step_char (fun c => negb (Ascii.eqb c newline)) st k
  | Range lo hi => step_char (in_range lo hi) st k
  | Opt r1 => m r1 st k || k st
  | Star r1 => star_loop (m r1) k (String.length st.2) st
  | Plus r1 =>
      m r1 st (fun st' => star_loop (m r1) k (String.length st'.2) st')
  | Bol => (st.1 =? 0)%nat && k st
  | Eol => at_eol st.2 && k st
  | Cat r1 r2 => m r1 st (fun st' => m r2 st' k)
  | Eps => k st
  end.

(** Reading a pattern: a sequence of atoms, each with at most one postfix
    operator.  Groups and alternation are not needed here. *)
Definition postfix (atom : regex) (s : string) : regex * string :=
  match s with
  | String c s' =>
      if Ascii.eqb c "?" then (Opt atom, s')
      else if Ascii.eqb c "*" then (Star atom, s')
      else if Ascii.eqb c "+" then (Plus atom, s')
      else (atom, s)
  | EmptyString => (atom, s)
  end.

Definition atom (s : string) : option (regex * string) :=
  match s with
  | String c s' =>
      if Ascii.eqb c "^" then Some (Bol, s')
      else if Ascii.eqb c "$" then Some (Eol, s')
      else if Ascii.eqb c "." then Some (Dot, s')
      else if Ascii.eqb c "\" then
        match s' with
        | String d s'' => Some (Lit d, s'')
        | EmptyString => None
        end
      else if Ascii.eqb c "[" then
        match s' with
        | String lo (String dash (String hi (String close s''))) =>
            if Ascii.eqb dash "-" && Ascii.eqb close "]"
            then Some (Range lo hi, s'') else None
        | _ => None
        end
      else Some (Lit c, s')
  | EmptyString => None
  end.

Fixpoint compile_fuel (fuel : nat) (s : string) : option regex :=
  match fuel with
  | O => None
  | S fuel' =>
      if is_empty s then Some Eps
      else
        match atom s with
        | Some (a, rest) =>
            let '(a', rest') := postfix a rest in
            match compile_fuel fuel' rest' with
            | Some r => Some (Cat a' r)
            | None => None
            end
        | None => None
        end
  end.

Definition re_compile (pattern : string) : option regex :=
  compile_fuel (S (String.length pattern)) pattern.

(** [bool(re.match(pattern, s))]: the pattern must match at the start of
    [s]; nothing is asked of what follows the match. *)
Definition re_match (pattern s : string) : bool :=
  match re_compile pattern with
  | Some r => m r (O, s) (fun _ => true)
  | None => false
  end.

End Py.

(** ** Ordered mappings *)

Module OD.
Section odict.
Context {V : Type}.

(** [d.get(k)] *)
Fixpoint get (k : string) (d : list (string * V)) : option V :=
  match d with
  | [] => None
  | (k', v) :: d' => if String.eqb k k' then Some v else get k d'
  end.

(** [k in d] *)
Definition mem (k : string) (d : list (string * V)) : bool :=
  match get k d with Some _ => true | None => false end.

(** [list(d.keys())] *)
Definition keys (d : list (string * V)) : list string := map fst d.

(** [d[k] = v]: a known key keeps its place, a new one goes last. *)
Fixpoint set (k : string) (v : V) (d : list (string * V))
    : list (string * V) :=
  match d with
  | [] => [(k, v)]
  | (k', v') :: d' =>
      if String.eqb k k' then (k', v) :: d' else (k', v') :: set k v d'
  end.

(** [OrderedDict(pairs)], [dict(pairs)] *)
Definition of_pairs (l : list (string * V)) : list (string * V) :=
  fold_left (fun d kv => set kv.1 kv.2 d) l [].

(** [del d[k]] for a key of [d] *)
Fixpoint del (k : string) (d : list (string * V)) : list (string * V) :=
  match d with
  | [] => []
  | (k', v) :: d' => if String.eqb k k' then d' else (k', v) :: del k d'
  end.

End odict.
End OD.

(** ** nodes/FlexPreset.py *)

Module FlexPreset.
Import Py.

Definition nl : string := String newline EmptyString.

(** *** Data model *)

(** A field as stored: a mapping with a [type] and a [value] entry, either
    of which may be missing; or a scalar where the mapping should be. *)
Inductive field_node : Type :=
| FDict (ftype : option string) (fvalue : option string)
| FNotDict.

Definition Panel : Type := list (string * field_node).

(** A preset: an ordered mapping from panel key to panel, of which the
    node reads the one called [values]; or a scalar (null, a number,
    non-empty text) where the mapping should be. *)
Inductive preset_node : Type :=
| PDict (panels : list (string * Panel))
| PNotDict.

Definition Document : Type := list (string * preset_node).

(** What [yaml.load] gives back: a mapping, a falsy value (nothing at all,
    an empty container), or some other value, of which the code only asks
    whether a title is [in] it ([None]: that test raises [TypeError]). *)
Inductive pytop : Type :=
| TopDoc (d : Document)
| TopFalsy
| TopOther (has : string -> option bool).

(** The same after [... or {}]. *)
Inductive pydata : Type :=
| DataDoc (d : Document)
| DataOther (has : string -> option bool).

Definition or_dict (v : pytop) : pydata :=
  match v with
  | TopDoc d => DataDoc d
  | TopFalsy => DataDoc []
  | TopOther has => DataOther has
  end.

(** What the node returns to the graph. *)
Inductive pyval : Type :=
| PyInt (z : Z)
| PyFloat (f : float_lit)
| PyStr (s : string).

(** *** The interpreter and PyYAML *)

Class PyEnv : Type := {
  (** [yaml.load(f, Loader=OrderedLoader)]; [None]: the loader raises *)
  yaml_load : string -> option pytop;
  (** [yaml.dump(data, Dumper=OrderedDumper, default_flow_style=False,
      allow_unicode=True, sort_keys=False)] *)
  yaml_dump : Document -> string;
  (** [sys.get_int_max_str_digits()] *)
  int_max_str_digits : N
}.

(** *** State *)

(** The attributes of the singleton that the methods below read or write. *)
Record Inst : Type := mkInst {
  _panel_order : list string;
  _workflow_loading : bool;
  _dynamic_output_types : list string;
  _dynamic_output_names : list string
}.

Record World : Type := mkWorld {
  files : gmap string string;      (* the presets directory *)
  disk_ok : bool;                  (* the directory accepts writes *)
  now : string;                    (* datetime.now() as %Y%m%d_%H%M%S *)
  event_loop : loop_env;
  instance : Inst;                 (* cls._get_instance(): the object the
                                      routes and the schema work on *)
  RETURN_TYPES : list string;
  RETURN_NAMES : list string;
  stdout : list string;            (* the warning of update_value and the
                                      error message of run; the except
                                      branches, which print library
                                      messages, are left out *)
  tasks : list (string * string)   (* _ensure_title_exists calls scheduled
                                      with asyncio.create_task *)
}.

Definition set_files (fs : gmap string string) (w : World) : World :=
  mkWorld fs (disk_ok w) (now w) (event_loop w) (instance w)
    (RETURN_TYPES w) (RETURN_NAMES w) (stdout w) (tasks w).

Definition set_instance (i : Inst) (w : World) : World :=
  mkWorld (files w) (disk_ok w) (now w) (event_loop w) i
    (RETURN_TYPES w) (RETURN_NAMES w) (stdout w) (tasks w).

Definition set_returns (tys names : list string) (w : World) : World :=
  mkWorld (files w) (disk_ok w) (now w) (event_loop w) (instance w)
    tys names (stdout w) (tasks w).

Definition print (line : string) (w : World) : World :=
  mkWorld (files w) (disk_ok w) (now w) (event_loop w) (instance w)
    (RETURN_TYPES w) (RETURN_NAMES w) (stdout w ++ [line]) (tasks w).

Definition create_task (t : string * string) (w : World) : World :=
  mkWorld (files w) (disk_ok w) (now w) (event_loop w) (instance w)
    (RETURN_TYPES w) (RETURN_NAMES w) (stdout w) (tasks w ++ [t]).

Definition set_panel_order (po : list string) (i : Inst) : Inst :=
  mkInst po (_workflow_loading i) (_dynamic_output_types i)
    (_dynamic_output_names i).

Definition set_workflow_loading (b : bool) (i : Inst) : Inst :=
  mkInst (_panel_order i) b (_dynamic_output_types i)
    (_dynamic_output_names i).

Definition set_dynamic_outputs (tys names : list string) (i : Inst) : Inst :=
  mkInst (_panel_order i) (_workflow_loading i) tys names.

(** *** Files *)

(** [(self.presets_dir / name).exists()]; the empty name is the directory
    itself. *)
Definition path_exists (w : World) (name : string) : bool :=
  match files w !! name with
  | Some _ => true
  | None => is_empty name
  end.

(** [open(path, 'r').read()]; [None]: it raises (the path is the
    directory). *)
Definition read_text (w : World) (name : string) : option string :=
  if is_empty name then None else files w !! name.

Section WithEnv.
Context `{PyEnv}.

(** [with open(...) as f: data = yaml.load(f, Loader=OrderedLoader) or {}];
    [None]: one of the two raises. *)
Definition load_or_dict (w : World) (name : string) : option pydata :=
  match read_text w name with
  | Some text =>
      match yaml_load text with
      | Some v => Some (or_dict v)
      | None => None
      end
  | None => None
  end.

(** *** Validation *)

Definition TYPE_REGEX : list (string * string) :=
  [("int", "^-?[0-9]+$");
   ("float", "^-?[0-9]*\.?[0-9]+$");
   ("string", ".*")].

Definition _validate_value_type (value_type value : string) : bool :=
  match OD.get value_type TYPE_REGEX with
  | None => false
  | Some regex => re_match regex value
  end.

(** *** The output schema *)

Definition title_to_use (select_preset input_preset_name : string)
    : string :=
  if is_empty input_preset_name then select_preset else input_preset_name.

(** [data[title].get('values', {})] once [title in data and
    isinstance(data[title], dict)] holds; [{}] otherwise. *)
Definition values_of (data : Document) (title : string) : Panel :=
  match OD.get title data with
  | Some (PDict panels) =>
      match OD.get "values" panels with
      | Some values => values
      | None => []
      end
  | _ => []
  end.

(** Lines 229-241: the order in which the fields are visited. *)
Definition schema_keys_to_process (instance : Inst) (values : Panel)
    : list string :=
  match _panel_order instance with
  | _ :: _ =>
      let keys_to_process :=
        fold_left
          (fun acc panel_key =>
             if OD.mem panel_key values then acc ++ [panel_key] else acc)
          (_panel_order instance) [] in
      fold_left
        (fun acc key => if in_list key acc then acc else acc ++ [key])
        (OD.keys values) keys_to_process
  | [] => OD.keys values
  end.

(** Lines 244-261: one pass of the loop body. *)
Definition schema_step (values : Panel) (acc : list string * list string)
    (key : string) : list string * list string :=
  match OD.get key values with
  | Some (FDict ftype _) =>
      let value_type := default "string" ftype in
      let output_name := key +:+ "_" +:+ value_type in
      if String.eqb value_type "int"
      then (acc.1 ++ ["INT"], acc.2 ++ [output_name])
      else if String.eqb value_type "float"
      then (acc.1 ++ ["FLOAT"], acc.2 ++ [output_name])
      else (acc.1 ++ ["STRING"], acc.2 ++ [output_name])
  | _ => acc
  end.

Definition default_schema : list string * list string :=
  (["STRING"], ["output"]).


Definition is_field (panel : Panel) (key : string) : bool :=
  match OD.get key panel with
  | Some (FDict _ _) => true
  | _ => false
  end.

Definition declared_type (panel : Panel) (key : string) : string :=
  match OD.get key panel with
  | Some (FDict (Some ty) _) => ty
  | _ => "string"
  end.

Definition stored_value (panel : Panel) (key : string) : string :=
  match OD.get key panel with
  | Some (FDict _ (Some v)) => v
  | _ => ""
  end.

Definition output_type (declared : string) : string :=
  if String.eqb declared "int" then "INT"
  else if String.eqb declared "float" then "FLOAT"
  else "STRING".

Definition output_name (panel : Panel) (key : string) : string :=
  key +:+ "_" +:+ declared_type panel key.


(** The schema of a panel: one entry per field in processing order, or
    the default entry when there is none (4.5, steps 4 and 5). *)
Definition schema_of (i : Inst) (panel : Panel)
    : list string * list string :=
  match List.filter (is_field panel) (schema_keys_to_process i panel) with
  | [] => default_schema
  | fields =>
      (map (fun k => output_type (declared_type panel k)) fields,
       map (output_name panel) fields)
  end.

Definition reset_to_default (w : World) : World :=
  set_returns ["STRING"] ["output"]
    (set_instance
       (set_panel_order []
          (set_dynamic_outputs ["STRING"] ["output"] (instance w))) w).

Definition dynamic_output_types (w : World)
    (select_yaml select_preset input_preset_name : string)
    : (list string * list string) * World :=
  let title := title_to_use select_preset input_preset_name in
  if is_empty title || is_empty select_yaml then
    if _workflow_loading (instance w) then (([], []), w)
    else (default_schema, reset_to_default w)
  else if negb (path_exists w select_yaml) then
    (default_schema, reset_to_default w)
  else
    let found :=
      match load_or_dict w select_yaml with
      | Some (DataDoc data) =>
          let values := values_of data title in
          fold_left (schema_step values)
            (schema_keys_to_process (instance w) values) ([], [])
      | Some (DataOther _) => ([], [])
      | None => ([], [])
      end in
    let schema :=
      match found.1 with
      | [] => default_schema
      | _ :: _ => found
      end in
    (schema,
     set_returns schema.1 schema.2
       (set_instance
          (set_dynamic_outputs schema.1 schema.2 (instance w)) w)).

(** *** Reading *)

Definition _get_values_from_yaml (w : World) (yaml_file title : string)
    : Panel :=
  if negb (path_exists w yaml_file) then []
  else
    match load_or_dict w yaml_file with
    | Some (DataDoc data) => values_of data title
    | Some (DataOther _) => []
    | None => []
    end.

Definition placeholder : string := "# Recovered from corrupt file" +:+ nl.

Definition bad_name (timestamp name : string) : string :=
  "bad_" +:+ timestamp +:+ "_" +:+ name.

(** [shutil.move] to the sibling, then [write_text] at the old path. *)
Definition _handle_corrupt_yaml (w : World) (name : string)
    : result World :=
  match files w !! name with
  | Some text =>
      if disk_ok w then
        Return
          (set_files
             (<[name := placeholder]>
                (<[bad_name (now w) name := text]> (delete name (files w))))
             w)
      else Raise OSError
  | None => Raise OSError
  end.

Definition _get_titles_from_yaml (w : World) (yaml_file : string)
    : result (list string) * World :=
  if negb (path_exists w yaml_file) then (Return [""], w)
  else
    match load_or_dict w yaml_file with
    | Some (DataDoc data) => (Return (OD.keys data), w)
    | _ =>
        match _handle_corrupt_yaml w yaml_file with
        | Return w' => (Return [""], w')
        | Raise e => (Raise e, w)
        end
    end.

(** *** Writing *)

(** The temporary file and [os.replace]: the target changes in one step or
    not at all.  A temporary file that a failed replace leaves behind is
    not recorded. *)
Definition _save_yaml (w : World) (yaml_file : string) (data : Document)
    : result World :=
  if disk_ok w && negb (is_empty yaml_file)
  then Return (set_files (<[yaml_file := yaml_dump data]> (files w)) w)
  else Raise OSError.

Definition _ensure_title_exists (w : World) (yaml_file title : string)
    : bool * World :=
  let loaded :=
    if path_exists w yaml_file then load_or_dict w yaml_file
    else Some (DataDoc []) in
  match loaded with
  | Some (DataDoc data) =>
      if OD.mem title data then (true, w)
      else
        match
          _save_yaml w yaml_file (OD.set title (PDict [("values", [])]) data)
        with
        | Return w' => (true, w')
        | Raise _ => (false, w)
        end
  | Some (DataOther has) =>
      match has title with
      | Some true => (true, w)
      | _ => (false, w)
      end
  | None => (false, w)
  end.

Definition _add_value (w : World)
    (yaml_file title key_name key_type key_value : string) : bool * World :=
  let loaded :=
    if path_exists w yaml_file then load_or_dict w yaml_file
    else Some (DataDoc []) in
  match loaded with
  | Some (DataDoc data) =>
      let with_title :=
        match OD.get title data with
        | None => Some (OD.set title (PDict [("values", [])]) data)
        | Some (PDict _) => Some data
        | Some PNotDict => None
        end in
      match with_title with
      | Some data1 =>
          let panels :=
            match OD.get title data1 with
            | Some (PDict panels) => panels
            | _ => []
            end in
          let panels1 :=
            if OD.mem "values" panels then panels
            else OD.set "values" [] panels in
          let values := default [] (OD.get "values" panels1) in
          let values1 :=
            OD.set key_name (FDict (Some key_type) (Some key_value)) values in
          let data2 :=
            OD.set title (PDict (OD.set "values" values1 panels1)) data1 in
          match _save_yaml w yaml_file data2 with
          | Return w' => (true, w')
          | Raise _ => (false, w)
          end
      | None => (false, w)
      end
  | Some (DataOther _) => (false, w)
  | None => (false, w)
  end.

(** Lines 737-744: the panel rebuilt item by item. *)
Definition rename_items (old_key new_key : string) (values : Panel)
    : Panel :=
  fold_left
    (fun new_values kv =>
       if String.eqb kv.1 old_key then OD.set new_key kv.2 new_values
       else OD.set kv.1 kv.2 new_values)
    values [].

(** The rename as the specification words it (4.6): the old name replaced
    by the new one at the same position. *)
Definition rename_field (old_key new_key : string)
    (kv : string * field_node) : string * field_node :=
  (if String.eqb kv.1 old_key then new_key else kv.1, kv.2).

Definition _update_key_name (w : World)
    (yaml_file title old_key new_key : string) : bool * World :=
  if negb (path_exists w yaml_file) || is_empty new_key then (false, w)
  else
    match load_or_dict w yaml_file with
    | Some (DataDoc data) =>
        match OD.get title data with
        | Some (PDict panels) =>
            match OD.get "values" panels with
            | Some values =>
                if OD.mem old_key values && negb (String.eqb old_key new_key)
                then
                  let data' :=
                    OD.set title
                      (PDict
                         (OD.set "values" (rename_items old_key new_key values)
                            panels))
                      data in
                  match _save_yaml w yaml_file data' with
                  | Return w' => (true, w')
                  | Raise _ => (false, w)
                  end
                else (false, w)
            | None => (false, w)
            end
        | _ => (false, w)
        end
    | _ => (false, w)
    end.

(** *** Evaluation *)

Definition error_msg (value value_type key : string) : string :=
  "NS-FlexPreset: Cannot convert '" +:+ value +:+ "' to " +:+ value_type
  +:+ " for key '" +:+ key +:+ "'".

(** Lines 816-822; [None]: [int] or [float] raises [ValueError]. *)
Definition convert (value_type value : string) : option pyval :=
  if String.eqb value_type "int"
  then PyInt <$> py_int int_max_str_digits value
  else if String.eqb value_type "float"
  then PyFloat <$> py_float value
  else Some (PyStr value).

(** Lines 791-805. *)
Definition run_keys_to_process (self : Inst) (values : Panel)
    : list string :=
  match values with
  | [] => []
  | _ :: _ =>
      match _panel_order self with
      | _ :: _ =>
          let keys_to_process :=
            fold_left
              (fun acc panel_key =>
                 if OD.mem panel_key values then acc ++ [panel_key] else acc)
              (_panel_order self) [] in
          fold_left
            (fun acc key => if in_list key acc then acc else acc ++ [key])
            (OD.keys values) keys_to_process
      | [] => OD.keys values
      end
  end.

(** Lines 808-827: one pass of the loop body; a raised error ends the
    loop. *)
Definition value_step (values : Panel)
    (acc : result (list pyval) * World) (key : string)
    : result (list pyval) * World :=
  match acc with
  | (Return output_values, w) =>
      match OD.get key values with
      | Some (FDict ftype fvalue) =>
          let value := default "" fvalue in
          let value_type := default "string" ftype in
          match convert value_type value with
          | Some v => (Return (output_values ++ [v]), w)
          | None =>
              (Raise (ValueError (error_msg value value_type key)),
               print (error_msg value value_type key) w)
          end
      | _ => acc
      end
  | (Raise _, _) => acc
  end.

Definition zero_value (output_type : string) : pyval :=
  if String.eqb output_type "INT" then PyInt 0
  else if String.eqb output_type "FLOAT" then PyFloat float_zero
  else PyStr "".

(** Lines 835-850. *)
Definition reconcile (outputs : list string) (output_values : list pyval)
    : list pyval :=
  let expected_count := length outputs in
  let actual_count := length output_values in
  if (actual_count <? expected_count)%nat then
    output_values
    ++ map (fun i => zero_value (nth i outputs ""))
         (seq actual_count (expected_count - actual_count))
  else if (expected_count <? actual_count)%nat then
    take expected_count output_values
  else output_values.

(** Lines 765-776: the preset is created now, or later as a task of the
    running loop. *)
Definition ensure_title (w : World) (select_yaml title : string) : World :=
  if negb (is_empty title) && negb (is_empty select_yaml) then
    match event_loop w with
    | LoopRunning => create_task (select_yaml, title) w
    | LoopIdle => (_ensure_title_exists w select_yaml title).2
    | NoCurrentLoop => (_ensure_title_exists w select_yaml title).2
    end
  else w.

(** Lines 788-827: the values of the fields, converted, in processing
    order. *)
Definition collect_values (self : Inst) (w : World) (values : Panel)
    : result (list pyval) * World :=
  fold_left (value_step values)
    (run_keys_to_process self values) (Return [], w).

(** Evaluation as the specification words it (4.7, steps 3 and 4): the
    value of a field converted to its declared type, and the first field,
    in processing order, whose value does not convert. *)
Definition converted (panel : Panel) (key : string) : option pyval :=
  convert (declared_type panel key) (stored_value panel key).

Definition fails (panel : Panel) (key : string) : bool :=
  is_field panel key
  && match converted panel key with Some _ => false | None => true end.

Definition first_failure (panel : Panel) (keys : list string)
    : option string :=
  List.find (fails panel) keys.

(** Lines 830-831. *)
Definition at_least_one (output_values : list pyval) : list pyval :=
  match output_values with
  | [] => [PyStr ""]
  | _ :: _ => output_values
  end.

(** The object that [run] is called on: the singleton that the routes
    and the schema use, or another instance of the class, known by its
    attributes. *)
Inductive receiver : Type :=
| Singleton
| Other (attributes : Inst).

Definition run (self : receiver) (w : World)
    (select_yaml select_preset input_preset_name unique_id : string)
    : result (list pyval) * World :=
  let title := title_to_use select_preset input_preset_name in
  let w1 := ensure_title w select_yaml title in
  let values := _get_values_from_yaml w1 select_yaml title in
  let '((outputs, output_names), w2) :=
    dynamic_output_types w1 select_yaml select_preset input_preset_name in
  let me :=
    match self with
    | Singleton => instance w2
    | Other attributes => attributes
    end in
  match collect_values me w2 values with
  | (Return output_values, w3) =>
      (Return (reconcile outputs (at_least_one output_values)), w3)
  | (Raise e, w3) => (Raise e, w3)
  end.

(** *** Enumeration *)

Definition default_yaml_text : string :=
  "example:" +:+ nl +:+ "  values:" +:+ nl +:+ "    sample_key:" +:+ nl
  +:+ "      type: string" +:+ nl
  +:+ "      value: 'Enter your value here'" +:+ nl.

Fixpoint insert_sorted (x : string) (l : list string) : list string :=
  match l with
  | [] => [x]
  | y :: l' => if String.leb x y then x :: l else y :: insert_sorted x l'
  end.

Definition sorted (l : list string) : list string :=
  fold_right insert_sorted [] l.

(** Spec side: each name is at most the next one. *)
Fixpoint ascending (l : list string) : bool :=
  match l with
  | x :: l' =>
      match l' with
      | y :: _ => String.leb x y && ascending l'
      | [] => true
      end
  | [] => true
  end.

Definition _get_yaml_files (w : World) : result (list string) * World :=
  match filter (fun n => ends_with ".yaml" n = true)
          (map fst (map_to_list (files w))) with
  | [] =>
      if disk_ok w
      then (Return ["default.yaml"],
            set_files (<["default.yaml" := default_yaml_text]> (files w)) w)
      else (Raise OSError, w)
  | yaml_files => (Return (sorted yaml_files), w)
  end.

(** The effect of [refresh_enums] on the directory; what it broadcasts is
    left out. *)
Definition refresh_enums (w : World) : result unit * World :=
  match _get_yaml_files w with
  | (Return yaml_files, w1) =>
      fold_left
        (fun acc yaml_file =>
           match acc with
           | (Return _, w') =>
               match _get_titles_from_yaml w' yaml_file with
               | (Return _, w'') => (Return tt, w'')
               | (Raise e, w'') => (Raise e, w'')
               end
           | (Raise _, _) => acc
           end)
        yaml_files (Return tt, w1)
  | (Raise e, w1) => (Raise e, w1)
  end.

(** *** Request handlers *)

(** What follows a successful write: the schema is recomputed, the enums
    are refreshed, the widgets are pushed (the push is left out). *)
Definition push_update (w : World) (yaml_file title : string) (success : bool)
    : result bool * World :=
  match refresh_enums (dynamic_output_types w yaml_file title title).2 with
  | (Return _, w') => (Return success, w')
  | (Raise e, w') => (Raise e, w')
  end.

Record prompt_request : Type := mkPromptRequest {
  pr_yaml : string;
  pr_title : string;
  pr_init_outputs : bool
}.

(** POST /ns_flexpreset/get_prompt: the output types and names that go
    out with the widget data. *)
Definition get_prompt (w : World) (rq : prompt_request)
    : result (list string * list string) * World :=
  let started :=
    if pr_init_outputs rq then
      refresh_enums
        (set_instance (set_workflow_loading true (instance w)) w)
    else (Return tt, w) in
  match started with
  | (Return _, w1) =>
      let '(schema, w2) :=
        dynamic_output_types w1 (pr_yaml rq) (pr_title rq) (pr_title rq) in
      (Return schema,
       if pr_init_outputs rq
       then set_instance (set_workflow_loading false (instance w2)) w2
       else w2)
  | (Raise e, w1) => (Raise e, w1)
  end.

Record value_request : Type := mkValueRequest {
  vr_yaml : string;
  vr_title : string;
  vr_key_name : string;
  vr_key_type : string;
  vr_key_value : string;
  vr_update_outputs : bool
}.

Definition warning (key_value key_type : string) : string :=
  "NS-FlexPreset Warning: Value '" +:+ key_value
  +:+ "' does not match type '" +:+ key_type +:+ "'".

(** POST /ns_flexpreset/value/update *)
Definition update_value (w : World) (rq : value_request)
    : result bool * World :=
  let w1 :=
    if _validate_value_type (vr_key_type rq) (vr_key_value rq) then w
    else print (warning (vr_key_value rq) (vr_key_type rq)) w in
  let '(success, w2) :=
    _add_value w1 (vr_yaml rq) (vr_title rq) (vr_key_name rq)
      (vr_key_type rq) (vr_key_value rq) in
  if success && vr_update_outputs rq
  then push_update w2 (vr_yaml rq) (vr_title rq) success
  else (Return success, w2).

Record key_request : Type := mkKeyRequest {
  kr_yaml : string;
  kr_title : string;
  kr_old_key : string;
  kr_new_key : string;
  kr_panel_order : list string   (* empty when the request has none *)
}.

(** Lines 547-553. *)
Definition track_rename (rq : key_request) (i : Inst) : Inst :=
  if in_list (kr_old_key rq) (_panel_order i) then
    match kr_panel_order rq with
    | _ :: _ => set_panel_order (kr_panel_order rq) i
    | [] =>
        set_panel_order
          (<[index (kr_old_key rq) (_panel_order i) := kr_new_key rq]>
             (_panel_order i)) i
    end
  else i.

(** POST /ns_flexpreset/value/update_key *)
Definition update_key (w : World) (rq : key_request)
    : result bool * World :=
  let w1 := set_instance (track_rename rq (instance w)) w in
  let '(success, w2) :=
    _update_key_name w1 (kr_yaml rq) (kr_title rq) (kr_old_key rq)
      (kr_new_key rq) in
  if success then push_update w2 (kr_yaml rq) (kr_title rq) success
  else (Return success, w2).

(** POST /ns_flexpreset/value/add: the body of [update_value] without the
    [update_outputs] guard. *)
Definition add_value (w : World) (rq : value_request)
    : result bool * World :=
  let w1 :=
    if _validate_value_type (vr_key_type rq) (vr_key_value rq) then w
    else print (warning (vr_key_value rq) (vr_key_type rq)) w in
  let '(success, w2) :=
    _add_value w1 (vr_yaml rq) (vr_title rq) (vr_key_name rq)
      (vr_key_type rq) (vr_key_value rq) in
  if success then push_update w2 (vr_yaml rq) (vr_title rq) success
  else (Return success, w2).

(** *** Deleting a field *)

(** Lines 701-720.  A preset that is no mapping has no [values] to look
    into, or raises when asked for them; either way the answer is
    [False]. *)
Definition _delete_value (w : World) (yaml_file title key_name : string)
    : bool * World :=
  if negb (path_exists w yaml_file) then (false, w)
  else
    match load_or_dict w yaml_file with
    | Some (DataDoc data) =>
        match OD.get title data with
        | Some (PDict panels) =>
            match OD.get "values" panels with
            | Some values =>
                if OD.mem key_name values then
                  let data' :=
                    OD.set title
                      (PDict (OD.set "values" (OD.del key_name values) panels))
                      data in
                  match _save_yaml w yaml_file data' with
                  | Return w' => (true, w')
                  | Raise _ => (false, w)
                  end
                else (false, w)
            | None => (false, w)
            end
        | _ => (false, w)
        end
    | _ => (false, w)
    end.

Record delete_request : Type := mkDeleteRequest {
  dr_yaml : string;
  dr_title : string;
  dr_key_name : string
}.

(** Lines 515-517. *)
Definition untrack (key_name : string) (i : Inst) : Inst :=
  if in_list key_name (_panel_order i)
  then set_panel_order (list_remove key_name (_panel_order i)) i
  else i.

(** POST /ns_flexpreset/value/delete *)
Definition delete_value (w : World) (rq : delete_request)
    : result bool * World :=
  let w1 := set_instance (untrack (dr_key_name rq) (instance w)) w in
  let '(success, w2) :=
    _delete_value w1 (dr_yaml rq) (dr_title rq) (dr_key_name rq) in
  if success then push_update w2 (dr_yaml rq) (dr_title rq) success
  else (Return success, w2).

(** *** The other routes *)



(** *** Widget data *)

(** What [_get_prompt_data] answers: the title, the values, and the order
    of their keys, which the answers of the two early exits do not
    carry. *)
Record prompt_data : Type := mkPromptData {
  pd_title : string;
  pd_values : Panel;
  pd_keys_order : option (list string)
}.

(** Lines 591-617. *)
Definition _get_prompt_data (w : World) (yaml_file title : string)
    : prompt_data :=
  if negb (path_exists w yaml_file) then mkPromptData title [] None
  else
    match load_or_dict w yaml_file with
    | Some (DataDoc data) =>
        let values := values_of data title in
        mkPromptData title values (Some (OD.keys values))
    | Some (DataOther has) =>
        match has title with
        | Some false => mkPromptData title [] (Some [])
        | _ => mkPromptData title [] None
        end
    | None => mkPromptData title [] None
    end.

(** *** Input choices *)

(** The choices of the two combo boxes, and the default of the first. *)
Record input_types : Type := mkInputTypes {
  select_yaml_choices : list string;
  select_yaml_default : string;
  select_preset_choices : list string
}.

(** Lines 147-154: the titles that a file adds to the set; a file that
    cannot be read, or holds no mapping, adds none. *)
Definition titles_in (w : World) (yaml_file : string) : list string :=
  match load_or_dict w yaml_file with
  | Some (DataDoc data) => OD.keys data
  | _ => []
  end.

(** Lines 133-165.  [yaml_files] is in the order in which the directory
    lists its entries, here the order of [map_to_list]; [all_titles] is a
    set, sorted in the end. *)
Definition INPUT_TYPES (w : World) : result input_types * World :=
  let found :=
    match filter (fun n => ends_with ".yaml" n = true)
            (map fst (map_to_list (files w))) with
    | [] =>
        if disk_ok w
        then (Return ["default.yaml"],
              set_files (<["default.yaml" := default_yaml_text]> (files w)) w)
        else (Raise OSError, w)
    | yaml_files => (Return yaml_files, w)
    end in
  match found with
  | (Return yaml_files, w1) =>
      let all_titles :=
        remove_dups ("" :: concat (map (titles_in w1) yaml_files)) in
      (Return
         (mkInputTypes (sorted yaml_files) (hd "" yaml_files)
            (sorted all_titles)),
       w1)
  | (Raise e, w1) => (Raise e, w1)
  end.

End WithEnv.
End FlexPreset.

(** ** nodes/prompt_list_node.py *)

Module PromptList.
Import Py.

(** An entry as stored: a mapping that holds the prompt, or a scalar where
    the mapping should be. *)
Inductive entry_node : Type :=
| EDict (items : list (string * string))
| ENotDict.

Definition Document : Type := list (string * entry_node).

Inductive pytop : Type :=
| TopDoc (d : Document)
| TopFalsy
| TopOther (has : string -> option bool).

Inductive pydata : Type :=
| DataDoc (d : Document)
| DataOther (has : string -> option bool).

Definition or_dict (v : pytop) : pydata :=
  match v with
  | TopDoc d => DataDoc d
  | TopFalsy => DataDoc []
  | TopOther has => DataOther has
  end.

Class PyEnv : Type := {
  (** [yaml.safe_load(f)]; [None]: the loader raises *)
  safe_load : string -> option pytop;
  (** [yaml.dump(data, default_flow_style=False, allow_unicode=True,
      sort_keys=True)] *)
  yaml_dump : Document -> string
}.

Record World : Type := mkWorld {
  files : gmap string string;        (* the promptlistYAML directory *)
  disk_ok : bool;                    (* the directory accepts writes *)
  event_loop : loop_env;
  tasks : list (string * Document)   (* _save_yaml calls scheduled with
                                        asyncio.create_task *)
}.

Definition set_files (fs : gmap string string) (w : World) : World :=
  mkWorld fs (disk_ok w) (event_loop w) (tasks w).

Definition create_task (t : string * Document) (w : World) : World :=
  mkWorld (files w) (disk_ok w) (event_loop w) (tasks w ++ [t]).

Definition path_exists (w : World) (name : string) : bool :=
  match files w !! name with
  | Some _ => true
  | None => is_empty name
  end.

Definition read_text (w : World) (name : string) : option string :=
  if is_empty name then None else files w !! name.

(** Spec side: two documents with the same titles and, under each title,
    the same entry: the same keys with the same texts, in whatever
    order. *)
Definition same_entry (a b : option entry_node) : Prop :=
  match a, b with
  | Some (EDict x), Some (EDict y) =>
      forall k : string, OD.get k x = OD.get k y
  | Some ENotDict, Some ENotDict => True
  | None, None => True
  | _, _ => False
  end.

Definition same_content (d d' : Document) : Prop :=
  forall t : string, same_entry (OD.get t d) (OD.get t d').

Section WithEnv.
Context `{PyEnv}.

Definition load_or_dict (w : World) (name : string) : option pydata :=
  match read_text w name with
  | Some text =>
      match safe_load text with
      | Some v => Some (or_dict v)
      | None => None
      end
  | None => None
  end.

Definition _save_yaml (w : World) (yaml_file : string) (data : Document)
    : result World :=
  if disk_ok w && negb (is_empty yaml_file)
  then Return (set_files (<[yaml_file := yaml_dump data]> (files w)) w)
  else Raise OSError.

(** Lines 310-348.  The console output is left out.  The three ways out
    of the [try] block: it completes; [asyncio.get_event_loop] raises
    [RuntimeError], and the handler runs the save itself; anything else
    raises and is swallowed. *)
Definition run (w : World)
    (select_yaml select title prompt unique_id : string)
    : result (list string) * World :=
  if negb (is_empty title) && negb (is_empty prompt) then
    let loaded :=
      if path_exists w select_yaml then load_or_dict w select_yaml
      else Some (DataDoc []) in
    match loaded with
    | Some (DataDoc data) =>
        let data1 :=
          if OD.mem title data then data else OD.set title (EDict []) data in
        match OD.get title data1 with
        | Some (EDict items) =>
            let data2 :=
              OD.set title (EDict (OD.set "prompt" prompt items)) data1 in
            match event_loop w with
            | LoopRunning =>
                (Return [prompt], create_task (select_yaml, data2) w)
            | LoopIdle =>
                match _save_yaml w select_yaml data2 with
                | Return w' => (Return [prompt], w')
                | Raise _ => (Return [prompt], w)
                end
            | NoCurrentLoop =>
                match _save_yaml w select_yaml data2 with
                | Return w' => (Return [prompt], w')
                | Raise e => (Raise e, w)
                end
            end
        | _ => (Return [prompt], w)
        end
    | Some (DataOther _) => (Return [prompt], w)
    | None => (Return [prompt], w)
    end
  else (Return [prompt], w).

(** *** Reading a prompt, deleting a title *)

(** Lines 254-273: the title with its prompt; the empty text where none
    is to be had. *)
Definition _get_prompt_data (w : World) (yaml_file title : string)
    : string * string :=
  if negb (path_exists w yaml_file) then (title, "")
  else
    match load_or_dict w yaml_file with
    | Some (DataDoc data) =>
        match OD.get title data with
        | Some (EDict items) => (title, default "" (OD.get "prompt" items))
        | _ => (title, "")
        end
    | _ => (title, "")
    end.

(** Lines 290-308. *)
Definition _delete_title (w : World) (yaml_file title : string)
    : bool * World :=
  if negb (path_exists w yaml_file) then (false, w)
  else
    match load_or_dict w yaml_file with
    | Some (DataDoc data) =>
        if OD.mem title data then
          match _save_yaml w yaml_file (OD.del title data) with
          | Return w' => (true, w')
          | Raise _ => (false, w)
          end
        else (false, w)
    | _ => (false, w)
    end.

(** *** Listing the titles *)

Definition placeholder : string :=
  "# Recovered from corrupt file" +:+ String newline EmptyString.

Definition bad_name (timestamp name : string) : string :=
  "bad_" +:+ timestamp +:+ "_" +:+ name.

(** Lines 163-168.  [now]: what [datetime.now()] gives at the call, as
    %Y%m%d_%H%M%S. *)
Definition _handle_corrupt_yaml (now : string) (w : World) (name : string)
    : result World :=
  match files w !! name with
  | Some text =>
      if disk_ok w then
        Return
          (set_files
             (<[name := placeholder]>
                (<[bad_name now name := text]> (delete name (files w))))
             w)
      else Raise OSError
  | None => Raise OSError
  end.

(** Lines 148-161. *)
Definition _get_titles_from_yaml (now : string) (w : World)
    (yaml_file : string) : result (list string) * World :=
  if negb (path_exists w yaml_file) then (Return [""], w)
  else
    match load_or_dict w yaml_file with
    | Some (DataDoc data) => (Return (OD.keys data), w)
    | _ =>
        match _handle_corrupt_yaml now w yaml_file with
        | Return w' => (Return [""], w')
        | Raise e => (Raise e, w)
        end
    end.

End WithEnv.
End PromptList.

(** ** What the two nodes ask of PyYAML

    [yaml.dump] represents the data as a tree of nodes and serializes the
    tree; [yaml.load] composes a tree from the text and constructs the
    data from it.  The nodes choose the representer and the constructor;
    the text in between is PyYAML's. *)

Module Codec.

(** Data made of text and of mappings keyed by text. *)
Inductive pyobj : Type :=
| PStr (s : string)
| PDict (items : list (string * pyobj)).

Inductive node : Type :=
| ScalarNode (value : string)
| MappingNode (value : list (string * node)).

Fixpoint insert_item (kv : string * node) (l : list (string * node))
    : list (string * node) :=
  match l with
  | [] => [kv]
  | kv' :: l' =>
      if String.ltb kv.1 kv'.1 then kv :: l else kv' :: insert_item kv l'
  end.

(** [sorted(mapping)] on the items of a mapping: by key, stable. *)
Definition sorted_items (l : list (string * node)) : list (string * node) :=
  fold_right insert_item [] l.

(** [represent_mapping].  [via_items]: the mapping arrives as
    [data.items()], which [represent_mapping] does not take for a mapping
    and never sorts; otherwise it sorts when [sort_keys] is set. *)
Fixpoint represent (via_items sort_keys : bool) (data : pyobj) : node :=
  match data with
  | PStr s => ScalarNode s
  | PDict items =>
      let value :=
        map (fun kv => (kv.1, represent via_items sort_keys kv.2)) items in
      MappingNode
        (if negb via_items && sort_keys then sorted_items value else value)
  end.


(** prompt_list_node.py, line 283: the stock dumper, [sort_keys=True]. *)
Definition PromptList_represent : pyobj -> node := represent false true.

(** FlexPreset.py, lines 23-25: [OrderedDict(loader.construct_pairs(node))];
    [yaml.safe_load] fills a [dict] pair by pair, which orders the keys the
    same way. *)
Fixpoint construct_mapping (n : node) : pyobj :=
  match n with
  | ScalarNode s => PStr s
  | MappingNode value =>
      PDict (OD.of_pairs (map (fun kv => (kv.1, construct_mapping kv.2)) value))
  end.



Section Text.
Context {text : Type}.
Variable serialize : node -> text.
Variable compose : text -> option node.



(** NS_PromptList._save_yaml and the reads of prompt_list_node.py *)
Definition PromptList_dump (d : pyobj) : text :=
  serialize (PromptList_represent d).

Definition safe_load (t : text) : option pyobj :=
  construct_mapping <$> compose t.

End Text.
End Codec.

(** ** Sample presets

    An environment to run the definitions in: a writer and a reader for
    the block style in which PyYAML lays out a document of presets, panels
    and fields, with keys and values free of YAML punctuation. *)

Module Sample.
Import Py FlexPreset.

Definition is_letter (c : ascii) : bool :=
  (((65 <=? code c) && (code c <=? 90))
   || ((97 <=? code c) && (code c <=? 122)))%N.

(** Text that PyYAML writes without quotes. *)
Definition is_plain (s : string) : bool :=
  match s with
  | String c _ =>
      is_letter c
      && all_chars (fun c => is_letter c || is_digit c || Ascii.eqb c "_") s
      && negb (String.eqb s "null")
  | EmptyString => false
  end.

Definition scalar (s : string) : string :=
  if is_plain s then s else "'" +:+ s +:+ "'".

Definition emit_entry (indent key : string) (v : option string) : string :=
  match v with
  | Some s => indent +:+ key +:+ ": " +:+ scalar s +:+ nl
  | None => ""
  end.

Definition emit_field (kv : string * field_node) : string :=
  match kv.2 with
  | FDict None None => "    " +:+ kv.1 +:+ ": {}" +:+ nl
  | FDict ftype fvalue =>
      "    " +:+ kv.1 +:+ ":" +:+ nl
      +:+ emit_entry "      " "type" ftype
      +:+ emit_entry "      " "value" fvalue
  | FNotDict => "    " +:+ kv.1 +:+ ": null" +:+ nl
  end.

Definition concat_map {A : Type} (f : A -> string) (l : list A) : string :=
  fold_right (fun x acc => f x +:+ acc) "" l.

Definition emit_panel (kv : string * Panel) : string :=
  match kv.2 with
  | [] => "  " +:+ kv.1 +:+ ": {}" +:+ nl
  | _ :: _ => "  " +:+ kv.1 +:+ ":" +:+ nl +:+ concat_map emit_field kv.2
  end.

Definition emit_preset (kv : string * preset_node) : string :=
  match kv.2 with
  | PDict [] => kv.1 +:+ ": {}" +:+ nl
  | PDict panels => kv.1 +:+ ":" +:+ nl +:+ concat_map emit_panel panels
  | PNotDict => kv.1 +:+ ": null" +:+ nl
  end.

Definition dump (d : Document) : string :=
  match d with
  | [] => "{}" +:+ nl
  | _ :: _ => concat_map emit_preset d
  end.

(** The reader, line by line. *)
Fixpoint lines_from (cur : string) (s : string) : list string :=
  match s with
  | String c s' =>
      if Ascii.eqb c newline then cur :: lines_from "" s'
      else lines_from (cur +:+ String c "") s'
  | EmptyString => if is_empty cur then [] else [cur]
  end.

Fixpoint indent_of (s : string) : nat * string :=
  match s with
  | String c s' =>
      if Ascii.eqb c " " then let '(n, r) := indent_of s' in (S n, r)
      else (O, s)
  | EmptyString => (O, s)
  end.

(** The text before the first colon, and the text after it. *)
Fixpoint split_colon (s : string) : option (string * string) :=
  match s with
  | String c s' =>
      if Ascii.eqb c ":" then Some ("", s')
      else
        match split_colon s' with
        | Some (k, r) => Some (String c k, r)
        | None => None
        end
  | EmptyString => None
  end.

Inductive line_value : Type :=
| LOpen                 (* [key:] *)
| LEmpty                (* [key: {}] *)
| LNull                 (* [key: null] *)
| LText (s : string).   (* [key: text] *)

Definition unquote (s : string) : option string :=
  match s with
  | String c s' =>
      if Ascii.eqb c "'" then
        if ends_with "'" s' && negb (is_empty s')
        then Some (String.substring 0 (String.length s' - 1) s')
        else None
      else if is_plain s then Some s
      else None
  | EmptyString => None
  end.

Definition line_value_of (rest : string) : option line_value :=
  match rest with
  | EmptyString => Some LOpen
  | String c v =>
      if negb (Ascii.eqb c " ") then None
      else if String.eqb v "{}" then Some LEmpty
      else if String.eqb v "null" then Some LNull
      else LText <$> unquote v
  end.

Fixpoint on_last {A : Type} (f : A -> option A) (l : list A)
    : option (list A) :=
  match l with
  | [] => None
  | x :: l' =>
      match l' with
      | [] => (fun y => [y]) <$> f x
      | _ :: _ => cons x <$> on_last f l'
      end
  end.

Definition in_last_preset (f : list (string * Panel) -> option (list (string * Panel)))
    (d : Document) : option Document :=
  on_last
    (fun kv =>
       match kv.2 with
       | PDict panels => (fun ps => (kv.1, PDict ps)) <$> f panels
       | PNotDict => None
       end) d.

Definition in_last_panel (f : Panel -> option Panel) (d : Document)
    : option Document :=
  in_last_preset (on_last (fun kv => (fun p => (kv.1, p)) <$> f kv.2)) d.

Definition add_entry (key text : string) (kv : string * field_node)
    : option (string * field_node) :=
  match kv.2 with
  | FDict ftype fvalue =>
      if String.eqb key "type" then Some (kv.1, FDict (Some text) fvalue)
      else if String.eqb key "value" then Some (kv.1, FDict ftype (Some text))
      else None
  | FNotDict => None
  end.

Definition add_line (acc : option Document) (line : string)
    : option Document :=
  match acc with
  | None => None
  | Some d =>
      let '(indent, body) := indent_of line in
      if starts_with "#" body || String.eqb line "{}" then Some d
      else
        match split_colon body with
        | None => None
        | Some (key, rest) =>
            match indent, line_value_of rest with
            | 0%nat, Some LNull => Some (d ++ [(key, PNotDict)])
            | 0%nat, Some (LText _) => Some (d ++ [(key, PNotDict)])
            | 0%nat, Some _ => Some (d ++ [(key, PDict [])])
            | 2%nat, Some LOpen =>
                in_last_preset (fun ps => Some (ps ++ [(key, [])])) d
            | 2%nat, Some LEmpty =>
                in_last_preset (fun ps => Some (ps ++ [(key, [])])) d
            | 4%nat, Some LNull =>
                in_last_panel (fun p => Some (p ++ [(key, FNotDict)])) d
            | 4%nat, Some (LText _) =>
                in_last_panel (fun p => Some (p ++ [(key, FNotDict)])) d
            | 4%nat, Some _ =>
                in_last_panel (fun p => Some (p ++ [(key, FDict None None)])) d
            | 6%nat, Some (LText text) =>
                in_last_panel (on_last (add_entry key text)) d
            | _, _ => None
            end
        end
  end.

Definition load (text : string) : option pytop :=
  match fold_left add_line (lines_from "" text) (Some []) with
  | Some [] => Some TopFalsy
  | Some d => Some (TopDoc d)
  | None => None
  end.

#[export] Instance env : PyEnv := {|
  yaml_load := load;
  yaml_dump := dump;
  int_max_str_digits := DEFAULT_MAX_STR_DIGITS
|}.

Definition field (ty v : string) : field_node := FDict (Some ty) (Some v).

(** width, height, depth: three integers. *)
Definition box : Document :=
  [("box",
    PDict [("values",
            [("width", field "int" "640");
             ("height", field "int" "480");
             ("depth", field "int" "3")])])].

(** One field of each type, and a second, empty preset. *)
Definition mixed : Document :=
  [("main",
    PDict [("values",
            [("a", field "int" "12");
             ("b", field "float" "0.5");
             ("c", field "string" "hello")])]);
   ("spare", PDict [("values", [])])].

(** A field declared [int] that holds a word. *)
Definition broken : Document :=
  [("main",
    PDict [("values",
            [("steps", field "int" "abc");
             ("label", field "string" "x")])])].

(** An unfinished flow sequence: a scanner error. *)
Definition garbage : string := "main: [unclosed".

Definition fresh : Inst := mkInst [] false [] [].

Definition world (fs : gmap string string) (i : Inst) : World :=
  mkWorld fs true "20240101_120000" NoCurrentLoop i
    ["STRING"] ["output"] [] [].

Definition presets_dir : gmap string string :=
  {[ "presets.yaml" := dump mixed;
     "box.yaml" := dump box;
     "broken.yaml" := dump broken;
     "torn.yaml" := garbage ]}.

(** A node just started; one whose panel was rearranged by the user, with
    a stale entry left in the tracker; one that is loading a workflow. *)
Definition studio : World := world presets_dir fresh.

Definition arranged : World :=
  world presets_dir (mkInst ["c"; "ghost"; "a"] false [] []).


(** The tracker holds the fields of the box in their on-disk order. *)
Definition boxed : World :=
  world presets_dir (mkInst ["width"; "height"; "depth"] false [] []).

(** Rename height to height_px: with no panel order, and with the panel
    order the user arranged. *)
Definition rename_height : key_request :=
  mkKeyRequest "box.yaml" "box" "height" "height_px" [].

Definition rename_height_arranged : key_request :=
  mkKeyRequest "box.yaml" "box" "height" "height_px"
    ["depth"; "height_px"; "width"].

(** Store a word in a field declared int. *)
Definition store_word : value_request :=
  mkValueRequest "box.yaml" "box" "height" "int" "tall" false.

(** An integer literal of 4301 digits, and a preset that stores it in a
    field declared int. *)
Definition long_number : string := repeat_char "1" 4301.

Definition hoard : Document :=
  [("main", PDict [("values", [("seed", field "int" long_number)])])].

Definition vault : World :=
  world {[ "hoard.yaml" := dump hoard ]} fresh.

(** A prompt list in a thread without an event loop, its directory
    read-only. *)
Definition read_only_prompts : PromptList.World :=
  PromptList.mkWorld ∅ false NoCurrentLoop [].

(** Two prompts, the later title first in the alphabet. *)
Definition prompts : Codec.pyobj :=
  Codec.PDict
    [("sunset", Codec.PDict [("prompt", Codec.PStr "golden hour")]);
     ("forest", Codec.PDict [("prompt", Codec.PStr "morning mist")])].





(** An empty directory that refuses writes. *)
Definition sealed : World :=
  mkWorld ∅ false "20240101_120000" NoCurrentLoop fresh
    ["STRING"] ["output"] [] [].

Definition delete_height : delete_request :=
  mkDeleteRequest "box.yaml" "box" "height".

(** The same for the prompt list: titles at the margin, the keys of an
    entry two spaces in, titles and keys in alphabetical order. *)
Fixpoint insert_by_key {V : Type} (kv : string * V) (l : list (string * V))
    : list (string * V) :=
  match l with
  | [] => [kv]
  | kv' :: l' =>
      if String.ltb kv.1 kv'.1 then kv :: l else kv' :: insert_by_key kv l'
  end.

Definition sort_by_key {V : Type} (l : list (string * V))
    : list (string * V) :=
  fold_right insert_by_key [] l.

Definition emit_prompt_entry (kv : string * PromptList.entry_node)
    : string :=
  match kv.2 with
  | PromptList.EDict [] => kv.1 +:+ ": {}" +:+ nl
  | PromptList.EDict items =>
      kv.1 +:+ ":" +:+ nl
      +:+ concat_map (fun item => emit_entry "  " item.1 (Some item.2))
            (sort_by_key items)
  | PromptList.ENotDict => kv.1 +:+ ": null" +:+ nl
  end.

Definition prompt_dump (d : PromptList.Document) : string :=
  match d with
  | [] => "{}" +:+ nl
  | _ :: _ => concat_map emit_prompt_entry (sort_by_key d)
  end.

Definition add_prompt_item (key text : string)
    (kv : string * PromptList.entry_node)
    : option (string * PromptList.entry_node) :=
  match kv.2 with
  | PromptList.EDict items => Some (kv.1, PromptList.EDict (items ++ [(key, text)]))
  | PromptList.ENotDict => None
  end.

Definition add_prompt_line (acc : option PromptList.Document) (line : string)
    : option PromptList.Document :=
  match acc with
  | None => None
  | Some d =>
      let '(indent, body) := indent_of line in
      if starts_with "#" body || String.eqb line "{}" then Some d
      else
        match split_colon body with
        | None => None
        | Some (key, rest) =>
            match indent, line_value_of rest with
            | 0%nat, Some LNull => Some (d ++ [(key, PromptList.ENotDict)])
            | 0%nat, Some (LText _) => Some (d ++ [(key, PromptList.ENotDict)])
            | 0%nat, Some _ => Some (d ++ [(key, PromptList.EDict [])])
            | 2%nat, Some (LText text) => on_last (add_prompt_item key text) d
            | _, _ => None
            end
        end
  end.

Definition prompt_load (text : string) : option PromptList.pytop :=
  match fold_left add_prompt_line (lines_from "" text) (Some []) with
  | Some [] => Some PromptList.TopFalsy
  | Some d => Some (PromptList.TopDoc d)
  | None => None
  end.

#[export] Instance prompt_env : PromptList.PyEnv := {|
  PromptList.safe_load := prompt_load;
  PromptList.yaml_dump := prompt_dump
|}.

(** Two prompts, the second with a negative prompt beside it. *)
Definition notes : PromptList.Document :=
  [("sunset", PromptList.EDict [("prompt", "golden hour")]);
   ("forest",
    PromptList.EDict [("prompt", "morning mist"); ("negative", "fog")])].

(** A prompt list whose loop is idle, with one file that loads and one
    that does not. *)
Definition notebook : PromptList.World :=
  PromptList.mkWorld
    {[ "prompts.yaml" := prompt_dump notes; "torn.yaml" := garbage ]}
    true LoopIdle [].

End Sample.

(* ===================================================================== *)
(** * Part II. Properties                                                 *)
(* ===================================================================== *)

(** ** Lists and ordered mappings *)

Ltac compute_nodup :=
  refine (bool_decide_unpack _ _); vm_compute; exact I.

Lemma in_list_true (x : string) (l : list string) :
  Py.in_list x l = true <-> In x l.
Proof.
  unfold Py.in_list. rewrite existsb_exists. split.
  - intros (y & Hy & Heq). apply String.eqb_eq in Heq. by subst.
  - intros Hin. exists x. split; [done | apply String.eqb_refl].
Qed.


Lemma od_mem_true {V : Type} (k : string) (d : list (string * V)) :
  OD.mem k d = true <-> In k (OD.keys d).
Proof.
  unfold OD.mem. induction d as [|[k' v] d IH]; simpl.
  - split; [discriminate | tauto].
  - destruct (String.eqb k k') eqn:E.
    + apply String.eqb_eq in E. subst. tauto.
    + apply String.eqb_neq in E. rewrite IH. split; [tauto |].
      intros [Heq | Hin]; [congruence | done].
Qed.

Lemma od_get_mem {V : Type} (k : string) (d : list (string * V)) :
  OD.mem k d = true <-> is_Some (OD.get k d).
Proof.
  unfold OD.mem. destruct (OD.get k d); split; intros Hx;
    first [done | by eexists | by destruct Hx].
Qed.

(** The first loop of the ordering: the tracker, filtered. *)
Lemma fold_keep_filter {A : Type} (p : A -> bool) (l init : list A) :
  fold_left (fun acc x => if p x then acc ++ [x] else acc) l init
  = init ++ List.filter p l.
Proof.
  revert init. induction l as [|x l IH]; intros init; simpl.
  - by rewrite app_nil_r.
  - rewrite IH. destruct (p x); [| done].
    by rewrite <- app_assoc.
Qed.


Lemma od_get_notin {V : Type} (k : string) (d : list (string * V)) :
  ~ In k (OD.keys d) -> OD.get k d = None.
Proof.
  intros Hk. destruct (OD.get k d) eqn:E; [| done].
  exfalso. apply Hk, od_mem_true. unfold OD.mem. by rewrite E.
Qed.

(** [d[k] = v]: the keys keep their order, a new key goes last; [k] now
    holds [v]; the other keys hold what they held. *)
Lemma od_set_keys {V : Type} (k : string) (v : V) (d : list (string * V)) :
  OD.keys (OD.set k v d)
  = if OD.mem k d then OD.keys d else OD.keys d ++ [k].
Proof.
  unfold OD.mem. induction d as [|[k' v'] d IH]; simpl; [done |].
  destruct (String.eqb k k') eqn:E; simpl; [done |].
  rewrite IH. by destruct (OD.get k d).
Qed.

Lemma od_get_set {V : Type} (k : string) (v : V) (d : list (string * V)) :
  OD.get k (OD.set k v d) = Some v.
Proof.
  induction d as [|[k' v'] d IH]; simpl.
  - by rewrite String.eqb_refl.
  - destruct (String.eqb k k') eqn:E; simpl; by rewrite E.
Qed.

Lemma od_get_set_other {V : Type} (k k0 : string) (v : V)
    (d : list (string * V)) :
  k0 <> k -> OD.get k0 (OD.set k v d) = OD.get k0 d.
Proof.
  intros Hne. induction d as [|[k' v'] d IH]; simpl.
  - apply String.eqb_neq in Hne. by rewrite Hne.
  - destruct (String.eqb k k') eqn:E; simpl; [| by rewrite IH].
    apply String.eqb_eq in E. subst k'.
    apply String.eqb_neq in Hne. by rewrite Hne.
Qed.

Lemma od_set_fresh {V : Type} (k : string) (v : V) (d : list (string * V)) :
  ~ In k (OD.keys d) -> OD.set k v d = d ++ [(k, v)].
Proof.
  unfold OD.keys. induction d as [|[k' v'] d IH]; simpl; [done |].
  intros Hk. destruct (String.eqb k k') eqn:E.
  - apply String.eqb_eq in E. subst. tauto.
  - rewrite IH; [done | tauto].
Qed.

(** Pairs with distinct keys, put into a mapping one by one, stay as they
    are. *)
Lemma od_fold_set_fresh {V : Type} (l acc : list (string * V)) :
  NoDup (OD.keys (acc ++ l)) ->
  fold_left (fun d kv => OD.set kv.1 kv.2 d) l acc = acc ++ l.
Proof.
  revert acc. induction l as [|[k v] l IH]; intros acc Hnd; simpl.
  - by rewrite app_nil_r.
  - assert (Hk : ~ In k (OD.keys acc)).
    { unfold OD.keys in *. rewrite map_app in Hnd. simpl in Hnd.
      apply NoDup_app in Hnd. destruct Hnd as (_ & Hdisj & _).
      intros Hin. apply list_elem_of_In in Hin.
      apply (Hdisj k Hin). by left. }
    rewrite od_set_fresh by done. rewrite IH; rewrite <- app_assoc; done.
Qed.

Lemma od_of_pairs_nodup {V : Type} (l : list (string * V)) :
  NoDup (OD.keys l) -> OD.of_pairs l = l.
Proof. intros Hnd. unfold OD.of_pairs. by rewrite od_fold_set_fresh. Qed.

(** ** Text *)

Lemma append_cons (x : ascii) (a b : string) :
  String x a +:+ b = String x (a +:+ b).
Proof. reflexivity. Qed.

Lemma append_nil (b : string) : "" +:+ b = b.
Proof. reflexivity. Qed.

Lemma append_assoc (a b c : string) : (a +:+ b) +:+ c = a +:+ (b +:+ c).
Proof.
  induction a as [|x a IH]; [done |].
  by rewrite !append_cons, IH.
Qed.

Lemma length_append (a b : string) :
  String.length (a +:+ b) = (String.length a + String.length b)%nat.
Proof.
  induction a as [|x a IH]; [done |].
  rewrite append_cons. simpl. by rewrite IH.
Qed.



(** ** Validation patterns and conversions *)

Module PyFacts.
Import Py.

Lemma star_loop_class (body : mstate -> (mstate -> bool) -> bool)
    (p : ascii -> bool) (K : mstate -> bool) :
  (forall st k, body st k = step_char p st k) ->
  forall (fuel n : nat) (s : string),
    (String.length s <= fuel)%nat ->
    star_loop body K fuel (n, s) = true
    <-> exists a b : string,
          s = a +:+ b /\ all_chars p a = true
          /\ K ((n + String.length a)%nat, b) = true.
Proof.
  intros Hbody.
  assert (Hstop : forall n b, K (n, b) = true ->
    exists a b' : string, b = a +:+ b' /\ all_chars p a = true
      /\ K ((n + String.length a)%nat, b') = true).
  { intros n b HK. exists "", b. simpl. by rewrite Nat.add_0_r. }
  induction fuel as [|fuel IH]; intros n s Hlen.
  - destruct s; [| simpl in Hlen; lia]. simpl. split; [apply Hstop |].
    intros (a & b & Hs & _ & HK). destruct a; [| discriminate].
    rewrite append_nil in Hs. subst b. simpl in HK.
    by rewrite Nat.add_0_r in HK.
  - cbn [star_loop]. rewrite Hbody. unfold step_char. cbn [fst snd].
    destruct s as [|c s'].
    + simpl. split; [apply Hstop |].
      intros (a & b & Hs & _ & HK). destruct a; [| discriminate].
      rewrite append_nil in Hs. subst b. simpl in HK.
      by rewrite Nat.add_0_r in HK.
    + assert (Hlt : (String.length s' <? String.length (String c s'))%nat
                    = true).
      { apply Nat.ltb_lt. simpl. lia. }
      rewrite Hlt. simpl in Hlen. split.
      * intros Hor. apply orb_true_iff in Hor.
        destruct Hor as [Hstep | HK]; [| by apply Hstop].
        apply andb_true_iff in Hstep. destruct Hstep as [Hp Hrest].
        simpl in Hrest. apply IH in Hrest; [| lia].
        destruct Hrest as (a & b & Hs & Ha & HK).
        exists (String c a), b. rewrite append_cons. simpl.
        rewrite Hp, Ha, Hs. repeat split.
        by rewrite Nat.add_succ_r.
      * intros (a & b & Hs & Ha & HK). apply orb_true_iff.
        destruct a as [|c' a'].
        -- right. rewrite append_nil in Hs. subst b. simpl in HK.
           by rewrite Nat.add_0_r in HK.
        -- left. rewrite append_cons in Hs. injection Hs as <- ->.
           simpl in Ha. apply andb_true_iff in Ha. destruct Ha as [Hp Ha].
           rewrite Hp. simpl. apply IH; [lia |].
           exists a', b. repeat split; [done |].
           simpl in HK. by rewrite Nat.add_succ_r in HK.
Qed.

Lemma m_digit (st : mstate) (k : mstate -> bool) :
  m (Range "0" "9") st k = step_char is_digit st k.
Proof. reflexivity. Qed.

Lemma m_star_digits (K : mstate -> bool) (n : nat) (s : string) :
  m (Star (Range "0" "9")) (n, s) K = true
  <-> exists a b : string,
        s = a +:+ b /\ all_chars is_digit a = true
        /\ K ((n + String.length a)%nat, b) = true.
Proof.
  change (m (Star (Range "0" "9")) (n, s) K)
    with (star_loop (m (Range "0" "9")) K (String.length s) (n, s)).
  by apply (star_loop_class _ is_digit K m_digit).
Qed.

Lemma m_plus_digits (K : mstate -> bool) (n : nat) (s : string) :
  m (Plus (Range "0" "9")) (n, s) K = true
  <-> exists (c : ascii) (a b : string),
        s = String c (a +:+ b) /\ is_digit c = true
        /\ all_chars is_digit a = true
        /\ K ((S n + String.length a)%nat, b) = true.
Proof.
  change (m (Plus (Range "0" "9")) (n, s) K)
    with (step_char is_digit (n, s)
            (fun st' =>
               star_loop (m (Range "0" "9")) K (String.length st'.2) st')).
  unfold step_char. cbn [fst snd]. destruct s as [|c s'].
  - split; [done |]. by intros (c & a & b & Hs & _).
  - split.
    + intros Hm. apply andb_true_iff in Hm. destruct Hm as [Hc Hs].
      apply (star_loop_class _ is_digit K m_digit) in Hs; [| done].
      destruct Hs as (a & b & -> & Ha & HK). by exists c, a, b.
    + intros (c' & a & b & Hs & Hc & Ha & HK). injection Hs as <- ->.
      rewrite Hc. simpl.
      apply (star_loop_class _ is_digit K m_digit); [done |].
      by exists a, b.
Qed.

Lemma m_opt_lit (K : mstate -> bool) (c : ascii) (n : nat) (s : string) :
  m (Opt (Lit c)) (n, s) K = true
  <-> (exists s' : string, s = String c s' /\ K (S n, s') = true)
      \/ K (n, s) = true.
Proof.
  change (m (Opt (Lit c)) (n, s) K)
    with (step_char (Ascii.eqb c) (n, s) K || K (n, s)).
  unfold step_char. cbn [fst snd]. rewrite orb_true_iff.
  destruct s as [|d s'].
  - split; (intros [Hl | Hr]; [| by right]); [done |].
    by destruct Hl as (s' & Hs & _).
  - split; (intros [Hl | Hr]; [| by right]); left.
    + apply andb_true_iff in Hl. destruct Hl as [Hc HK].
      apply Ascii.eqb_eq in Hc. subst. by exists s'.
    + destruct Hl as (s'' & Hs & HK). injection Hs as <- <-.
      by rewrite Ascii.eqb_refl.
Qed.

(** What the two numeric patterns match: a sign, digits, and the end of
    the text or a last newline; for a float, a point may stand before the
    digits, and further digits before the point. *)
Lemma int_pattern_shape (s : string) :
  re_match "^-?[0-9]+$" s = true
  <-> exists (sign : string) (c : ascii) (ds tail : string),
        s = sign +:+ String c (ds +:+ tail)
        /\ (sign = "" \/ sign = "-")
        /\ is_digit c = true /\ all_chars is_digit ds = true
        /\ at_eol tail = true.
Proof.
  change (re_match "^-?[0-9]+$" s)
    with (m (Opt (Lit "-")) (O, s)
            (fun st =>
               m (Plus (Range "0" "9")) st (fun st' => at_eol st'.2 && true))).
  rewrite m_opt_lit. split.
  - intros [(s' & -> & Hm) | Hm]; apply m_plus_digits in Hm;
      destruct Hm as (c & ds & tail & -> & Hc & Hds & Htail);
      simpl in Htail; rewrite andb_true_r in Htail.
    + exists "-", c, ds, tail. repeat split; try done. by right.
    + exists "", c, ds, tail. repeat split; try done. by left.
  - intros (sign & c & ds & tail & -> & [-> | ->] & Hc & Hds & Htail).
    + right. rewrite append_nil. apply m_plus_digits.
      exists c, ds, tail. simpl. by rewrite Htail.
    + left. eexists. split; [reflexivity |]. apply m_plus_digits.
      exists c, ds, tail. simpl. by rewrite Htail.
Qed.

Lemma float_pattern_shape (s : string) :
  re_match "^-?[0-9]*\.?[0-9]+$" s = true
  <-> exists (sign whole point : string) (c : ascii) (ds tail : string),
        s = sign +:+ whole +:+ point +:+ String c (ds +:+ tail)
        /\ (sign = "" \/ sign = "-")
        /\ all_chars is_digit whole = true
        /\ (point = "" \/ point = ".")
        /\ is_digit c = true /\ all_chars is_digit ds = true
        /\ at_eol tail = true.
Proof.
  change (re_match "^-?[0-9]*\.?[0-9]+$" s)
    with (m (Opt (Lit "-")) (O, s)
            (fun st =>
               m (Star (Range "0" "9")) st
                 (fun st1 =>
                    m (Opt (Lit ".")) st1
                      (fun st2 =>
                         m (Plus (Range "0" "9")) st2
                           (fun st' => at_eol st'.2 && true))))).
  rewrite m_opt_lit.
  assert (Hrest : forall n s1,
    m (Star (Range "0" "9")) (n, s1)
      (fun st1 =>
         m (Opt (Lit ".")) st1
           (fun st2 =>
              m (Plus (Range "0" "9")) st2 (fun st' => at_eol st'.2 && true)))
    = true
    <-> exists (whole point : string) (c : ascii) (ds tail : string),
          s1 = whole +:+ point +:+ String c (ds +:+ tail)
          /\ all_chars is_digit whole = true
          /\ (point = "" \/ point = ".")
          /\ is_digit c = true /\ all_chars is_digit ds = true
          /\ at_eol tail = true).
  { intros n s1. rewrite m_star_digits. split.
    - intros (whole & b & -> & Hwhole & Hm).
      apply m_opt_lit in Hm.
      destruct Hm as [(s' & -> & Hm) | Hm]; apply m_plus_digits in Hm;
        destruct Hm as (c & ds & tail & -> & Hc & Hds & Htail);
        simpl in Htail; rewrite andb_true_r in Htail.
      + exists whole, ".", c, ds, tail. repeat split; try done. by right.
      + exists whole, "", c, ds, tail. repeat split; try done. by left.
    - intros (whole & point & c & ds & tail & -> & Hwhole & Hpoint & Hc
              & Hds & Htail).
      eexists whole, _. split; [reflexivity |]. split; [done |].
      apply m_opt_lit. destruct Hpoint as [-> | ->].
      + right. rewrite append_nil. apply m_plus_digits.
        exists c, ds, tail. simpl. by rewrite Htail.
      + left. eexists. split; [reflexivity |]. apply m_plus_digits.
        exists c, ds, tail. simpl. by rewrite Htail. }
  split.
  - intros [(s' & -> & Hm) | Hm]; apply Hrest in Hm;
      destruct Hm as (whole & point & c & ds & tail & -> & Hw & Hp & Hc
                      & Hds & Ht).
    + exists "-", whole, point, c, ds, tail. repeat split; try done. by right.
    + exists "", whole, point, c, ds, tail. repeat split; try done. by left.
  - intros (sign & whole & point & c & ds & tail & -> & [-> | ->] & Hw & Hp
            & Hc & Hds & Ht).
    + right. rewrite append_nil. apply Hrest.
      by exists whole, point, c, ds, tail.
    + left. eexists. split; [reflexivity |]. apply Hrest.
      by exists whole, point, c, ds, tail.
Qed.

(** *** Digits under [strip], [int] and [float] *)

Lemma digit_facts (c : ascii) :
  is_digit c = true ->
  is_space c = false /\ Ascii.eqb c "-" = false /\ Ascii.eqb c "+" = false
  /\ Ascii.eqb c "_" = false /\ Ascii.eqb c "." = false
  /\ Ascii.eqb (lower c) "i" = false /\ Ascii.eqb (lower c) "n" = false.
Proof.
  destruct c as [[] [] [] [] [] [] [] []]; vm_compute; intros Hd;
    first [discriminate Hd | repeat split].
Qed.

Lemma at_eol_cases (tail : string) :
  at_eol tail = true -> tail = "" \/ tail = String newline "".
Proof.
  destruct tail as [|c [|d tail]]; simpl; intros Heol; try done.
  - by left.
  - right. apply Ascii.eqb_eq in Heol. by subst.
Qed.

Lemma append_empty_r (a : string) : a +:+ "" = a.
Proof.
  induction a as [|x a IH]; [done |]. by rewrite append_cons, IH.
Qed.

Lemma rstrip_digits (ds tail : string) :
  all_chars is_digit ds = true -> at_eol tail = true ->
  rstrip (ds +:+ tail) = ds.
Proof.
  intros Hds Htail. induction ds as [|d ds IH].
  - rewrite append_nil. by destruct (at_eol_cases tail Htail) as [-> | ->].
  - simpl in Hds. apply andb_true_iff in Hds. destruct Hds as [Hd Hds].
    rewrite append_cons. simpl. rewrite IH by done.
    destruct (digit_facts d Hd) as (Hsp & _). by rewrite Hsp.
Qed.

Lemma rstrip_number (x : string) (c : ascii) (ds tail : string) :
  is_digit c = true -> all_chars is_digit ds = true -> at_eol tail = true ->
  rstrip (x +:+ String c (ds +:+ tail)) = x +:+ String c ds.
Proof.
  intros Hc Hds Htail.
  assert (Hnum : rstrip (String c (ds +:+ tail)) = String c ds).
  { change (String c (ds +:+ tail)) with (String c ds +:+ tail).
    apply rstrip_digits; [| done]. simpl. by rewrite Hc. }
  induction x as [|a x IH]; [by rewrite append_nil |].
  rewrite !append_cons. simpl. rewrite IH.
  assert (Hne : is_empty (x +:+ String c ds) = false) by by destruct x.
  rewrite Hne. by rewrite andb_false_r.
Qed.

Lemma digits_tail_run (ds rest : string) (acc : Z) (n : N) :
  all_chars is_digit ds = true ->
  (rest = ""
   \/ exists c r, rest = String c r /\ is_digit c = false
                  /\ Ascii.eqb c "_" = false) ->
  exists v : Z,
    digits_tail acc n (ds +:+ rest)
    = (v, (n + N.of_nat (String.length ds))%N, rest).
Proof.
  intros Hds Hrest. revert acc n.
  induction ds as [|d ds IH]; intros acc n.
  - rewrite append_nil. exists acc. rewrite N.add_0_r.
    destruct Hrest as [-> | (c & r & -> & Hc & Hu)]; [done |].
    simpl. by rewrite Hc, Hu.
  - simpl in Hds. apply andb_true_iff in Hds. destruct Hds as [Hd Hds].
    rewrite append_cons. simpl digits_tail. rewrite Hd.
    destruct (IH Hds (10 * acc + digit_val d) (n + 1)%N) as (v & Hv).
    exists v. rewrite Hv. f_equal. f_equal.
    change (String.length (String d ds)) with (S (String.length ds)). lia.
Qed.

Lemma digitpart_run (c : ascii) (ds rest : string) :
  is_digit c = true -> all_chars is_digit ds = true ->
  (rest = ""
   \/ exists c r, rest = String c r /\ is_digit c = false
                  /\ Ascii.eqb c "_" = false) ->
  exists v : Z,
    digitpart (String c (ds +:+ rest))
    = Some (v, (1 + N.of_nat (String.length ds))%N, rest).
Proof.
  intros Hc Hds Hrest. unfold digitpart. rewrite Hc.
  destruct (digits_tail_run ds rest (digit_val c) 1%N Hds Hrest) as (v & Hv).
  exists v. by rewrite Hv.
Qed.

Lemma count_digits_append (a b : string) :
  count_digits (a +:+ b) = (count_digits a + count_digits b)%N.
Proof.
  induction a as [|x a IH]; [done |].
  rewrite append_cons. simpl. rewrite IH. lia.
Qed.

Lemma count_digits_run (ds : string) :
  all_chars is_digit ds = true ->
  count_digits ds = N.of_nat (String.length ds).
Proof.
  induction ds as [|d ds IH]; [done |]. simpl.
  intros Hds. apply andb_true_iff in Hds. destruct Hds as [Hd Hds].
  rewrite Hd, IH by done. lia.
Qed.

(** [int] on what the int pattern matches: it fails only on the digit
    limit. *)
Lemma py_int_matched (limit : N) (sign : string) (c : ascii)
    (ds tail : string) :
  (sign = "" \/ sign = "-") ->
  is_digit c = true -> all_chars is_digit ds = true -> at_eol tail = true ->
  count_digits (sign +:+ String c (ds +:+ tail))
  = (1 + N.of_nat (String.length ds))%N
  /\ exists z : Z,
       py_int limit (sign +:+ String c (ds +:+ tail))
       = if ((MAX_STR_DIGITS_THRESHOLD <? 1 + N.of_nat (String.length ds))
             && (0 <? limit)
             && (limit <? 1 + N.of_nat (String.length ds)))%N
         then None else Some z.
Proof.
  intros Hsign Hc Hds Htail.
  destruct (digit_facts c Hc) as (Hsp & Hminus & Hplus & _).
  split.
  { rewrite count_digits_append. cbn [count_digits]. rewrite Hc.
    rewrite count_digits_append, (count_digits_run ds Hds).
    assert (Ht : count_digits tail = 0%N).
    { by destruct (at_eol_cases tail Htail) as [-> | ->]. }
    rewrite Ht. destruct Hsign as [-> | ->]; simpl count_digits; lia. }
  assert (Hstrip : strip (sign +:+ String c (ds +:+ tail))
                   = sign +:+ String c ds).
  { unfold strip.
    assert (Hl : lstrip (sign +:+ String c (ds +:+ tail))
                 = sign +:+ String c (ds +:+ tail)).
    { destruct Hsign as [-> | ->].
      - rewrite append_nil. simpl. by rewrite Hsp.
      - reflexivity. }
    rewrite Hl. by apply rstrip_number. }
  destruct (digitpart_run c ds "" Hc Hds (or_introl eq_refl)) as (v & Hv).
  rewrite append_empty_r in Hv.
  unfold py_int. rewrite Hstrip.
  destruct Hsign as [-> | ->].
  - rewrite append_nil. simpl split_sign. rewrite Hminus, Hplus.
    rewrite Hv. exists v. by destruct (_ && _ && _).
  - change ("-" +:+ String c ds) with (String "-" (String c ds)).
    simpl split_sign. cbv iota beta. rewrite Hv. exists (- v).
    by destruct (_ && _ && _).
Qed.

(** [float] on what the float pattern matches. *)
Lemma py_float_matched (sign whole point : string) (c : ascii)
    (ds tail : string) :
  (sign = "" \/ sign = "-") ->
  all_chars is_digit whole = true ->
  (point = "" \/ point = ".") ->
  is_digit c = true -> all_chars is_digit ds = true -> at_eol tail = true ->
  exists f : float_lit,
    py_float (sign +:+ whole +:+ point +:+ String c (ds +:+ tail)) = Some f.
Proof.
  intros Hsign Hwhole Hpoint Hc Hds Htail.
  set (body := whole +:+ point +:+ String c ds).
  assert (Hstrip :
    strip (sign +:+ whole +:+ point +:+ String c (ds +:+ tail))
    = sign +:+ body).
  { unfold strip.
    assert (Hr : rstrip (sign +:+ whole +:+ point +:+ String c (ds +:+ tail))
                 = sign +:+ body).
    { subst body. rewrite <- !append_assoc. by apply rstrip_number. }
    assert (Hl : lstrip (sign +:+ whole +:+ point +:+ String c (ds +:+ tail))
                 = sign +:+ whole +:+ point +:+ String c (ds +:+ tail)).
    { destruct (digit_facts c Hc) as (Hsp & _).
      destruct Hsign as [-> | ->]; [| reflexivity].
      rewrite append_nil. destruct whole as [|w0 whole].
      - rewrite append_nil.
        destruct Hpoint as [-> | ->]; [| reflexivity].
        rewrite append_nil. simpl. by rewrite Hsp.
      - simpl in Hwhole. apply andb_true_iff in Hwhole.
        destruct Hwhole as [Hw0 _].
        destruct (digit_facts w0 Hw0) as (Hsp0 & _).
        rewrite append_cons. simpl. by rewrite Hsp0. }
    by rewrite Hl. }
  (* the number itself *)
  assert (Hnumber : forall neg, exists f, float_number neg body = Some f).
  { intros neg. subst body. unfold float_number.
    destruct whole as [|w0 whole].
    - rewrite append_nil.
      destruct (digitpart_run c ds "" Hc Hds (or_introl eq_refl))
        as (v & Hv).
      rewrite append_empty_r in Hv.
      destruct Hpoint as [-> | ->].
      + rewrite append_nil, Hv. by eexists.
      + change ("." +:+ String c ds) with (String "." (String c ds)).
        unfold digitpart at 1. change (is_digit ".") with false. cbn iota.
        change (Ascii.eqb "." ".") with true. cbn iota.
        rewrite Hv. simpl. by eexists.
    - simpl in Hwhole. apply andb_true_iff in Hwhole.
      destruct Hwhole as [Hw0 Hwhole]. rewrite append_cons.
      destruct Hpoint as [-> | ->].
      + rewrite append_nil.
        assert (Hall : all_chars is_digit (whole +:+ String c ds) = true).
        { clear -Hwhole Hc Hds. induction whole as [|x whole IH].
          - rewrite append_nil. simpl. by rewrite Hc.
          - simpl in Hwhole. apply andb_true_iff in Hwhole.
            destruct Hwhole as [Hx Hwhole].
            rewrite append_cons. simpl. rewrite Hx. by apply IH. }
        destruct (digitpart_run w0 _ "" Hw0 Hall (or_introl eq_refl))
          as (v & Hv).
        rewrite append_empty_r in Hv. rewrite Hv. by eexists.
      + change ("." +:+ String c ds) with (String "." (String c ds)).
        destruct (digitpart_run w0 whole (String "." (String c ds)) Hw0 Hwhole)
          as (v & Hv).
        { right. by exists "."%char, (String c ds). }
        rewrite Hv. change (Ascii.eqb "." ".") with true. cbn iota.
        destruct (digitpart_run c ds "" Hc Hds (or_introl eq_refl))
          as (v2 & Hv2).
        rewrite append_empty_r in Hv2. rewrite Hv2. simpl. by eexists. }
  (* not one of the words *)
  assert (Hword : forall b0 rest word0 word,
    Ascii.eqb (lower b0) word0 = false ->
    String.eqb (lower_str (String b0 rest)) (String word0 word) = false).
  { intros b0 rest word0 word Hb. simpl. by rewrite Hb. }
  assert (Hfirst : exists b0 rest,
    body = String b0 rest
    /\ Ascii.eqb b0 "-" = false /\ Ascii.eqb b0 "+" = false
    /\ Ascii.eqb (lower b0) "i" = false /\ Ascii.eqb (lower b0) "n" = false).
  { subst body. destruct whole as [|w0 whole].
    - rewrite append_nil. destruct Hpoint as [-> | ->].
      + rewrite append_nil. exists c, ds.
        destruct (digit_facts c Hc) as (_ & ? & ? & _ & _ & ? & ?). done.
      + exists "."%char, (String c ds). done.
    - simpl in Hwhole. apply andb_true_iff in Hwhole.
      destruct Hwhole as [Hw0 _]. rewrite append_cons. eexists w0, _.
      destruct (digit_facts w0 Hw0) as (_ & ? & ? & _ & _ & ? & ?). done. }
  destruct Hfirst as (b0 & rest & Hbody & Hm & Hp & Hi & Hn).
  unfold py_float. rewrite Hstrip.
  assert (Hsplit : exists neg, split_sign (sign +:+ body) = (neg, body)).
  { destruct Hsign as [-> | ->].
    - exists false. rewrite append_nil, Hbody. simpl. by rewrite Hm, Hp.
    - exists true. rewrite Hbody. reflexivity. }
  destruct Hsplit as (neg & ->).
  assert (E1 : String.eqb (lower_str body) "inf" = false).
  { rewrite Hbody. exact (Hword b0 rest "i"%char "nf" Hi). }
  assert (E2 : String.eqb (lower_str body) "infinity" = false).
  { rewrite Hbody. exact (Hword b0 rest "i"%char "nfinity" Hi). }
  assert (E3 : String.eqb (lower_str body) "nan" = false).
  { rewrite Hbody. exact (Hword b0 rest "n"%char "an" Hn). }
  rewrite E1, E2, E3. simpl. apply Hnumber.
Qed.

End PyFacts.

(** ** The schema and the values *)

Module FlexPresetFacts.
Import Py FlexPreset.


Lemma run_order (i : Inst) (panel : Panel) :
  run_keys_to_process i panel = schema_keys_to_process i panel.
Proof.
  unfold run_keys_to_process, schema_keys_to_process.
  destruct panel as [|kv panel]; [| done].
  destruct (_panel_order i) as [|k po]; [done |].
  assert (Hf : forall l : list string,
    List.filter (fun k => @OD.mem field_node k []) l = []).
  { induction l as [|x l IH]; [done | apply IH]. }
  by rewrite fold_keep_filter, Hf.
Qed.

Lemma schema_step_field (panel : Panel) (acc : list string * list string)
    (k : string) :
  schema_step panel acc k
  = if is_field panel k
    then (acc.1 ++ [output_type (declared_type panel k)],
          acc.2 ++ [output_name panel k])
    else acc.
Proof.
  unfold schema_step, is_field, output_name, declared_type, output_type.
  destruct (OD.get k panel) as [[[ty|] v|]|]; simpl; try done.
  - by destruct (String.eqb ty "int"), (String.eqb ty "float").
Qed.

Lemma schema_fold (panel : Panel) (keys : list string)
    (acc : list string * list string) :
  fold_left (schema_step panel) keys acc
  = (acc.1 ++ map (fun k => output_type (declared_type panel k))
                 (List.filter (is_field panel) keys),
     acc.2 ++ map (output_name panel) (List.filter (is_field panel) keys)).
Proof.
  revert acc. induction keys as [|k keys IH]; intros [tys names]; simpl.
  - by rewrite !app_nil_r.
  - rewrite IH, schema_step_field.
    destruct (is_field panel k); simpl; [| done].
    by rewrite <- !app_assoc.
Qed.

Lemma keys_cover_panel (i : Inst) (panel : Panel) (key : string) :
  In key (OD.keys panel) -> In key (schema_keys_to_process i panel).
Proof.
  intros Hin. unfold schema_keys_to_process.
  destruct (_panel_order i) as [|k po]; [done |].
  generalize (fold_left
    (fun acc panel_key =>
       if OD.mem panel_key panel then acc ++ [panel_key] else acc)
    (k :: po) []).
  assert (Hgrow : forall keys acc x, In x acc ->
    In x (fold_left
      (fun acc key => if in_list key acc then acc else acc ++ [key])
      keys acc)).
  { induction keys as [|y keys IH]; intros acc x Hx; simpl; [done |].
    apply IH. destruct (in_list y acc); [done |].
    apply in_or_app. by left. }
  induction (OD.keys panel) as [|y keys IH]; intros acc; simpl; [done |].
  destruct Hin as [-> | Hin]; [| by apply IH].
  apply Hgrow. destruct (in_list key acc) eqn:E.
  - by apply in_list_true.
  - apply in_or_app. right. by left.
Qed.

(** ** Reconciling the values with the schema *)



Section Evaluation.
Context `{PyEnv}.

Lemma value_step_field (panel : Panel) (acc : list pyval) (w : World)
    (k : string) :
  value_step panel (Return acc, w) k
  = if is_field panel k then
      match converted panel k with
      | Some v => (Return (acc ++ [v]), w)
      | None =>
          (Raise (ValueError
                    (error_msg (stored_value panel k)
                       (declared_type panel k) k)),
           print (error_msg (stored_value panel k) (declared_type panel k) k)
             w)
      end
    else (Return acc, w).
Proof.
  unfold value_step, is_field, converted, declared_type, stored_value.
  by destruct (OD.get k panel) as [[[ty|] [v|]|]|].
Qed.

Lemma value_fold_raise (panel : Panel) (keys : list string) (e : exn)
    (w : World) :
  fold_left (value_step panel) keys (Raise e, w) = (Raise e, w).
Proof. induction keys as [|k keys IH]; [done | apply IH]. Qed.

(** The loop of [run] in closed form. *)
Lemma value_fold (panel : Panel) (keys : list string) (acc : list pyval)
    (w : World) :
  fold_left (value_step panel) keys (Return acc, w)
  = match first_failure panel keys with
    | Some k =>
        (Raise (ValueError
                  (error_msg (stored_value panel k) (declared_type panel k) k)),
         print (error_msg (stored_value panel k) (declared_type panel k) k) w)
    | None =>
        (Return (acc ++ omap (converted panel)
                          (List.filter (is_field panel) keys)), w)
    end.
Proof.
  revert acc. unfold first_failure.
  induction keys as [|k keys IH]; intros acc; cbn [fold_left find List.filter].
  - simpl. by rewrite app_nil_r.
  - rewrite value_step_field. unfold fails at 1.
    destruct (is_field panel k); simpl; [| apply IH].
    destruct (converted panel k) as [v|] eqn:E; simpl.
    + rewrite IH. destruct (find _ keys); [done |].
      by rewrite <- app_assoc.
    + apply value_fold_raise.
Qed.


Lemma first_failure_some (panel : Panel) (keys : list string)
    (key : string) :
  In key keys -> fails panel key = true ->
  exists k, first_failure panel keys = Some k /\ In k keys
            /\ fails panel k = true.
Proof.
  intros Hin Hfail. unfold first_failure.
  destruct (find (fails panel) keys) as [k|] eqn:E.
  - exists k. apply find_some in E. tauto.
  - eapply find_none in E; [| done]. congruence.
Qed.

Lemma dynamic_output_types_schema (w : World)
    (select_yaml select_preset input_preset_name : string) :
  let title := title_to_use select_preset input_preset_name in
  (dynamic_output_types w select_yaml select_preset input_preset_name).1
  = if is_empty title || is_empty select_yaml then
      if _workflow_loading (instance w) then ([], []) else default_schema
    else schema_of (instance w) (_get_values_from_yaml w select_yaml title).
Proof.
  intros title. unfold dynamic_output_types, _get_values_from_yaml.
  fold title.
  destruct (is_empty title || is_empty select_yaml).
  { by destruct (_workflow_loading (instance w)). }
  assert (Hnone : forall i, schema_of i [] = default_schema).
  { intros i. unfold schema_of, schema_keys_to_process.
    destruct (_panel_order i) as [|k po]; [done |].
    rewrite fold_keep_filter. simpl.
    assert (Hf : forall l : list string,
      List.filter (fun k => @OD.mem field_node k []) l = []).
    { induction l as [|x l IH]; [done | apply IH]. }
    by rewrite Hf. }
  destruct (path_exists w select_yaml); simpl; [| by rewrite Hnone].
  destruct (load_or_dict w select_yaml) as [[data|has]|]; simpl;
    try by rewrite Hnone.
  rewrite schema_fold. simpl. unfold schema_of.
  by destruct (List.filter _ _).
Qed.

Lemma dynamic_output_types_tracker (w : World)
    (select_yaml select_preset input_preset_name : string) :
  let title := title_to_use select_preset input_preset_name in
  is_empty title = false -> is_empty select_yaml = false ->
  path_exists w select_yaml = true ->
  _panel_order
    (instance
       (dynamic_output_types w select_yaml select_preset input_preset_name).2)
  = _panel_order (instance w).
Proof.
  intros title Ht Hy Hex. unfold dynamic_output_types. fold title.
  by rewrite Ht, Hy, Hex.
Qed.

(** [run] in closed form: the first field that does not convert decides
    the error; without one, the converted values are reconciled with the
    schema. *)
Lemma run_closed (self : receiver) (w : World)
    (select_yaml select_preset input_preset_name unique_id : string) :
  let title := title_to_use select_preset input_preset_name in
  let w1 := ensure_title w select_yaml title in
  let panel := _get_values_from_yaml w1 select_yaml title in
  let schema :=
    dynamic_output_types w1 select_yaml select_preset input_preset_name in
  let me :=
    match self with
    | Singleton => instance schema.2
    | Other attributes => attributes
    end in
  let keys := run_keys_to_process me panel in
  run self w select_yaml select_preset input_preset_name unique_id
  = match first_failure panel keys with
    | Some k =>
        (Raise (ValueError
                  (error_msg (stored_value panel k) (declared_type panel k) k)),
         print (error_msg (stored_value panel k) (declared_type panel k) k)
           schema.2)
    | None =>
        (Return
           (reconcile schema.1.1
              (at_least_one
                 (omap (converted panel) (List.filter (is_field panel) keys)))),
         schema.2)
    end.
Proof.
  intros title w1 panel schema me keys. unfold run, collect_values.
  fold title. fold w1. fold panel. fold schema.
  destruct schema as [[outputs names] w2] eqn:E. simpl in me. fold me.
  fold keys. rewrite value_fold. by destruct (first_failure panel keys).
Qed.







End Evaluation.

(** ** The store *)

Lemma bad_name_differs (timestamp name : string) :
  bad_name timestamp name <> name.
Proof.
  intros Heq. apply (f_equal String.length) in Heq.
  unfold bad_name in Heq. rewrite !length_append in Heq. simpl in Heq. lia.
Qed.

Section Store.
Context `{PyEnv}.

(** C4, as the code has it.  For a document file whose text the loader
    rejects: reading its values returns the empty mapping and touches
    nothing; reading its titles (the read of the enum refresh) returns the
    one-element list [""] instead of the error, moves the file to the
    sibling bad_<timestamp>_<name>, which holds the original text, and
    writes the comment-only placeholder at the original path, leaving every
    other file alone; the placeholder, which PyYAML loads as nothing, then
    reads as a document without titles. *)
Theorem corrupt_file_recovery (w : World) (yaml_file title text : string) :
  files w !! yaml_file = Some text ->
  is_empty yaml_file = false ->
  yaml_load text = None ->
  _get_values_from_yaml w yaml_file title = []
  /\ (disk_ok w = true ->
      exists w' : World,
        _get_titles_from_yaml w yaml_file = (Return [""], w')
        /\ files w' !! ("bad_" +:+ now w +:+ "_" +:+ yaml_file) = Some text
        /\ files w' !! yaml_file
           = Some ("# Recovered from corrupt file" +:+ nl)
        /\ (forall n : string,
             n <> yaml_file -> n <> "bad_" +:+ now w +:+ "_" +:+ yaml_file ->
             files w' !! n = files w !! n)
        /\ (yaml_load ("# Recovered from corrupt file" +:+ nl) = Some TopFalsy ->
            _get_titles_from_yaml w' yaml_file = (Return [], w'))).
Proof.
  intros Hfile Hname Hload.
  assert (Hex : path_exists w yaml_file = true).
  { unfold path_exists. by rewrite Hfile. }
  assert (Hdata : load_or_dict w yaml_file = None).
  { unfold load_or_dict, read_text. by rewrite Hname, Hfile, Hload. }
  split.
  { unfold _get_values_from_yaml. by rewrite Hex, Hdata. }
  intros Hdisk.
  unfold _get_titles_from_yaml, _handle_corrupt_yaml.
  rewrite Hex, Hdata, Hfile, Hdisk. simpl.
  eexists. split; [done |]. simpl.
  fold (bad_name (now w) yaml_file).
  assert (Hne := bad_name_differs (now w) yaml_file).
  split.
  { rewrite lookup_insert_ne by done. by rewrite lookup_insert_eq. }
  split; [by rewrite lookup_insert_eq |].
  split.
  { intros n Hn1 Hn2.
    rewrite !lookup_insert_ne by done. by rewrite lookup_delete_ne. }
  intros Hplace. unfold path_exists, load_or_dict, read_text. simpl.
  rewrite Hname, lookup_insert_eq. unfold placeholder.
  by rewrite Hplace.
Qed.

(** *** Renaming a field *)

Lemma rename_items_pairs (old_key new_key : string) (values acc : Panel) :
  fold_left
    (fun new_values kv =>
       if String.eqb kv.1 old_key then OD.set new_key kv.2 new_values
       else OD.set kv.1 kv.2 new_values)
    values acc
  = fold_left (fun d kv => OD.set kv.1 kv.2 d)
      (map (rename_field old_key new_key) values) acc.
Proof.
  revert acc. induction values as [|[k v] values IH]; intros acc; [done |].
  simpl. rewrite <- IH. unfold rename_field. simpl.
  by destruct (String.eqb k old_key).
Qed.

Lemma renamed_keys (old_key new_key : string) (values : Panel) :
  OD.keys (map (rename_field old_key new_key) values)
  = map (fun k => if String.eqb k old_key then new_key else k)
      (OD.keys values).
Proof. unfold OD.keys. rewrite !map_map. done. Qed.

Lemma renamed_keys_nodup (old_key new_key : string) (keys : list string) :
  NoDup keys -> ~ In new_key keys ->
  NoDup (map (fun k => if String.eqb k old_key then new_key else k) keys).
Proof.
  intros Hnd Hnew. induction Hnd as [|x l Hx Hnd IH]; simpl.
  - constructor.
  - constructor; [| apply IH; simpl in Hnew; tauto].
    rewrite list_elem_of_In, in_map_iff. intros (y & Hy & Hin).
    apply Hx, list_elem_of_In.
    destruct (String.eqb x old_key) eqn:Ex, (String.eqb y old_key) eqn:Ey.
    + apply String.eqb_eq in Ex, Ey. by subst.
    + subst y. simpl in Hnew. tauto.
    + subst x. simpl in Hnew. tauto.
    + by subst.
Qed.

Lemma rename_items_in_place (old_key new_key : string) (values : Panel) :
  NoDup (OD.keys values) -> ~ In new_key (OD.keys values) ->
  rename_items old_key new_key values
  = map (rename_field old_key new_key) values.
Proof.
  intros Hnd Hnew. unfold rename_items. rewrite rename_items_pairs.
  apply od_of_pairs_nodup. rewrite renamed_keys.
  by apply renamed_keys_nodup.
Qed.

Lemma renamed_get_new (old_key new_key : string) (values : Panel) :
  ~ In new_key (OD.keys values) ->
  OD.get new_key (map (rename_field old_key new_key) values)
  = OD.get old_key values.
Proof.
  unfold OD.keys, rename_field.
  induction values as [|[k v] values IH]; [done |].
  simpl. intros Hnew.
  destruct (String.eqb k old_key) eqn:E.
  - rewrite String.eqb_refl. rewrite String.eqb_sym in E. by rewrite E.
  - assert (E1 : String.eqb new_key k = false).
    { apply String.eqb_neq. intros ->. tauto. }
    rewrite E1. rewrite String.eqb_sym in E. rewrite E. apply IH. tauto.
Qed.

Lemma renamed_get_other (old_key new_key k : string) (values : Panel) :
  k <> old_key -> k <> new_key ->
  OD.get k (map (rename_field old_key new_key) values) = OD.get k values.
Proof.
  intros H1 H2. unfold rename_field.
  induction values as [|[k' v] values IH]; [done |].
  simpl. rewrite IH.
  destruct (String.eqb k' old_key) eqn:E; [| done].
  apply String.eqb_eq in E. subst k'.
  apply String.eqb_neq in H1, H2. by rewrite H1, H2.
Qed.

Lemma index_lookup (x : string) (l : list string) :
  In x l -> l !! index x l = Some x.
Proof.
  induction l as [|y l IH]; simpl; [done |].
  intros Hin. destruct (String.eqb x y) eqn:E.
  - apply String.eqb_eq in E. by subst.
  - apply String.eqb_neq in E. simpl. apply IH.
    destruct Hin as [-> | Hin]; done.
Qed.

Lemma title_to_use_same (title : string) : title_to_use title title = title.
Proof. unfold title_to_use. by destruct (is_empty title). Qed.

Lemma save_yaml_instance (w w' : World) (yaml_file : string)
    (data : Document) :
  _save_yaml w yaml_file data = Return w' ->
  instance w' = instance w /\ is_empty yaml_file = false
  /\ path_exists w' yaml_file = true.
Proof.
  unfold _save_yaml.
  destruct (disk_ok w); simpl; [| discriminate].
  destruct (is_empty yaml_file); simpl; [discriminate |].
  intros [= <-]. repeat split.
  unfold path_exists. simpl. by rewrite lookup_insert_eq.
Qed.

Lemma update_key_name_done (w w' : World)
    (yaml_file title old_key new_key : string) :
  _update_key_name w yaml_file title old_key new_key = (true, w') ->
  instance w' = instance w /\ is_empty yaml_file = false
  /\ path_exists w' yaml_file = true.
Proof.
  unfold _update_key_name. intros Hupd.
  repeat (case_match; try discriminate).
  injection Hupd as <-. by eapply save_yaml_instance.
Qed.

Lemma handle_corrupt_instance (w w' : World) (name : string) :
  _handle_corrupt_yaml w name = Return w' -> instance w' = instance w.
Proof.
  unfold _handle_corrupt_yaml. intros Hh.
  repeat (case_match; try discriminate). by injection Hh as <-.
Qed.

Lemma get_titles_instance (w : World) (yaml_file : string) :
  instance (_get_titles_from_yaml w yaml_file).2 = instance w.
Proof.
  unfold _get_titles_from_yaml.
  repeat (case_match; simpl; try done);
    by eapply handle_corrupt_instance.
Qed.

Lemma refresh_enums_instance (w : World) :
  instance (refresh_enums w).2 = instance w.
Proof.
  unfold refresh_enums.
  destruct (_get_yaml_files w) as [[yaml_files|e] w1] eqn:E.
  - assert (H1 : instance w1 = instance w).
    { unfold _get_yaml_files in E.
      repeat (case_match; simplify_eq); done. }
    rewrite <- H1. clear E H1.
    assert (Hfold : forall (l : list string) (acc : result unit * World),
      instance
        (fold_left
           (fun acc yaml_file =>
              match acc with
              | (Return _, w') =>
                  match _get_titles_from_yaml w' yaml_file with
                  | (Return _, w'') => (Return tt, w'')
                  | (Raise e, w'') => (Raise e, w'')
                  end
              | (Raise _, _) => acc
              end) l acc).2
      = instance acc.2).
    { induction l as [|y l IH]; intros acc; [done |].
      simpl. rewrite IH. destruct acc as [[u|e] w']; [| done].
      assert (Ht := get_titles_instance w' y).
      by destruct (_get_titles_from_yaml w' y) as [[ts|e] w'']. }
    by rewrite Hfold.
  - unfold _get_yaml_files in E.
    repeat (case_match; simplify_eq); done.
Qed.

(** C5, as the code has it.  [_update_key_name] refuses, leaving the
    document as it is, when the old and the new name are equal, when the
    old name is not a field of the preset, and when the new name is empty.
    Otherwise, the new name not being a field already, it writes the
    document back with the old name replaced by the new one at the same
    position of the panel, every other field and the order unchanged.
    After a successful rename of a preset with a non-empty title: when the
    old name is in the tracker and the request carries a panel order, the
    tracker is that panel order; when it carries none, the new name stands
    in the tracker where the old one first stood; a tracker without the old
    name stays as it is. *)
Theorem rename_key (w : World) (rq : key_request) :
  let tracker := _panel_order (instance w) in
  let w1 := set_instance (track_rename rq (instance w)) w in
  (kr_old_key rq = kr_new_key rq
   \/ OD.mem (kr_old_key rq)
        (_get_values_from_yaml w (kr_yaml rq) (kr_title rq)) = false
   \/ kr_new_key rq = "" ->
   _update_key_name w1 (kr_yaml rq) (kr_title rq) (kr_old_key rq)
     (kr_new_key rq) = (false, w1))
  /\ (forall (data : Document) (panels : list (string * Panel))
         (values : Panel),
       load_or_dict w (kr_yaml rq) = Some (DataDoc data) ->
       OD.get (kr_title rq) data = Some (PDict panels) ->
       OD.get "values" panels = Some values ->
       NoDup (OD.keys values) ->
       OD.mem (kr_old_key rq) values = true ->
       OD.mem (kr_new_key rq) values = false ->
       kr_new_key rq <> "" ->
       disk_ok w = true ->
       _update_key_name w1 (kr_yaml rq) (kr_title rq) (kr_old_key rq)
         (kr_new_key rq)
       = (true,
          set_files
            (<[kr_yaml rq :=
                 yaml_dump
                   (OD.set (kr_title rq)
                      (PDict
                         (OD.set "values"
                            (map (rename_field (kr_old_key rq) (kr_new_key rq))
                               values)
                            panels))
                      data)]> (files w))
            w1)
       /\ OD.keys (map (rename_field (kr_old_key rq) (kr_new_key rq)) values)
          = map (fun k => if String.eqb k (kr_old_key rq)
                          then kr_new_key rq else k)
              (OD.keys values)
       /\ OD.get (kr_new_key rq)
            (map (rename_field (kr_old_key rq) (kr_new_key rq)) values)
          = OD.get (kr_old_key rq) values
       /\ forall k : string,
            k <> kr_old_key rq -> k <> kr_new_key rq ->
            OD.get k
              (map (rename_field (kr_old_key rq) (kr_new_key rq)) values)
            = OD.get k values)
  /\ (forall w' : World,
       update_key w rq = (Return true, w') ->
       kr_title rq <> "" ->
       _panel_order (instance w')
       = if in_list (kr_old_key rq) tracker then
           match kr_panel_order rq with
           | [] => <[index (kr_old_key rq) tracker := kr_new_key rq]> tracker
           | po => po
           end
         else tracker)
  /\ (In (kr_old_key rq) tracker ->
      tracker !! index (kr_old_key rq) tracker = Some (kr_old_key rq)
      /\ <[index (kr_old_key rq) tracker := kr_new_key rq]> tracker
           !! index (kr_old_key rq) tracker = Some (kr_new_key rq)
      /\ length (<[index (kr_old_key rq) tracker := kr_new_key rq]> tracker)
         = length tracker
      /\ forall j : nat,
           j <> index (kr_old_key rq) tracker ->
           <[index (kr_old_key rq) tracker := kr_new_key rq]> tracker !! j
           = tracker !! j).
Proof.
  intros tracker w1.
  split.
  { intros Hcase. unfold _update_key_name.
    destruct (path_exists w1 (kr_yaml rq)) eqn:Hex; simpl; [| done].
    destruct (is_empty (kr_new_key rq)) eqn:Hnew; simpl; [done |].
    assert (Hvals : _get_values_from_yaml w (kr_yaml rq) (kr_title rq)
      = match load_or_dict w1 (kr_yaml rq) with
        | Some (DataDoc data) => values_of data (kr_title rq)
        | _ => []
        end).
    { unfold _get_values_from_yaml. change (path_exists w (kr_yaml rq))
        with (path_exists w1 (kr_yaml rq)). rewrite Hex. simpl.
      change (load_or_dict w (kr_yaml rq)) with (load_or_dict w1 (kr_yaml rq)).
      by repeat case_match. }
    rewrite Hvals in Hcase. unfold values_of in Hcase.
    destruct (load_or_dict w1 (kr_yaml rq)) as [[data|has]|]; try done.
    destruct (OD.get (kr_title rq) data) as [[panels|]|]; try done.
    destruct (OD.get "values" panels) as [values|]; try done.
    destruct Hcase as [Heq | [Hmem | Hempty]].
    - rewrite Heq, String.eqb_refl. simpl. by rewrite andb_false_r.
    - by rewrite Hmem.
    - rewrite Hempty in Hnew. done. }
  split.
  { intros data panels values Hload Htitle Hvalues Hnd Hold Hnew Hne Hdisk.
    assert (Hnotin : ~ In (kr_new_key rq) (OD.keys values)).
    { intros Hin. apply od_mem_true in Hin. congruence. }
    split; [| split; [apply renamed_keys |
              split; [by apply renamed_get_new | ]]].
    - unfold _update_key_name.
      assert (Hread : read_text w (kr_yaml rq) <> None).
      { unfold load_or_dict in Hload. by destruct (read_text w (kr_yaml rq)). }
      assert (Hy : is_empty (kr_yaml rq) = false).
      { unfold read_text in Hread. by destruct (is_empty (kr_yaml rq)). }
      assert (Hex : path_exists w1 (kr_yaml rq) = true).
      { unfold path_exists, read_text in *. simpl. rewrite Hy in Hread.
        by destruct (files w !! kr_yaml rq). }
      rewrite Hex. simpl.
      assert (Hn : is_empty (kr_new_key rq) = false).
      { by destruct (kr_new_key rq). }
      rewrite Hn.
      change (load_or_dict w1 (kr_yaml rq)) with (load_or_dict w (kr_yaml rq)).
      rewrite Hload, Htitle, Hvalues, Hold. simpl.
      assert (Hdiff : String.eqb (kr_old_key rq) (kr_new_key rq) = false).
      { apply String.eqb_neq. intros Heq. rewrite Heq in Hold. congruence. }
      rewrite Hdiff. simpl. rewrite rename_items_in_place by done.
      unfold _save_yaml. simpl. by rewrite Hdisk, Hy.
    - intros k Hk1 Hk2. by apply renamed_get_other. }
  split.
  { intros w' Hupd Htitle. unfold update_key in Hupd. fold w1 in Hupd.
    destruct (_update_key_name w1 _ _ _ _) as [success w2] eqn:E.
    destruct success; [| by injection Hupd].
    apply update_key_name_done in E. destruct E as (Hi & Hy & Hex).
    unfold push_update in Hupd.
    set (w3 := (dynamic_output_types w2 (kr_yaml rq) (kr_title rq)
                  (kr_title rq)).2) in *.
    assert (Hr := refresh_enums_instance w3).
    destruct (refresh_enums w3) as [[u|e] w4]; [| discriminate].
    injection Hupd as <-. simpl in Hr. rewrite Hr. subst w3.
    rewrite dynamic_output_types_tracker; try done.
    - rewrite Hi. subst w1. simpl. unfold track_rename. fold tracker.
      destruct (in_list (kr_old_key rq) tracker); [| done].
      by destruct (kr_panel_order rq).
    - rewrite title_to_use_same. by destruct (kr_title rq). }
  intros Hin.
  assert (Hlook := index_lookup _ _ Hin).
  split; [done |].
  apply lookup_lt_Some in Hlook.
  split; [by apply list_lookup_insert_eq |].
  split; [apply length_insert |].
  intros j Hj. by apply list_lookup_insert_ne.
Qed.

(** *** Adding or updating a value *)

Lemma add_value_unreadable (w : World)
    (yaml_file title key_name key_type key_value : string) :
  path_exists w yaml_file = true -> load_or_dict w yaml_file = None ->
  _add_value w yaml_file title key_name key_type key_value = (false, w).
Proof. intros Hex Hload. unfold _add_value. by rewrite Hex, Hload. Qed.





End Store.

(** *** What validation promises to the evaluation *)

Section Validation.
Context `{PyEnv}.

(** C9, as the interpreter has it.  A string that the int pattern
    matches is matched by the float pattern as well, and [int] accepts it
    unless it has more digits than the interpreter's limit on integer
    strings (a limit of zero is no limit; up to 640 digits no limit
    applies); a string that the float pattern matches is accepted by
    [float].  So a stored value that passed validation as float never
    fails to convert in [run], and one that passed as int fails only
    beyond the digit limit. *)
Theorem validated_numbers_convert (s : string) :
  (_validate_value_type "int" s = true ->
   _validate_value_type "float" s = true
   /\ ((count_digits s <= MAX_STR_DIGITS_THRESHOLD
        \/ int_max_str_digits = 0 \/ count_digits s <= int_max_str_digits)%N ->
       (exists z : Z,
          py_int int_max_str_digits s = Some z
          /\ convert "int" s = Some (PyInt z))
       /\ forall (panel : Panel) (key : string),
            declared_type panel key = "int" ->
            stored_value panel key = s -> fails panel key = false))
  /\ (_validate_value_type "float" s = true ->
      (exists f : float_lit,
         py_float s = Some f /\ convert "float" s = Some (PyFloat f))
      /\ forall (panel : Panel) (key : string),
           declared_type panel key = "float" ->
           stored_value panel key = s -> fails panel key = false).
Proof.
  change (_validate_value_type "int" s) with (re_match "^-?[0-9]+$" s).
  change (_validate_value_type "float" s)
    with (re_match "^-?[0-9]*\.?[0-9]+$" s).
  split.
  - intros Hint. apply PyFacts.int_pattern_shape in Hint.
    destruct Hint as (sign & c & ds & tail & -> & Hsign & Hc & Hds & Htail).
    split.
    { apply PyFacts.float_pattern_shape.
      exists sign, "", "", c, ds, tail. rewrite !append_nil.
      repeat split; try done. by left. }
    intros Hlimit.
    destruct (PyFacts.py_int_matched int_max_str_digits sign c ds tail
                Hsign Hc Hds Htail) as (Hcount & z & Hz).
    rewrite Hcount in Hlimit.
    assert (Hok : ((MAX_STR_DIGITS_THRESHOLD <? 1 + N.of_nat (String.length ds))
                   && (0 <? int_max_str_digits)
                   && (int_max_str_digits <? 1 + N.of_nat (String.length ds)))%N
                  = false).
    { destruct Hlimit as [Hl | [Hl | Hl]].
      - apply N.ltb_ge in Hl. by rewrite Hl.
      - rewrite Hl. simpl. by rewrite andb_false_r.
      - apply N.ltb_ge in Hl. rewrite Hl. by rewrite andb_false_r. }
    rewrite Hok in Hz.
    assert (Hconv : convert "int" (sign +:+ String c (ds +:+ tail))
                    = Some (PyInt z)).
    { unfold convert. simpl. by rewrite Hz. }
    split; [by exists z |].
    intros panel key Hty Hval. unfold fails, converted.
    rewrite Hty, Hval, Hconv. apply andb_false_r.
  - intros Hfloat. apply PyFacts.float_pattern_shape in Hfloat.
    destruct Hfloat as (sign & whole & point & c & ds & tail & -> & Hsign
                        & Hwhole & Hpoint & Hc & Hds & Htail).
    destruct (PyFacts.py_float_matched sign whole point c ds tail
                Hsign Hwhole Hpoint Hc Hds Htail) as (f & Hf).
    assert (Hconv :
      convert "float" (sign +:+ whole +:+ point +:+ String c (ds +:+ tail))
      = Some (PyFloat f)).
    { unfold convert. simpl. by rewrite Hf. }
    split; [by exists f |].
    intros panel key Hty Hval. unfold fails, converted.
    rewrite Hty, Hval, Hconv. apply andb_false_r.
Qed.

End Validation.

(** *** Instances *)

Import (hints) Sample.







(** C4 as stated fails: an evaluation reads a file that does not parse
    three times over and moves nothing aside; and the read that does move
    it aside returns a list with one entry, not an empty one. *)
Lemma read_without_quarantine :
  yaml_load Sample.garbage = None
  /\ (run Singleton Sample.studio "torn.yaml" "main" "" "7").1 = Return [PyStr ""]
  /\ files (run Singleton Sample.studio "torn.yaml" "main" "" "7").2 !! "torn.yaml"
     = Some Sample.garbage
  /\ files (run Singleton Sample.studio "torn.yaml" "main" "" "7").2
       !! "bad_20240101_120000_torn.yaml" = None
  /\ _get_values_from_yaml Sample.studio "torn.yaml" "main" = []
  /\ (_get_titles_from_yaml Sample.studio "torn.yaml").1 = Return [""].
Proof. vm_compute. repeat split. Qed.

Lemma corrupt_file_recovery_witness :
  files Sample.studio !! "torn.yaml" = Some Sample.garbage
  /\ yaml_load Sample.garbage = None
  /\ exists w' : World,
       _get_titles_from_yaml Sample.studio "torn.yaml" = (Return [""], w')
       /\ files w' !! "bad_20240101_120000_torn.yaml" = Some Sample.garbage
       /\ files w' !! "torn.yaml"
          = Some ("# Recovered from corrupt file" +:+ nl).
Proof.
  assert (Hfile : files Sample.studio !! "torn.yaml" = Some Sample.garbage).
  { vm_compute. reflexivity. }
  assert (Hload : yaml_load Sample.garbage = None).
  { vm_compute. reflexivity. }
  split; [exact Hfile |]. split; [exact Hload |].
  destruct (corrupt_file_recovery Sample.studio "torn.yaml" "main"
              Sample.garbage Hfile eq_refl Hload) as [_ Hrec].
  destruct (Hrec eq_refl) as (w' & Ht & Hbad & Hplace & _).
  exists w'. split; [exact Ht |]. split; [exact Hbad | exact Hplace].
Defined.

(** C5 as stated fails: when the request carries a panel order, the
    tracker becomes that order, whatever the position of the new name in
    it. *)
Lemma tracker_replaced_by_request :
  (update_key Sample.boxed Sample.rename_height_arranged).1 = Return true
  /\ _panel_order
       (instance (update_key Sample.boxed Sample.rename_height_arranged).2)
     = ["depth"; "height_px"; "width"]
  /\ <[index "height" ["width"; "height"; "depth"] := "height_px"]>
       ["width"; "height"; "depth"]
     = ["width"; "height_px"; "depth"]
  /\ ["depth"; "height_px"; "width"] <> ["width"; "height_px"; "depth"].
Proof. vm_compute. repeat split. discriminate. Qed.

Lemma rename_key_witness :
  update_key Sample.boxed Sample.rename_height
  = (Return true, (update_key Sample.boxed Sample.rename_height).2)
  /\ _panel_order
       (instance (update_key Sample.boxed Sample.rename_height).2)
     = ["width"; "height_px"; "depth"]
  /\ files
       (_update_key_name
          (set_instance
             (track_rename Sample.rename_height (instance Sample.boxed))
             Sample.boxed)
          "box.yaml" "box" "height" "height_px").2 !! "box.yaml"
     = Some
         (yaml_dump
            [("box",
              PDict [("values",
                      [("width", Sample.field "int" "640");
                       ("height_px", Sample.field "int" "480");
                       ("depth", Sample.field "int" "3")])])]).
Proof.
  assert (Hupd : update_key Sample.boxed Sample.rename_height
    = (Return true, (update_key Sample.boxed Sample.rename_height).2)).
  { vm_compute. reflexivity. }
  split; [exact Hupd |].
  destruct (rename_key Sample.boxed Sample.rename_height)
    as (_ & Hrewrite & Htracker & _).
  split.
  { rewrite (Htracker _ Hupd); [vm_compute; reflexivity | discriminate]. }
  assert (Hnd : NoDup (OD.keys (values_of Sample.box "box"))).
  { compute_nodup. }
  destruct (Hrewrite Sample.box
              [("values", values_of Sample.box "box")]
              (values_of Sample.box "box")
              ltac:(vm_compute; reflexivity) eq_refl eq_refl Hnd
              eq_refl eq_refl ltac:(discriminate) eq_refl) as (Hdone & _).
  etransitivity;
    [exact (f_equal (fun r => files r.2 !! "box.yaml") Hdone) |].
  simpl. rewrite lookup_insert_eq. vm_compute. reflexivity.
Defined.



(** C9 as stated fails under the interpreter's default limit of 4300
    digits: a literal of 4301 ones passes validation as int, [int]
    rejects it, and the evaluation of a preset that stores it raises. *)
Lemma long_integer_passes_validation :
  _validate_value_type "int" Sample.long_number = true
  /\ count_digits Sample.long_number = 4301%N
  /\ py_int DEFAULT_MAX_STR_DIGITS Sample.long_number = None
  /\ convert "int" Sample.long_number = None
  /\ (run Singleton Sample.vault "hoard.yaml" "main" "" "7").1
     = Raise (ValueError
                (error_msg Sample.long_number "int" "seed")).
Proof. vm_compute. repeat split. Qed.

Lemma validated_numbers_convert_witness :
  _validate_value_type "int" "-42" = true
  /\ _validate_value_type "float" "-42" = true
  /\ (exists z : Z,
        py_int int_max_str_digits "-42" = Some z
        /\ convert "int" "-42" = Some (PyInt z))
  /\ _validate_value_type "float" ".5" = true
  /\ exists f : float_lit,
       py_float ".5" = Some f /\ convert "float" ".5" = Some (PyFloat f).
Proof.
  assert (Hint : _validate_value_type "int" "-42" = true) by reflexivity.
  assert (Hfloat : _validate_value_type "float" ".5" = true) by reflexivity.
  destruct (validated_numbers_convert (H := Sample.env) "-42") as [H1 _].
  destruct (H1 Hint) as [H2 H3].
  assert (Hshort : (count_digits "-42" <= MAX_STR_DIGITS_THRESHOLD)%N).
  { apply N.leb_le. reflexivity. }
  destruct (H3 (or_introl Hshort)) as [H4 _].
  destruct (validated_numbers_convert (H := Sample.env) ".5") as [_ H5].
  destruct (H5 Hfloat) as [H6 _].
  split; [exact Hint |]. split; [exact H2 |]. split; [exact H4 |].
  split; [exact Hfloat | exact H6].
Defined.

End FlexPresetFacts.

(** ** The prompt list *)

Module PromptListFacts.
Import Py PromptList.

(** Every way out of [run]: the prompt comes back as a 1-tuple, unless
    the thread has no event loop and the save fails. *)
Lemma run_outcome `{PyEnv} (w : World)
    (select_yaml select title prompt unique_id : string) :
  (run w select_yaml select title prompt unique_id).1 = Return [prompt]
  \/ ((run w select_yaml select title prompt unique_id).1 = Raise OSError
      /\ event_loop w = NoCurrentLoop
      /\ is_empty title = false /\ is_empty prompt = false
      /\ (disk_ok w = false \/ is_empty select_yaml = true)).
Proof.
  unfold run.
  destruct (is_empty title) eqn:Et; simpl; [by left |].
  destruct (is_empty prompt) eqn:Ep; simpl; [by left |].
  destruct (if path_exists w select_yaml then _ else _) as [[data|has]|];
    [| by left | by left].
  destruct (OD.get title _) as [[items|]|]; [| by left | by left].
  unfold _save_yaml.
  destruct (event_loop w) eqn:El; [| by left |].
  - destruct (disk_ok w) eqn:Ed; simpl.
    + destruct (is_empty select_yaml) eqn:Ey; simpl; [| by left].
      right. repeat split; by right.
    + right. repeat split; by left.
  - by destruct (disk_ok w && negb (is_empty select_yaml)); left.
Qed.

(** C10 at the failing input: called from a thread without an event loop
    while the directory rejects the write, [run] raises [OSError] instead
    of returning the prompt. *)
Theorem run_raises_when_save_fails `{PyEnv} :
  run Sample.read_only_prompts "prompts.yaml" "" "sunset" "golden hour" "3"
  = (Raise OSError, Sample.read_only_prompts).
Proof. reflexivity. Qed.

End PromptListFacts.

(** ** The codec *)

Module CodecFacts.
Import Codec.





End CodecFacts.

(* ===================================================================== *)
(** * Part III. Further properties of the code                            *)
(* ===================================================================== *)

(** ** Lists and ordered mappings, continued *)

Lemma list_remove_notin (x : string) (l : list string) :
  ~ In x l -> Py.list_remove x l = l.
Proof.
  induction l as [|y l IH]; simpl; [done |]. intros Hx.
  destruct (String.eqb x y) eqn:E.
  - apply String.eqb_eq in E. subst. tauto.
  - rewrite IH; [done | tauto].
Qed.

Lemma list_remove_gone (x : string) (l : list string) :
  NoDup l -> ~ In x (Py.list_remove x l).
Proof.
  intros Hnd. apply NoDup_ListNoDup in Hnd.
  induction Hnd as [|y l Hy Hnd IH]; simpl; [tauto |].
  destruct (String.eqb x y) eqn:E.
  - apply String.eqb_eq in E. by subst.
  - apply String.eqb_neq in E. simpl. intros [Heq | Hin]; [congruence | tauto].
Qed.


Lemma od_del_keys {V : Type} (k : string) (d : list (string * V)) :
  OD.keys (OD.del k d) = Py.list_remove k (OD.keys d).
Proof.
  induction d as [|[k' v] d IH]; simpl; [done |].
  destruct (String.eqb k k'); simpl; [done | by rewrite IH].
Qed.

Lemma od_get_del_other {V : Type} (k k0 : string) (d : list (string * V)) :
  k0 <> k -> OD.get k0 (OD.del k d) = OD.get k0 d.
Proof.
  intros Hne. induction d as [|[k' v] d IH]; simpl; [done |].
  destruct (String.eqb k k') eqn:E; simpl; [| by rewrite IH].
  apply String.eqb_eq in E. subst k'.
  apply String.eqb_neq in Hne. by rewrite Hne.
Qed.

Lemma od_set_same {V : Type} (k : string) (v : V) (d : list (string * V)) :
  OD.get k d = Some v -> OD.set k v d = d.
Proof.
  induction d as [|[k' v'] d IH]; simpl; [done |].
  destruct (String.eqb k k') eqn:E.
  - by intros [= ->].
  - intros Hg. by rewrite IH.
Qed.

Lemma od_set_set {V : Type} (k : string) (v v' : V) (d : list (string * V)) :
  OD.set k v' (OD.set k v d) = OD.set k v' d.
Proof.
  induction d as [|[k' v0] d IH]; simpl.
  - by rewrite String.eqb_refl.
  - destruct (String.eqb k k') eqn:E; simpl; rewrite E; [done |].
    by rewrite IH.
Qed.

Lemma od_del_set_fresh {V : Type} (k : string) (v : V)
    (d : list (string * V)) :
  ~ In k (OD.keys d) -> OD.del k (OD.set k v d) = d.
Proof.
  unfold OD.keys. induction d as [|[k' v'] d IH]; simpl.
  - by rewrite String.eqb_refl.
  - intros Hk. destruct (String.eqb k k') eqn:E.
    + apply String.eqb_eq in E. subst. tauto.
    + simpl. rewrite E, IH; [done | tauto].
Qed.

Lemma insert_sorted_perm (x : string) (l : list string) :
  FlexPreset.insert_sorted x l ≡ₚ x :: l.
Proof.
  induction l as [|y l IH]; simpl; [done |].
  destruct (String.leb x y); [done |].
  rewrite IH. apply Permutation_swap.
Qed.

Lemma sorted_perm (l : list string) : FlexPreset.sorted l ≡ₚ l.
Proof.
  induction l as [|x l IH]; simpl; [done |].
  by rewrite insert_sorted_perm, IH.
Qed.

Lemma sorted_In (x : string) (l : list string) :
  In x (FlexPreset.sorted l) <-> In x l.
Proof. rewrite <- !list_elem_of_In. by rewrite sorted_perm. Qed.

Lemma insert_sorted_ascending (x : string) (l : list string) :
  FlexPreset.ascending l = true ->
  FlexPreset.ascending (FlexPreset.insert_sorted x l) = true.
Proof.
  induction l as [|y l IH]; [done |].
  intros Hl. cbn [FlexPreset.insert_sorted].
  destruct (String.leb x y) eqn:E.
  - change (String.leb x y && FlexPreset.ascending (y :: l) = true).
    by rewrite E.
  - assert (Hyx : String.leb y x = true).
    { destruct (String.leb_total x y); congruence. }
    assert (Htail : FlexPreset.ascending l = true).
    { cbn [FlexPreset.ascending] in Hl. destruct l; [done |].
      apply andb_true_iff in Hl. by destruct Hl. }
    specialize (IH Htail).
    destruct l as [|z l].
    + cbn. by rewrite Hyx.
    + cbn [FlexPreset.insert_sorted] in *.
      cbn [FlexPreset.ascending] in Hl. apply andb_true_iff in Hl.
      destruct Hl as [Hyz _].
      destruct (String.leb x z); cbn [FlexPreset.ascending].
      * rewrite Hyx. simpl. exact IH.
      * rewrite Hyz. simpl. exact IH.
Qed.

Lemma sorted_ascending (l : list string) :
  FlexPreset.ascending (FlexPreset.sorted l) = true.
Proof.
  induction l as [|x l IH]; [done |].
  simpl. by apply insert_sorted_ascending.
Qed.

Lemma ends_with_nonempty (suffix s : string) :
  Py.ends_with suffix s = true -> suffix <> "" -> Py.is_empty s = false.
Proof.
  destruct s; [| done]. simpl. rewrite orb_false_r.
  intros Heq Hne. apply String.eqb_eq in Heq. done.
Qed.

Lemma od_set_middle {V : Type} (k : string) (v v0 : V)
    (pre post : list (string * V)) :
  ~ In k (OD.keys pre) ->
  OD.set k v (pre ++ (k, v0) :: post) = pre ++ (k, v) :: post.
Proof.
  unfold OD.keys. induction pre as [|[k' v'] pre IH]; simpl.
  - by rewrite String.eqb_refl.
  - intros Hk. destruct (String.eqb k k') eqn:E.
    + apply String.eqb_eq in E. subst. tauto.
    + rewrite IH; [done | tauto].
Qed.

Lemma od_keys_app {V : Type} (a b : list (string * V)) :
  OD.keys (a ++ b) = OD.keys a ++ OD.keys b.
Proof. unfold OD.keys. apply map_app. Qed.

Lemma ends_with_append (suffix p s : string) :
  Py.ends_with suffix s = true -> Py.ends_with suffix (p +:+ s) = true.
Proof.
  intros Hs. induction p as [|c p IH]; [done |].
  rewrite append_cons. simpl. rewrite IH. apply orb_true_r.
Qed.

(** ** The preset store: routes, enumeration, evaluation *)

Module FlexPresetOps.
Import Py FlexPreset.

(** The names that [glob("*.yaml")] gives. *)
Lemma listing_In (fs : gmap string string) (n : string) :
  In n (filter (fun n => ends_with ".yaml" n = true) (map fst (map_to_list fs)))
  <-> ends_with ".yaml" n = true /\ fs !! n <> None.
Proof.
  rewrite <- list_elem_of_In, list_elem_of_filter.
  change (map fst (map_to_list fs)) with ((map_to_list fs).*1).
  rewrite list_elem_of_fmap. split.
  - intros [He ([k v] & -> & Hin)]. split; [done |].
    apply elem_of_map_to_list in Hin. simpl. by rewrite Hin.
  - intros [He Hin]. split; [done |].
    destruct (fs !! n) as [v|] eqn:E; [| done].
    exists (n, v). split; [done |]. by apply elem_of_map_to_list.
Qed.


Section Routes.
Context `{PyEnv}.

Lemma delete_value_done (w w' : World) (yaml_file title key_name : string) :
  _delete_value w yaml_file title key_name = (true, w') ->
  instance w' = instance w /\ is_empty yaml_file = false
  /\ path_exists w' yaml_file = true.
Proof.
  unfold _delete_value. intros Hdel.
  repeat (case_match; try discriminate).
  injection Hdel as <-. by eapply FlexPresetFacts.save_yaml_instance.
Qed.

Lemma delete_value_kept (w : World) (yaml_file title key_name : string) :
  (_delete_value w yaml_file title key_name).1 = false ->
  (_delete_value w yaml_file title key_name).2 = w.
Proof.
  unfold _delete_value. repeat (case_match; simpl; try done).
Qed.


(** X2.  The delete route takes the key out of the panel order tracker
    before it touches the document, so the first occurrence of the key
    leaves the tracker whether or not the deletion succeeds (for a
    successful deletion, as long as the preset has a name: the schema call
    that follows clears the tracker for an empty one); a tracker without
    repetitions no longer holds the key. *)
Theorem delete_route_untracks (w w' : World) (rq : delete_request)
    (success : bool) :
  delete_value w rq = (Return success, w') ->
  success = false \/ dr_title rq <> "" ->
  _panel_order (instance w')
  = list_remove (dr_key_name rq) (_panel_order (instance w))
  /\ (NoDup (_panel_order (instance w)) ->
      ~ In (dr_key_name rq) (_panel_order (instance w')))
  /\ (success = false -> files w' = files w).
Proof.
  intros Hdel Hcase. unfold delete_value in Hdel.
  set (w1 := set_instance (untrack (dr_key_name rq) (instance w)) w) in *.
  assert (Htr : _panel_order (instance w1)
    = list_remove (dr_key_name rq) (_panel_order (instance w))).
  { subst w1. simpl. unfold untrack.
    destruct (in_list _ _) eqn:E; [done |].
    symmetry. apply list_remove_notin. intros Hin.
    apply in_list_true in Hin. congruence. }
  assert (Hgoal : _panel_order (instance w') = _panel_order (instance w1)
                  /\ (success = false -> files w' = files w)).
  { destruct (_delete_value w1 _ _ _) as [ok w2] eqn:E.
    destruct ok.
    - apply delete_value_done in E. destruct E as (Hi & Hy & Hex).
      unfold push_update in Hdel.
      set (w3 := (dynamic_output_types w2 (dr_yaml rq) (dr_title rq)
                    (dr_title rq)).2) in *.
      assert (Hr := FlexPresetFacts.refresh_enums_instance w3).
      destruct (refresh_enums w3) as [[u|e] w4]; [| discriminate].
      injection Hdel as <- <-. simpl in Hr.
      destruct Hcase as [? | Ht]; [done |].
      split; [| done]. rewrite Hr. subst w3.
      rewrite FlexPresetFacts.dynamic_output_types_tracker; try done.
      + by rewrite Hi.
      + rewrite FlexPresetFacts.title_to_use_same. by destruct (dr_title rq).
    - injection Hdel as <- <-.
      assert (Hkeep := delete_value_kept w1 (dr_yaml rq) (dr_title rq)
                         (dr_key_name rq)).
      rewrite E in Hkeep. simpl in Hkeep. by rewrite Hkeep. }
  destruct Hgoal as [Hsame Hfiles].
  rewrite Hsame, Htr. split; [done |]. split; [| done].
  intros Hnd. by apply list_remove_gone.
Qed.

(** X3.  The add route and the update route differ in one guard only.
    Adding a value does what updating it does with the outputs refreshed,
    so a key that exists already is overwritten where it stands, not
    refused and not stored twice; an update that asks for no refresh stops
    after the write and answers with its outcome, the published schema
    staying as it was. *)
Theorem add_route_is_update_route (w : World) (rq : value_request) :
  let w1 :=
    if _validate_value_type (vr_key_type rq) (vr_key_value rq) then w
    else print (warning (vr_key_value rq) (vr_key_type rq)) w in
  let stored :=
    _add_value w1 (vr_yaml rq) (vr_title rq) (vr_key_name rq)
      (vr_key_type rq) (vr_key_value rq) in
  add_value w rq
  = update_value w
      (mkValueRequest (vr_yaml rq) (vr_title rq) (vr_key_name rq)
         (vr_key_type rq) (vr_key_value rq) true)
  /\ (vr_update_outputs rq = true -> update_value w rq = add_value w rq)
  /\ (vr_update_outputs rq = false ->
       update_value w rq = (Return stored.1, stored.2)
       /\ RETURN_NAMES stored.2 = RETURN_NAMES w
       /\ RETURN_TYPES stored.2 = RETURN_TYPES w)
  /\ (stored.1 = false -> add_value w rq = (Return false, stored.2)).
Proof.
  intros w1 stored. subst stored.
  unfold add_value, update_value. simpl. fold w1.
  destruct (_add_value w1 _ _ _ _ _) as [success w2] eqn:E.
  split; [by rewrite andb_true_r |].
  split; [intros ->; by rewrite andb_true_r |].
  cbn [fst snd].
  split; [| by intros ->].
  intros ->. rewrite andb_false_r. split; [done |].
  assert (Hw2 : w2 = w1 \/ exists fs, w2 = set_files fs w1).
  { unfold _add_value, _save_yaml in E.
    repeat (case_match; simplify_eq); eauto. }
  assert (Hw1 : RETURN_NAMES w1 = RETURN_NAMES w
                /\ RETURN_TYPES w1 = RETURN_TYPES w).
  { subst w1. by destruct (_validate_value_type _ _). }
  simpl. by destruct Hw2 as [-> | (fs & ->)].
Qed.




(** X7.  [INPUT_TYPES] offers the same file names as [_get_yaml_files],
    its default among them.  Its preset choices are the empty title and
    the titles of every listed file that loads as a document, each once,
    in ascending order; a file that does not load adds none and is left
    where it is: apart from a default.yaml written into a directory without
    *.yaml files, nothing is written. *)
Theorem input_choices (w w' : World) (it : input_types) :
  INPUT_TYPES w = (Return it, w') ->
  _get_yaml_files w = (Return (select_yaml_choices it), w')
  /\ In (select_yaml_default it) (select_yaml_choices it)
  /\ In "" (select_preset_choices it)
  /\ NoDup (select_preset_choices it)
  /\ ascending (select_preset_choices it) = true
  /\ (forall t : string,
        In t (select_preset_choices it)
        <-> t = ""
            \/ exists (f : string) (data : Document),
                 In f (select_yaml_choices it)
                 /\ load_or_dict w' f = Some (DataDoc data)
                 /\ In t (OD.keys data))
  /\ (files w' = files w
       \/ files w' = <["default.yaml" := default_yaml_text]> (files w)).
Proof.
  unfold INPUT_TYPES, _get_yaml_files.
  set (listed := filter (fun n => ends_with ".yaml" n = true)
                   (map fst (map_to_list (files w)))).
  assert (Htitles : forall (w1 : World) (yaml_files : list string) (t : string),
    In t (sorted (remove_dups ("" :: concat (map (titles_in w1) yaml_files))))
    <-> t = ""
        \/ exists (f : string) (data : Document),
             In f (sorted yaml_files)
             /\ load_or_dict w1 f = Some (DataDoc data)
             /\ In t (OD.keys data)).
  { intros w1 yaml_files t. rewrite sorted_In, <- list_elem_of_In.
    rewrite elem_of_remove_dups, elem_of_cons, list_elem_of_In, in_concat.
    split.
    - intros [-> | (ts & Hin & Hts)]; [by left | right].
      apply in_map_iff in Hin. destruct Hin as (f & <- & Hf).
      unfold titles_in in Hts.
      destruct (load_or_dict w1 f) as [[data|has]|] eqn:E; try done.
      exists f, data. by rewrite sorted_In.
    - intros [-> | (f & data & Hf & Hload & Hin)]; [by left | right].
      exists (OD.keys data). split; [| done].
      apply in_map_iff. exists f. unfold titles_in. rewrite Hload.
      split; [done |]. by apply sorted_In. }
  assert (Hshape : forall (w1 : World) (yaml_files : list string),
    yaml_files <> [] ->
    In (hd "" yaml_files) (sorted yaml_files)
    /\ In "" (sorted (remove_dups
                        ("" :: concat (map (titles_in w1) yaml_files))))
    /\ NoDup (sorted (remove_dups
                        ("" :: concat (map (titles_in w1) yaml_files))))
    /\ ascending (sorted (remove_dups
                            ("" :: concat (map (titles_in w1) yaml_files))))
        = true).
  { intros w1 yaml_files Hne. split.
    { apply sorted_In. destruct yaml_files; [done | by left]. }
    split; [apply Htitles; by left |].
    split; [rewrite sorted_perm; apply NoDup_remove_dups |].
    apply sorted_ascending. }
  destruct listed as [|n0 rest] eqn:El.
  - destruct (disk_ok w); [| discriminate].
    intros Heq.
    pose proof (f_equal snd Heq) as Hw. cbn [snd] in Hw. subst w'.
    pose proof (f_equal
      (fun r => match r.1 with Return a => a | Raise _ => it end) Heq) as Hit.
    cbn beta iota delta [fst] in Hit. subst it. clear Heq.
    cbn [select_yaml_choices select_yaml_default select_preset_choices].
    destruct (Hshape
      (set_files (<["default.yaml" := default_yaml_text]> (files w)) w)
      ["default.yaml"] ltac:(done)) as (H1 & H2 & H3 & H4).
    split; [done |]. split; [exact H1 |]. split; [exact H2 |].
    split; [exact H3 |]. split; [exact H4 |].
    split; [intros t; apply Htitles | by right].
  - intros Heq.
    pose proof (f_equal snd Heq) as Hw. cbn [snd] in Hw. subst w'.
    pose proof (f_equal
      (fun r => match r.1 with Return a => a | Raise _ => it end) Heq) as Hit.
    cbn beta iota delta [fst] in Hit. subst it. clear Heq.
    cbn [select_yaml_choices select_yaml_default select_preset_choices].
    destruct (Hshape w (n0 :: rest) ltac:(done)) as (H1 & H2 & H3 & H4).
    split; [done |]. split; [exact H1 |]. split; [exact H2 |].
    split; [exact H3 |]. split; [exact H4 |].
    split; [intros t; apply Htitles | by left].
Qed.



(** X9.  Moving a file aside does not put it out of reach of the next
    refresh: the sibling is named bad_<timestamp>_<name>, which still ends
    in .yaml, so [_get_yaml_files] lists it, and reading its titles moves
    the same text aside once more, to bad_<timestamp>_bad_<timestamp>_<name>,
    leaving a second placeholder behind. *)
Theorem quarantine_repeats (w : World) (name text : string) :
  files w !! name = Some text ->
  ends_with ".yaml" name = true ->
  yaml_load text = None ->
  disk_ok w = true ->
  exists (w1 w2 : World) (names : list string),
    _get_titles_from_yaml w name = (Return [""], w1)
    /\ _get_yaml_files w1 = (Return names, w1)
    /\ In ("bad_" +:+ now w +:+ "_" +:+ name) names
    /\ _get_titles_from_yaml w1 ("bad_" +:+ now w +:+ "_" +:+ name)
        = (Return [""], w2)
    /\ files w2
         !! ("bad_" +:+ now w1 +:+ "_" +:+ "bad_" +:+ now w +:+ "_" +:+ name)
        = Some text
    /\ files w2 !! ("bad_" +:+ now w +:+ "_" +:+ name)
        = Some ("# Recovered from corrupt file" +:+ nl)
    /\ files w2 !! name = Some ("# Recovered from corrupt file" +:+ nl).
Proof.
  intros Hfile Hyaml Hload Hdisk.
  fold (bad_name (now w) name). set (bad := bad_name (now w) name).
  assert (Hname : is_empty name = false) by (by eapply ends_with_nonempty).
  assert (Hbad_yaml : ends_with ".yaml" bad = true).
  { subst bad. unfold bad_name. rewrite <- !append_assoc.
    by apply ends_with_append. }
  assert (Hbad : is_empty bad = false) by (by eapply ends_with_nonempty).
  assert (Hne : bad <> name) by apply FlexPresetFacts.bad_name_differs.
  set (fs1 := <[name := placeholder]> (<[bad := text]> (delete name (files w)))).
  assert (H1 : _get_titles_from_yaml w name = (Return [""], set_files fs1 w)).
  { unfold _get_titles_from_yaml, _handle_corrupt_yaml, path_exists,
      load_or_dict, read_text.
    by rewrite Hname, Hfile, Hload, Hdisk. }
  assert (Hf1 : fs1 !! bad = Some text).
  { subst fs1. rewrite lookup_insert_ne by done. by rewrite lookup_insert_eq. }
  exists (set_files fs1 w).
  set (bad2 := bad_name (now w) bad).
  assert (Hne2 : bad2 <> bad) by apply FlexPresetFacts.bad_name_differs.
  assert (Hne3 : bad2 <> name).
  { subst bad2 bad. intros Heq. apply (f_equal String.length) in Heq.
    unfold bad_name in Heq. rewrite !length_append in Heq. simpl in Heq. lia. }
  exists (set_files
            (<[bad := placeholder]> (<[bad2 := text]> (delete bad fs1)))
            (set_files fs1 w)).
  exists (sorted (filter (fun n => ends_with ".yaml" n = true)
                    (map fst (map_to_list fs1)))).
  assert (Hlisted : In bad (filter (fun n => ends_with ".yaml" n = true)
                              (map fst (map_to_list fs1)))).
  { apply listing_In. by rewrite Hf1. }
  split; [done |]. split.
  { unfold _get_yaml_files. cbn [files set_files].
    by destruct (filter _ _). }
  split; [by apply sorted_In |].
  split.
  { unfold _get_titles_from_yaml, _handle_corrupt_yaml, path_exists,
      load_or_dict, read_text. cbn [files set_files disk_ok now].
    by rewrite Hbad, Hf1, Hload, Hdisk. }
  cbn [files set_files now]. fold (bad_name (now w) bad). fold bad2.
  split.
  { rewrite lookup_insert_ne by done. by rewrite lookup_insert_eq. }
  split; [by rewrite lookup_insert_eq |].
  rewrite !lookup_insert_ne by done. rewrite lookup_delete_ne by done.
  subst fs1. by rewrite lookup_insert_eq.
Qed.

Lemma dynamic_output_types_untouched (w : World)
    (select_yaml select_preset input_preset_name : string) :
  let w' :=
    (dynamic_output_types w select_yaml select_preset input_preset_name).2 in
  files w' = files w /\ disk_ok w' = disk_ok w /\ now w' = now w
  /\ event_loop w' = event_loop w /\ stdout w' = stdout w
  /\ tasks w' = tasks w
  /\ _workflow_loading (instance w') = _workflow_loading (instance w).
Proof.
  unfold dynamic_output_types.
  repeat (case_match; simpl; try done).
Qed.

(** X10.  A get_prompt request that initialises the outputs raises the
    loading flag for the time of the request: when the route answers, the
    flag is down again; when the refresh inside it raises, the flag stays
    up, and from then on the schema of an empty selection is the empty
    one.  A request that does not initialise the outputs always answers
    and leaves the flag as it was. *)
Theorem get_prompt_loading_flag (w : World) (rq : prompt_request) :
  (pr_init_outputs rq = true ->
   match get_prompt w rq with
   | (Return _, w') => _workflow_loading (instance w') = false
   | (Raise _, w') =>
       _workflow_loading (instance w') = true
       /\ forall yaml_file : string,
            dynamic_output_types w' yaml_file "" "" = (([], []), w')
   end)
  /\ (pr_init_outputs rq = false ->
       exists (schema : list string * list string) (w' : World),
         get_prompt w rq = (Return schema, w')
         /\ _workflow_loading (instance w') = _workflow_loading (instance w)).
Proof.
  unfold get_prompt. split; intros Hinit; rewrite Hinit.
  - set (w0 := set_instance (set_workflow_loading true (instance w)) w).
    assert (Hr := FlexPresetFacts.refresh_enums_instance w0).
    destruct (refresh_enums w0) as [[u|e] w1]; simpl in Hr.
    + by destruct (dynamic_output_types w1 _ _ _) as [schema w2].
    + assert (Hflag : _workflow_loading (instance w1) = true).
      { by rewrite Hr. }
      split; [done |]. intros yaml_file.
      unfold dynamic_output_types. simpl. by rewrite Hflag.
  - destruct (dynamic_output_types_untouched w (pr_yaml rq) (pr_title rq)
                (pr_title rq)) as (_ & _ & _ & _ & _ & _ & Hflag).
    destruct (dynamic_output_types w _ _ _) as [schema w2]. by eexists _, _.
Qed.

(** X11.  Whatever [dynamic_output_types] answers, the two lists have
    the same length and every type is INT, FLOAT or STRING.  Unless it
    answers with the empty schema of the loading guard, which changes
    nothing, it publishes its answer: the class attributes RETURN_TYPES and
    RETURN_NAMES and the lists kept on the instance are the answer.  The
    files are never touched.  The tracker is emptied when the selection is
    empty or the file missing, and kept otherwise. *)
Theorem schema_is_published (w : World)
    (select_yaml select_preset input_preset_name : string) :
  let answer :=
    dynamic_output_types w select_yaml select_preset input_preset_name in
  let title := title_to_use select_preset input_preset_name in
  length answer.1.1 = length answer.1.2
  /\ Forall (fun ty => ty = "INT" \/ ty = "FLOAT" \/ ty = "STRING") answer.1.1
  /\ (answer.1 = ([], []) -> answer.2 = w)
  /\ (answer.1 <> ([], []) ->
       RETURN_TYPES answer.2 = answer.1.1
       /\ RETURN_NAMES answer.2 = answer.1.2
       /\ _dynamic_output_types (instance answer.2) = answer.1.1
       /\ _dynamic_output_names (instance answer.2) = answer.1.2
       /\ _panel_order (instance answer.2)
           = if is_empty title || is_empty select_yaml
                || negb (path_exists w select_yaml)
             then [] else _panel_order (instance w))
  /\ files answer.2 = files w.
Proof.
  intros answer title.
  assert (Htypes : forall (panel : Panel) (keys : list string),
    let found := fold_left (schema_step panel) keys ([], []) in
    length found.1 = length found.2
    /\ Forall (fun ty => ty = "INT" \/ ty = "FLOAT" \/ ty = "STRING") found.1).
  { intros panel keys. rewrite FlexPresetFacts.schema_fold. simpl.
    split; [by rewrite !length_map |].
    apply Forall_forall. intros ty Hty. apply list_elem_of_In in Hty.
    apply in_map_iff in Hty. destruct Hty as (k & <- & _).
    unfold output_type. repeat case_match; tauto. }
  split; [| split]; [| | split; [| split]].
  5: { apply dynamic_output_types_untouched. }
  all: subst answer; unfold dynamic_output_types; fold title.
  all: destruct (is_empty title || is_empty select_yaml); simpl.
  all: try (destruct (_workflow_loading (instance w)); simpl; try done;
            repeat constructor; tauto).
  all: destruct (path_exists w select_yaml); simpl; try done;
         try (repeat constructor; tauto).
  all: destruct (load_or_dict w select_yaml) as [[data|has]|]; simpl;
         try done; try (repeat constructor; tauto).
  all: destruct (Htypes (values_of data title)
                   (schema_keys_to_process (instance w)
                      (values_of data title))) as [Hlen Hall];
       simpl in Hlen, Hall.
  all: destruct (fold_left _ _ _) as [tys names]; simpl in *.
  all: destruct tys; simpl; try done; try (repeat constructor; tauto).
Qed.

End Routes.

Section Running.
Context `{PyEnv}.

Lemma ensure_title_exists_writes (w : World) (yaml_file title : string) :
  let w' := (_ensure_title_exists w yaml_file title).2 in
  (forall n : string, n <> yaml_file -> files w' !! n = files w !! n)
  /\ tasks w' = tasks w /\ instance w' = instance w
  /\ stdout w' = stdout w /\ event_loop w' = event_loop w.
Proof.
  unfold _ensure_title_exists, _save_yaml.
  destruct (if path_exists w yaml_file then _ else _) as [[data|has]|];
    [| by destruct (has title) as [[|]|] | done].
  destruct (OD.mem title data); [done |].
  destruct (disk_ok w && negb (is_empty yaml_file)); [| done].
  simpl. repeat split. intros n Hn. by rewrite lookup_insert_ne.
Qed.

Lemma run_world (self : receiver) (w : World)
    (select_yaml select_preset input_preset_name unique_id : string) :
  let title := title_to_use select_preset input_preset_name in
  let w' :=
    (run self w select_yaml select_preset input_preset_name unique_id).2 in
  files w' = files (ensure_title w select_yaml title)
  /\ tasks w' = tasks (ensure_title w select_yaml title).
Proof.
  intros title w'. subst w'.
  rewrite FlexPresetFacts.run_closed. fold title.
  destruct (dynamic_output_types_untouched (ensure_title w select_yaml title)
              select_yaml select_preset input_preset_name)
    as (Hf & _ & _ & _ & _ & Ht & _).
  by destruct (first_failure _ _).
Qed.

(** X12.  An evaluation writes at most one file, the selected one (the
    temporary file of the save aside), and only to create the preset: inside a running event loop it writes
    nothing at all and schedules the creation as one task; with an empty
    preset name or an empty file name it neither writes nor schedules. *)
Theorem run_writes_at_most_the_selected_file (self : receiver) (w : World)
    (select_yaml select_preset input_preset_name unique_id : string) :
  let title := title_to_use select_preset input_preset_name in
  let w' :=
    (run self w select_yaml select_preset input_preset_name unique_id).2 in
  (forall n : string, n <> select_yaml -> files w' !! n = files w !! n)
  /\ (event_loop w = LoopRunning ->
       files w' = files w
       /\ tasks w'
           = tasks w
             ++ (if negb (is_empty title) && negb (is_empty select_yaml)
                 then [(select_yaml, title)] else []))
  /\ (event_loop w <> LoopRunning -> tasks w' = tasks w)
  /\ (is_empty title || is_empty select_yaml = true ->
       files w' = files w /\ tasks w' = tasks w).
Proof.
  intros title w'.
  destruct (run_world self w select_yaml select_preset input_preset_name
              unique_id) as [Hf Ht].
  fold title in Hf, Ht. fold w' in Hf, Ht. rewrite Hf, Ht.
  destruct (ensure_title_exists_writes w select_yaml title)
    as (Hother & Htasks & _).
  unfold ensure_title.
  destruct (is_empty title), (is_empty select_yaml); simpl;
    try (repeat split; try done; by rewrite app_nil_r).
  destruct (event_loop w); simpl; repeat split; try done.
Qed.




End Running.

Section Composing.
Context `{PyEnv}.

Lemma loaded_document (w : World) (yaml_file : string) (data : Document) :
  load_or_dict w yaml_file = Some (DataDoc data) ->
  is_empty yaml_file = false /\ path_exists w yaml_file = true.
Proof.
  unfold load_or_dict, read_text, path_exists.
  destruct (is_empty yaml_file); [done |].
  by destruct (files w !! yaml_file).
Qed.

Lemma written_document (w : World) (fs : gmap string string)
    (yaml_file : string) (data : Document) :
  is_empty yaml_file = false ->
  yaml_load (yaml_dump data) = Some (TopDoc data) ->
  path_exists (set_files (<[yaml_file := yaml_dump data]> fs) w) yaml_file
  = true
  /\ load_or_dict (set_files (<[yaml_file := yaml_dump data]> fs) w) yaml_file
      = Some (DataDoc data).
Proof.
  intros Hn Hrt. unfold path_exists, load_or_dict, read_text. simpl.
  by rewrite Hn, lookup_insert_eq, Hrt.
Qed.

(** X15.  [_ensure_title_exists] only ever appends: a title that the
    document has is left alone and nothing is written; a title that it
    lacks is added after the last preset, with an empty panel, every preset
    before it staying as it is, in a file that is created if it was
    missing; a failure leaves everything as it is.  Once the written
    document loads back as written, a second call finds the title and
    writes nothing, and the new preset reads as an empty panel. *)
Theorem ensure_title_appends (w : World) (yaml_file title : string) :
  let loaded :=
    if path_exists w yaml_file then load_or_dict w yaml_file
    else Some (DataDoc []) in
  let outcome := _ensure_title_exists w yaml_file title in
  (outcome.1 = false -> outcome.2 = w)
  /\ forall data : Document,
       loaded = Some (DataDoc data) ->
       (OD.mem title data = true -> outcome = (true, w))
       /\ (OD.mem title data = false ->
            disk_ok w = true -> is_empty yaml_file = false ->
            outcome
            = (true,
               set_files
                 (<[yaml_file :=
                      yaml_dump (data ++ [(title, PDict [("values", [])])])]>
                    (files w)) w)
            /\ (yaml_load
                   (yaml_dump (data ++ [(title, PDict [("values", [])])]))
                 = Some (TopDoc (data ++ [(title, PDict [("values", [])])])) ->
                 _ensure_title_exists outcome.2 yaml_file title
                 = (true, outcome.2)
                 /\ _get_values_from_yaml outcome.2 yaml_file title = [])).
Proof.
  intros loaded outcome. subst outcome.
  unfold _ensure_title_exists at 1 2. fold loaded. split.
  { destruct loaded as [[data|has]|]; [| by destruct (has title) as [[|]|] |
                                        done].
    destruct (OD.mem title data); [done |].
    by destruct (_save_yaml w yaml_file _). }
  intros data Hload. split.
  { intros Hmem. unfold _ensure_title_exists. fold loaded.
    by rewrite Hload, Hmem. }
  intros Hmem Hdisk Hname.
  assert (Hfresh : ~ In title (OD.keys data)).
  { intros Hin. apply od_mem_true in Hin. congruence. }
  assert (Hout : _ensure_title_exists w yaml_file title
    = (true,
       set_files
         (<[yaml_file :=
              yaml_dump (data ++ [(title, PDict [("values", [])])])]>
            (files w)) w)).
  { unfold _ensure_title_exists, _save_yaml. fold loaded.
    rewrite Hload, Hmem, Hdisk, Hname. simpl.
    by rewrite od_set_fresh. }
  rewrite Hout. split; [done |].
  intros Hrt. cbn [snd].
  destruct (written_document w (files w) yaml_file _ Hname Hrt) as [Hex Hl].
  assert (Hget : OD.get title (data ++ [(title, PDict [("values", [])])])
                 = Some (PDict [("values", [])])).
  { rewrite <- (od_set_fresh title _ data Hfresh). apply od_get_set. }
  split.
  - unfold _ensure_title_exists. rewrite Hex, Hl.
    unfold OD.mem. by rewrite Hget.
  - unfold _get_values_from_yaml. rewrite Hex, Hl. simpl.
    unfold values_of. by rewrite Hget.
Qed.

Lemma schema_of_empty_panel (i : Inst) :
  schema_of i [] = (["STRING"], ["output"]).
Proof.
  unfold schema_of, schema_keys_to_process.
  destruct (_panel_order i) as [|k po]; [done |].
  rewrite fold_keep_filter. simpl.
  assert (Hf : forall l : list string,
    List.filter (fun k => @OD.mem field_node k []) l = []).
  { induction l as [|x l IH]; [done | apply IH]. }
  by rewrite Hf.
Qed.

(** X16.  Evaluating a preset that the document does not have yet,
    outside a running event loop and with the directory writable, creates
    it at the end of the document and, the written document loading back
    as written, returns the one-element tuple with the empty string. *)
Theorem run_creates_missing_preset (self : receiver) (w : World)
    (select_yaml title unique_id : string) (data : Document) :
  (if path_exists w select_yaml then load_or_dict w select_yaml
   else Some (DataDoc [])) = Some (DataDoc data) ->
  OD.mem title data = false ->
  title <> "" -> is_empty select_yaml = false ->
  disk_ok w = true -> event_loop w <> LoopRunning ->
  yaml_load (yaml_dump (data ++ [(title, PDict [("values", [])])]))
  = Some (TopDoc (data ++ [(title, PDict [("values", [])])])) ->
  (run self w select_yaml title "" unique_id).1 = Return [PyStr ""]
  /\ files (run self w select_yaml title "" unique_id).2
      = <[select_yaml :=
            yaml_dump (data ++ [(title, PDict [("values", [])])])]> (files w).
Proof.
  intros Hload Hmem Htitle Hname Hdisk Hloop Hrt.
  assert (Ht : is_empty title = false) by (by destruct title).
  assert (Hfresh : ~ In title (OD.keys data)).
  { intros Hin. apply od_mem_true in Hin. congruence. }
  set (data' := data ++ [(title, PDict [("values", [])])]) in *.
  set (w1 := set_files (<[select_yaml := yaml_dump data']> (files w)) w).
  assert (Hens : ensure_title w select_yaml title = w1).
  { unfold ensure_title, _ensure_title_exists, _save_yaml.
    rewrite Ht, Hname, Hload, Hmem, Hdisk. simpl.
    rewrite od_set_fresh by done. by destruct (event_loop w). }
  destruct (written_document w (files w) select_yaml _ Hname Hrt)
    as [Hex Hl]. fold w1 in Hex, Hl.
  assert (Hget : OD.get title data' = Some (PDict [("values", [])])).
  { subst data'. rewrite <- (od_set_fresh title _ data Hfresh).
    apply od_get_set. }
  assert (Hvals : _get_values_from_yaml w1 select_yaml title = []).
  { unfold _get_values_from_yaml. rewrite Hex, Hl. simpl.
    unfold values_of. by rewrite Hget. }
  assert (Hschema : (dynamic_output_types w1 select_yaml title "").1
                    = (["STRING"], ["output"])).
  { rewrite FlexPresetFacts.dynamic_output_types_schema.
    change (title_to_use title "") with title.
    rewrite Ht, Hname, Hvals. simpl. apply schema_of_empty_panel. }
  split.
  - rewrite FlexPresetFacts.run_closed.
    change (title_to_use title "") with title.
    rewrite Hens, Hvals, Hschema. unfold run_keys_to_process. done.
  - destruct (run_world self w select_yaml title "" unique_id) as [Hf _].
    change (title_to_use title "") with title in Hf. by rewrite Hf, Hens.
Qed.

(** X17.  Deleting a field that was just added gives the document
    back: for a key that the panel did not have, [_add_value] followed by
    [_delete_value], the document written by the first loading back as
    written, leaves in the file the dump of the document as it was
    loaded. *)
Theorem delete_undoes_add (w : World)
    (yaml_file title key_name key_type key_value : string)
    (data : Document) (panels : list (string * Panel)) (values : Panel) :
  let added :=
    OD.set title
      (PDict
         (OD.set "values"
            (values ++ [(key_name, FDict (Some key_type) (Some key_value))])
            panels))
      data in
  load_or_dict w yaml_file = Some (DataDoc data) ->
  OD.get title data = Some (PDict panels) ->
  OD.get "values" panels = Some values ->
  OD.mem key_name values = false ->
  disk_ok w = true ->
  yaml_load (yaml_dump added) = Some (TopDoc added) ->
  exists w1 : World,
    _add_value w yaml_file title key_name key_type key_value = (true, w1)
    /\ files w1 = <[yaml_file := yaml_dump added]> (files w)
    /\ _delete_value w1 yaml_file title key_name
        = (true, set_files (<[yaml_file := yaml_dump data]> (files w)) w).
Proof.
  intros added Hload Htitle Hvalues Hmem Hdisk Hrt.
  destruct (loaded_document w yaml_file data Hload) as [Hname Hex].
  assert (Hfresh : ~ In key_name (OD.keys values)).
  { intros Hin. apply od_mem_true in Hin. congruence. }
  set (field := FDict (Some key_type) (Some key_value)) in *.
  assert (Hadd : _add_value w yaml_file title key_name key_type key_value
    = (true, set_files (<[yaml_file := yaml_dump added]> (files w)) w)).
  { unfold _add_value, _save_yaml. rewrite Hex, Hload, Htitle. simpl.
    rewrite Htitle. unfold OD.mem. rewrite Hvalues. simpl.
    rewrite Hdisk, Hname. simpl. fold field. rewrite Hvalues. simpl.
    by rewrite (od_set_fresh key_name field values Hfresh). }
  eexists. split; [exact Hadd |]. split; [done |].
  destruct (written_document w (files w) yaml_file added Hname Hrt)
    as [Hex1 Hl1].
  unfold _delete_value, _save_yaml. rewrite Hex1, Hl1.
  subst added. rewrite od_get_set, od_get_set.
  assert (Hin : OD.mem key_name (values ++ [(key_name, field)]) = true).
  { apply od_mem_true. rewrite od_keys_app. apply in_or_app. right. by left. }
  rewrite Hin. cbn [disk_ok set_files]. rewrite Hdisk, Hname. simpl.
  rewrite <- (od_set_fresh key_name field values Hfresh).
  rewrite od_del_set_fresh by done.
  rewrite !od_set_set.
  assert (E1 : @OD.set (list (string * field_node)) "values" values panels
               = panels).
  { by apply od_set_same. }
  assert (E2 : OD.set title (PDict panels) data = data).
  { by apply od_set_same. }
  rewrite E1, E2.
  unfold set_files. simpl. by rewrite insert_insert_eq.
Qed.

(** X18.  Renaming a field onto the name of another field of the panel
    is not refused: the two become one.  The field that comes first in the
    panel keeps its place under the new name, the one that comes later
    gives its type and value and disappears; the stored content of the
    earlier one is lost. *)
Theorem rename_onto_existing_field (w : World)
    (yaml_file title old_key new_key a b : string) (va vb : field_node)
    (data : Document) (panels : list (string * Panel))
    (pre mid post : Panel) :
  let values := pre ++ (a, va) :: mid ++ (b, vb) :: post in
  let merged := pre ++ (new_key, vb) :: mid ++ post in
  NoDup (OD.keys values) ->
  (a = old_key /\ b = new_key) \/ (a = new_key /\ b = old_key) ->
  rename_items old_key new_key values = merged
  /\ (load_or_dict w yaml_file = Some (DataDoc data) ->
       OD.get title data = Some (PDict panels) ->
       OD.get "values" panels = Some values ->
       new_key <> "" -> disk_ok w = true ->
       _update_key_name w yaml_file title old_key new_key
       = (true,
          set_files
            (<[yaml_file :=
                 yaml_dump
                   (OD.set title (PDict (OD.set "values" merged panels)) data)]>
               (files w)) w)).
Proof.
  intros values merged Hnd Hab.
  assert (Hkeys : OD.keys values
    = OD.keys pre ++ a :: OD.keys mid ++ b :: OD.keys post).
  { subst values. rewrite od_keys_app. simpl. by rewrite od_keys_app. }
  rewrite Hkeys in Hnd.
  apply NoDup_app in Hnd. destruct Hnd as (Hpre & Hdisj & Hnd).
  apply NoDup_cons in Hnd. destruct Hnd as (Ha & Hnd).
  apply NoDup_app in Hnd. destruct Hnd as (Hmid & Hdisj2 & Hnd).
  apply NoDup_cons in Hnd. destruct Hnd as (Hb & Hpost).
  assert (Hab_ne : a <> b).
  { intros ->. apply Ha. apply elem_of_app. right. by left. }
  assert (Hne : old_key <> new_key).
  { destruct Hab as [[<- <-] | [<- <-]]; [done | by apply not_eq_sym]. }
  assert (Hpre_a : ~ In a (OD.keys pre)).
  { intros Hin. apply list_elem_of_In in Hin. apply (Hdisj a Hin). by left. }
  assert (Hpre_b : ~ In b (OD.keys pre)).
  { intros Hin. apply list_elem_of_In in Hin. apply (Hdisj b Hin).
    right. apply elem_of_app. right. by left. }
  assert (Hmid_a : ~ In a (OD.keys mid)).
  { intros Hin. apply list_elem_of_In in Hin. apply Ha.
    apply elem_of_app. by left. }
  assert (Hmid_b : ~ In b (OD.keys mid)).
  { intros Hin. apply list_elem_of_In in Hin. apply (Hdisj2 b Hin). by left. }
  assert (Hpost_a : ~ In a (OD.keys post)).
  { intros Hin. apply list_elem_of_In in Hin. apply Ha.
    apply elem_of_app. right. by right. }
  assert (Hpost_b : ~ In b (OD.keys post)).
  { intros Hin. by apply list_elem_of_In in Hin. }
  assert (Hsame : forall l : Panel,
    ~ In a (OD.keys l) -> ~ In b (OD.keys l) ->
    map (rename_field old_key new_key) l = l).
  { intros l Hla Hlb. unfold OD.keys in *.
    induction l as [|[k v] l IH]; [done |].
    simpl in *. rewrite IH by tauto. unfold rename_field. simpl.
    destruct (String.eqb k old_key) eqn:E; [| done].
    apply String.eqb_eq in E. subst k.
    destruct Hab as [[<- <-] | [<- <-]]; tauto. }
  assert (Hren_a : rename_field old_key new_key (a, va) = (new_key, va)).
  { unfold rename_field. simpl.
    destruct Hab as [[-> ->] | [-> ->]].
    - by rewrite String.eqb_refl.
    - apply not_eq_sym, String.eqb_neq in Hne. by rewrite Hne. }
  assert (Hren_b : rename_field old_key new_key (b, vb) = (new_key, vb)).
  { unfold rename_field. simpl.
    destruct Hab as [[-> ->] | [-> ->]].
    - apply not_eq_sym, String.eqb_neq in Hne. by rewrite Hne.
    - by rewrite String.eqb_refl. }
  assert (Hnew : forall l : Panel,
    ~ In a (OD.keys l) -> ~ In b (OD.keys l) -> ~ In new_key (OD.keys l)).
  { intros l Hla Hlb. by destruct Hab as [[_ <-] | [<- _]]. }
  assert (Hn1 : NoDup (OD.keys (pre ++ (new_key, va) :: mid))).
  { rewrite od_keys_app. simpl.
    apply NoDup_app. split; [done |]. split.
    - intros x Hx [-> | Hx']%elem_of_cons.
      + apply list_elem_of_In in Hx. by apply (Hnew pre).
      + apply (Hdisj x Hx). right. apply elem_of_app. by left.
    - apply NoDup_cons. split; [| done].
      intros Hin%list_elem_of_In. by apply (Hnew mid). }
  assert (Hn2 : NoDup (OD.keys ((pre ++ (new_key, vb) :: mid) ++ post))).
  { rewrite <- app_assoc. simpl. rewrite od_keys_app. simpl.
    rewrite od_keys_app.
    apply NoDup_app. split; [done |]. split.
    - intros x Hx [-> | Hx']%elem_of_cons.
      + apply list_elem_of_In in Hx. by apply (Hnew pre).
      + apply (Hdisj x Hx). right.
        apply elem_of_app in Hx'. apply elem_of_app.
        destruct Hx' as [Hx' | Hx']; [by left | right; by right].
    - apply NoDup_cons. split.
      + intros [Hin | Hin]%elem_of_app; apply list_elem_of_In in Hin.
        * by apply (Hnew mid).
        * by apply (Hnew post).
      + apply NoDup_app. split; [done |]. split; [| done].
        intros x Hx Hx'. apply (Hdisj2 x Hx). by right. }
  assert (Hitems : rename_items old_key new_key values = merged).
  { unfold rename_items. rewrite FlexPresetFacts.rename_items_pairs.
    subst values merged. rewrite map_app. simpl. rewrite map_app. simpl.
    rewrite Hren_a, Hren_b, !Hsame by done.
    change (pre ++ (new_key, va) :: mid ++ (new_key, vb) :: post)
      with (pre ++ ((new_key, va) :: mid) ++ (new_key, vb) :: post).
    rewrite app_assoc, fold_left_app.
    rewrite (od_fold_set_fresh (pre ++ (new_key, va) :: mid) []) by done.
    simpl. rewrite od_set_middle by (by apply Hnew).
    rewrite (od_fold_set_fresh post (pre ++ (new_key, vb) :: mid)) by done.
    by rewrite <- app_assoc. }
  split; [exact Hitems |].
  intros Hload Htitle Hvalues Hnonempty Hdisk.
  destruct (loaded_document w yaml_file data Hload) as [Hname Hex].
  unfold _update_key_name, _save_yaml.
  rewrite Hex. simpl.
  assert (Hn : is_empty new_key = false) by (by destruct new_key).
  rewrite Hn, Hload, Htitle, Hvalues.
  assert (Hold : OD.mem old_key values = true).
  { apply od_mem_true. rewrite Hkeys.
    destruct Hab as [[<- _] | [_ <-]].
    - apply in_or_app. right. by left.
    - apply in_or_app. right. right. apply in_or_app. right. by left. }
  rewrite Hold. apply String.eqb_neq in Hne. rewrite Hne. simpl.
  by rewrite Hitems, Hdisk, Hname.
Qed.

Lemma get_values_files (w w' : World) (yaml_file title : string) :
  files w' = files w ->
  _get_values_from_yaml w' yaml_file title
  = _get_values_from_yaml w yaml_file title.
Proof.
  intros Hf.
  unfold _get_values_from_yaml, path_exists, load_or_dict, read_text.
  by rewrite Hf.
Qed.

(** X19.  The validation is advisory, and what it lets through can
    break the preset: a value that does not convert to its declared type is
    stored all the same, and from then on, the written document loading
    back as written, every evaluation of the preset raises [ValueError],
    naming that field when every other field converts. *)
Theorem stored_mismatch_breaks_evaluation (self : receiver) (w : World)
    (yaml_file title key_name key_type key_value unique_id : string)
    (data : Document) (panels : list (string * Panel)) (values : Panel) :
  let panel := OD.set key_name (FDict (Some key_type) (Some key_value))
                 values in
  let written := OD.set title (PDict (OD.set "values" panel panels)) data in
  load_or_dict w yaml_file = Some (DataDoc data) ->
  OD.get title data = Some (PDict panels) ->
  OD.get "values" panels = Some values ->
  title <> "" -> disk_ok w = true ->
  convert key_type key_value = None ->
  yaml_load (yaml_dump written) = Some (TopDoc written) ->
  exists w1 : World,
    _add_value w yaml_file title key_name key_type key_value = (true, w1)
    /\ (exists k : string,
          fails panel k = true
          /\ (run self w1 yaml_file title "" unique_id).1
              = Raise
                  (ValueError
                     (error_msg (stored_value panel k) (declared_type panel k)
                        k)))
    /\ ((forall k : string, k <> key_name -> fails panel k = false) ->
         (run self w1 yaml_file title "" unique_id).1
         = Raise
             (ValueError
                ("NS-FlexPreset: Cannot convert '" +:+ key_value +:+ "' to "
                 +:+ key_type +:+ " for key '" +:+ key_name +:+ "'"))).
Proof.
  intros panel written Hload Htitle Hvalues Hne Hdisk Hconv Hrt.
  destruct (loaded_document w yaml_file data Hload) as [Hname Hex].
  assert (Ht : is_empty title = false) by (by destruct title).
  set (w1 := set_files (<[yaml_file := yaml_dump written]> (files w)) w).
  assert (Hadd : _add_value w yaml_file title key_name key_type key_value
                 = (true, w1)).
  { unfold _add_value, _save_yaml. rewrite Hex, Hload, Htitle. simpl.
    rewrite Htitle. unfold OD.mem. rewrite Hvalues. simpl.
    rewrite Hvalues. simpl. by rewrite Hdisk, Hname. }
  exists w1. split; [exact Hadd |].
  destruct (written_document w (files w) yaml_file written Hname Hrt)
    as [Hex1 Hl1]. fold w1 in Hex1, Hl1.
  assert (Hget : OD.get title written = Some (PDict (OD.set "values" panel panels))).
  { apply od_get_set. }
  assert (Hens : files (ensure_title w1 yaml_file title) = files w1).
  { unfold ensure_title, _ensure_title_exists. rewrite Ht, Hname, Hex1, Hl1.
    unfold OD.mem. rewrite Hget. by destruct (event_loop w1). }
  assert (Hpanel : _get_values_from_yaml (ensure_title w1 yaml_file title)
                     yaml_file title = panel).
  { rewrite (get_values_files w1) by done.
    unfold _get_values_from_yaml. rewrite Hex1, Hl1. simpl.
    unfold values_of. rewrite Hget. by rewrite od_get_set. }
  assert (Hrun := FlexPresetFacts.run_closed self w1 yaml_file title ""
                    unique_id).
  simpl in Hrun. change (title_to_use title "") with title in Hrun.
  rewrite Hpanel in Hrun.
  set (schema := dynamic_output_types (ensure_title w1 yaml_file title)
                   yaml_file title "") in *.
  set (me := match self with
             | Singleton => instance schema.2
             | Other attributes => attributes
             end) in *.
  set (keys := run_keys_to_process me panel) in *.
  assert (Hfield : OD.get key_name panel
                   = Some (FDict (Some key_type) (Some key_value))).
  { apply od_get_set. }
  assert (Hfails : fails panel key_name = true).
  { unfold fails, converted, is_field, declared_type, stored_value.
    by rewrite Hfield, Hconv. }
  assert (Hkey : In key_name keys).
  { subst keys. rewrite FlexPresetFacts.run_order.
    apply FlexPresetFacts.keys_cover_panel, od_mem_true.
    unfold OD.mem. by rewrite Hfield. }
  destruct (FlexPresetFacts.first_failure_some panel keys key_name Hkey Hfails)
    as (k & Hfirst & _ & Hk).
  rewrite Hfirst in Hrun. split.
  - exists k. split; [done |]. by rewrite Hrun.
  - intros Hothers.
    assert (k = key_name) as ->.
    { destruct (decide (k = key_name)) as [-> | Hneq]; [done |].
      rewrite (Hothers k Hneq) in Hk. done. }
    rewrite Hrun. simpl. unfold error_msg, stored_value, declared_type.
    by rewrite Hfield.
Qed.

End Composing.

(** *** Instances *)

Import (hints) Sample.


Lemma delete_route_untracks_witness :
  delete_value Sample.boxed Sample.delete_height
  = (Return true, (delete_value Sample.boxed Sample.delete_height).2)
  /\ _panel_order
        (instance (delete_value Sample.boxed Sample.delete_height).2)
      = list_remove "height" ["width"; "height"; "depth"].
Proof.
  assert (Hdel : delete_value Sample.boxed Sample.delete_height
    = (Return true, (delete_value Sample.boxed Sample.delete_height).2)).
  { vm_compute. reflexivity. }
  split; [exact Hdel |].
  assert (Hcase : true = false \/ dr_title Sample.delete_height <> "").
  { right. discriminate. }
  exact (proj1 (delete_route_untracks (H := Sample.env) Sample.boxed
                  (delete_value Sample.boxed Sample.delete_height).2
                  Sample.delete_height true Hdel Hcase)).
Defined.

Lemma add_route_is_update_route_witness :
  vr_update_outputs Sample.store_word = false
  /\ update_value Sample.studio Sample.store_word
      = (Return true,
         (_add_value
            (print
               "NS-FlexPreset Warning: Value 'tall' does not match type 'int'"
               Sample.studio)
            "box.yaml" "box" "height" "int" "tall").2).
Proof.
  split; [reflexivity |].
  destruct (add_route_is_update_route Sample.studio Sample.store_word)
    as (_ & _ & Hquiet & _).
  destruct (Hquiet eq_refl) as [Hupd _].
  etransitivity; [exact Hupd |]. vm_compute. reflexivity.
Defined.


Lemma input_choices_witness :
  INPUT_TYPES Sample.studio
  = (Return
       (mkInputTypes
          ["box.yaml"; "broken.yaml"; "presets.yaml"; "torn.yaml"]
          "box.yaml" [""; "box"; "main"; "spare"]),
     Sample.studio)
  /\ _get_yaml_files Sample.studio
      = (Return ["box.yaml"; "broken.yaml"; "presets.yaml"; "torn.yaml"],
         Sample.studio)
  /\ In "" [""; "box"; "main"; "spare"].
Proof.
  assert (Hin : INPUT_TYPES Sample.studio
    = (Return
         (mkInputTypes
            ["box.yaml"; "broken.yaml"; "presets.yaml"; "torn.yaml"]
            "box.yaml" [""; "box"; "main"; "spare"]),
       Sample.studio)).
  { vm_compute. reflexivity. }
  split; [exact Hin |].
  destruct (input_choices Sample.studio _ _ Hin) as (Hfiles & _ & Hempty & _).
  split; [exact Hfiles | exact Hempty].
Defined.


Lemma quarantine_repeats_witness :
  files Sample.studio !! "torn.yaml" = Some Sample.garbage
  /\ exists (w1 w2 : World) (names : list string),
       _get_titles_from_yaml Sample.studio "torn.yaml" = (Return [""], w1)
       /\ _get_yaml_files w1 = (Return names, w1)
       /\ In "bad_20240101_120000_torn.yaml" names
       /\ _get_titles_from_yaml w1 "bad_20240101_120000_torn.yaml"
           = (Return [""], w2)
       /\ files w2 !! "bad_20240101_120000_bad_20240101_120000_torn.yaml"
           = Some Sample.garbage.
Proof.
  assert (Hfile : files Sample.studio !! "torn.yaml" = Some Sample.garbage).
  { vm_compute. reflexivity. }
  split; [exact Hfile |].
  assert (Hload : yaml_load Sample.garbage = None).
  { vm_compute. reflexivity. }
  destruct (quarantine_repeats (H := Sample.env) Sample.studio "torn.yaml"
              Sample.garbage Hfile eq_refl Hload eq_refl)
    as (w1 & w2 & names & H1 & H2 & H3 & H4 & H5 & _).
  exists w1, w2, names.
  split; [exact H1 |]. split; [exact H2 |]. split; [exact H3 |].
  split; [exact H4 |].
  assert (Hnow : now w1 = "20240101_120000").
  { pose proof (f_equal (fun r => now r.2) H1) as Hn. simpl in Hn.
    rewrite <- Hn. vm_compute. reflexivity. }
  rewrite Hnow in H5. exact H5.
Defined.

Lemma get_prompt_loading_flag_witness :
  (get_prompt Sample.sealed (mkPromptRequest "a.yaml" "t" true)).1
  = Raise OSError
  /\ _workflow_loading
        (instance
           (get_prompt Sample.sealed (mkPromptRequest "a.yaml" "t" true)).2)
      = true.
Proof.
  assert (Hraise :
    (get_prompt Sample.sealed (mkPromptRequest "a.yaml" "t" true)).1
    = Raise OSError).
  { vm_compute. reflexivity. }
  split; [exact Hraise |].
  destruct (get_prompt_loading_flag Sample.sealed
              (mkPromptRequest "a.yaml" "t" true)) as [Hflag _].
  specialize (Hflag eq_refl).
  destruct (get_prompt Sample.sealed (mkPromptRequest "a.yaml" "t" true))
    as [[schema|e] w'].
  - discriminate Hraise.
  - exact (proj1 Hflag).
Defined.

Lemma schema_is_published_witness :
  (dynamic_output_types Sample.arranged "presets.yaml" "main" "").1
  <> ([], [])
  /\ RETURN_NAMES
        (dynamic_output_types Sample.arranged "presets.yaml" "main" "").2
      = ["c_string"; "a_int"; "b_float"]
  /\ _panel_order
        (instance
           (dynamic_output_types Sample.arranged "presets.yaml" "main" "").2)
      = ["c"; "ghost"; "a"].
Proof.
  assert (Hne :
    (dynamic_output_types Sample.arranged "presets.yaml" "main" "").1
    <> ([], [])).
  { vm_compute. discriminate. }
  split; [exact Hne |].
  destruct (schema_is_published Sample.arranged "presets.yaml" "main" "")
    as (_ & _ & _ & Hpub & _).
  destruct (Hpub Hne) as (_ & Hnames & _ & _ & Htracker).
  split.
  - rewrite Hnames. vm_compute. reflexivity.
  - rewrite Htracker. vm_compute. reflexivity.
Defined.

Lemma run_writes_at_most_the_selected_file_witness :
  event_loop Sample.studio <> LoopRunning
  /\ tasks (run Singleton Sample.studio "box.yaml" "lid" "" "7").2 = []
  /\ files (run Singleton Sample.studio "box.yaml" "lid" "" "7").2
        !! "presets.yaml"
      = files Sample.studio !! "presets.yaml".
Proof.
  assert (Hloop : event_loop Sample.studio <> LoopRunning).
  { vm_compute. discriminate. }
  split; [exact Hloop |].
  destruct (run_writes_at_most_the_selected_file Singleton Sample.studio
              "box.yaml" "lid" "" "7") as (Hother & _ & Htasks & _).
  split.
  - exact (Htasks Hloop).
  - apply Hother. discriminate.
Defined.



Lemma ensure_title_appends_witness :
  OD.mem "lid" Sample.box = false
  /\ _ensure_title_exists Sample.studio "box.yaml" "lid"
      = (true,
         set_files
           (<["box.yaml" :=
                yaml_dump (Sample.box ++ [("lid", PDict [("values", [])])])]>
              (files Sample.studio)) Sample.studio)
  /\ _get_values_from_yaml
        (_ensure_title_exists Sample.studio "box.yaml" "lid").2
        "box.yaml" "lid" = [].
Proof.
  split; [reflexivity |].
  destruct (ensure_title_appends Sample.studio "box.yaml" "lid")
    as [_ Hdoc].
  destruct (Hdoc Sample.box ltac:(vm_compute; reflexivity)) as [_ Hnew].
  destruct (Hnew eq_refl eq_refl eq_refl) as [Hout Hagain].
  split; [exact Hout |].
  exact (proj2 (Hagain ltac:(vm_compute; reflexivity))).
Defined.

Lemma run_creates_missing_preset_witness :
  OD.mem "lid" Sample.box = false
  /\ (run Singleton Sample.studio "box.yaml" "lid" "" "7").1
      = Return [PyStr ""]
  /\ files (run Singleton Sample.studio "box.yaml" "lid" "" "7").2
      = <["box.yaml" :=
            yaml_dump (Sample.box ++ [("lid", PDict [("values", [])])])]>
          (files Sample.studio).
Proof.
  split; [reflexivity |].
  assert (Hload : (if path_exists Sample.studio "box.yaml"
                   then load_or_dict Sample.studio "box.yaml"
                   else Some (DataDoc [])) = Some (DataDoc Sample.box)).
  { vm_compute. reflexivity. }
  assert (Hname : "lid" <> "") by discriminate.
  assert (Hloop : event_loop Sample.studio <> LoopRunning) by discriminate.
  assert (Hrt :
    yaml_load (yaml_dump (Sample.box ++ [("lid", PDict [("values", [])])]))
    = Some (TopDoc (Sample.box ++ [("lid", PDict [("values", [])])]))).
  { vm_compute. reflexivity. }
  exact (run_creates_missing_preset (H := Sample.env) Singleton Sample.studio
           "box.yaml" "lid" "7" Sample.box Hload eq_refl Hname eq_refl
           eq_refl Hloop Hrt).
Defined.

Lemma delete_undoes_add_witness :
  OD.mem "label" (values_of Sample.box "box") = false
  /\ exists w1 : World,
       _add_value Sample.studio "box.yaml" "box" "label" "string" "front"
       = (true, w1)
       /\ _delete_value w1 "box.yaml" "box" "label"
           = (true,
              set_files
                (<["box.yaml" := yaml_dump Sample.box]> (files Sample.studio))
                Sample.studio).
Proof.
  split; [reflexivity |].
  assert (Hload : load_or_dict Sample.studio "box.yaml"
                  = Some (DataDoc Sample.box)).
  { vm_compute. reflexivity. }
  assert (Hrt :
    yaml_load
      (yaml_dump
         (OD.set "box"
            (PDict
               (OD.set "values"
                  (values_of Sample.box "box"
                   ++ [("label", FDict (Some "string") (Some "front"))])
                  [("values", values_of Sample.box "box")]))
            Sample.box))
    = Some
        (TopDoc
           (OD.set "box"
              (PDict
                 (OD.set "values"
                    (values_of Sample.box "box"
                     ++ [("label", FDict (Some "string") (Some "front"))])
                    [("values", values_of Sample.box "box")]))
              Sample.box))).
  { vm_compute. reflexivity. }
  destruct (delete_undoes_add (H := Sample.env) Sample.studio "box.yaml"
              "box" "label" "string" "front" Sample.box
              [("values", values_of Sample.box "box")]
              (values_of Sample.box "box")
              Hload eq_refl eq_refl eq_refl eq_refl Hrt)
    as (w1 & Hadd & _ & Hdel).
  exists w1. split; [exact Hadd | exact Hdel].
Defined.

Lemma rename_onto_existing_field_witness :
  NoDup (OD.keys (values_of Sample.box "box"))
  /\ rename_items "height" "depth" (values_of Sample.box "box")
      = [("width", Sample.field "int" "640");
         ("depth", Sample.field "int" "3")]
  /\ _update_key_name Sample.studio "box.yaml" "box" "height" "depth"
      = (true,
         set_files
           (<["box.yaml" :=
                yaml_dump
                  [("box",
                    PDict [("values",
                            [("width", Sample.field "int" "640");
                             ("depth", Sample.field "int" "3")])])]]>
              (files Sample.studio)) Sample.studio).
Proof.
  assert (Hnd : NoDup (OD.keys (values_of Sample.box "box"))).
  { compute_nodup. }
  split; [exact Hnd |].
  assert (Hload : load_or_dict Sample.studio "box.yaml"
                  = Some (DataDoc Sample.box)).
  { vm_compute. reflexivity. }
  assert (Hnew : "depth" <> "") by discriminate.
  destruct (rename_onto_existing_field (H := Sample.env) Sample.studio
              "box.yaml" "box"
              "height" "depth" "height" "depth"
              (Sample.field "int" "480") (Sample.field "int" "3")
              Sample.box [("values", values_of Sample.box "box")]
              [("width", Sample.field "int" "640")] [] []
              Hnd (or_introl (conj eq_refl eq_refl))) as [Hitems Hfile].
  split; [exact Hitems |].
  exact (Hfile Hload eq_refl eq_refl Hnew eq_refl).
Defined.

Lemma stored_mismatch_breaks_evaluation_witness :
  convert "int" "tall" = None
  /\ exists w1 : World,
       _add_value Sample.studio "box.yaml" "box" "height" "int" "tall"
       = (true, w1)
       /\ (run Singleton w1 "box.yaml" "box" "" "7").1
           = Raise
               (ValueError
                  "NS-FlexPreset: Cannot convert 'tall' to int for key 'height'").
Proof.
  assert (Hconv : convert "int" "tall" = None) by reflexivity.
  split; [exact Hconv |].
  assert (Hload : load_or_dict Sample.studio "box.yaml"
                  = Some (DataDoc Sample.box)).
  { vm_compute. reflexivity. }
  assert (Htitle : "box" <> "") by discriminate.
  assert (Hrt :
    yaml_load
      (yaml_dump
         (OD.set "box"
            (PDict
               (OD.set "values"
                  (OD.set "height" (FDict (Some "int") (Some "tall"))
                     (values_of Sample.box "box"))
                  [("values", values_of Sample.box "box")]))
            Sample.box))
    = Some
        (TopDoc
           (OD.set "box"
              (PDict
                 (OD.set "values"
                    (OD.set "height" (FDict (Some "int") (Some "tall"))
                       (values_of Sample.box "box"))
                    [("values", values_of Sample.box "box")]))
              Sample.box))).
  { vm_compute. reflexivity. }
  destruct (stored_mismatch_breaks_evaluation (H := Sample.env) Singleton
              Sample.studio "box.yaml" "box" "height" "int" "tall" "7"
              Sample.box [("values", values_of Sample.box "box")]
              (values_of Sample.box "box")
              Hload eq_refl eq_refl Htitle eq_refl Hconv Hrt)
    as (w1 & Hadd & _ & Honly).
  exists w1. split; [exact Hadd |].
  apply Honly. intros k Hk. unfold fails, converted, is_field, declared_type,
    stored_value.
  cbn [values_of Sample.box OD.get OD.set String.eqb Ascii.eqb Bool.eqb
       Sample.field].
  destruct (String.eqb k "width"); [reflexivity |].
  destruct (String.eqb k "height") eqn:E.
  { apply String.eqb_eq in E. contradiction. }
  destruct (String.eqb k "depth"); reflexivity.
Defined.

End FlexPresetOps.

(** ** The prompt list: reading, deleting, listing *)

Module PromptListOps.
Import Py PromptList.

Section Prompts.
Context `{PyEnv}.

Lemma prompt_bad_name_differs (timestamp name : string) :
  bad_name timestamp name <> name.
Proof.
  intros Heq. apply (f_equal String.length) in Heq.
  unfold bad_name in Heq. rewrite !length_append in Heq. simpl in Heq. lia.
Qed.

(** The prompt that a document holds for a title. *)
Lemma prompt_data_of (w : World) (yaml_file title : string)
    (data : Document) :
  path_exists w yaml_file = true ->
  load_or_dict w yaml_file = Some (DataDoc data) ->
  _get_prompt_data w yaml_file title
  = (title,
     match OD.get title data with
     | Some (EDict items) => default "" (OD.get "prompt" items)
     | _ => ""
     end).
Proof.
  intros Hex Hload. unfold _get_prompt_data. rewrite Hex, Hload. simpl.
  by destruct (OD.get title data) as [[items|]|].
Qed.

Lemma same_entry_prompt (a b : option entry_node) :
  same_entry a b ->
  match a with
  | Some (EDict items) => default "" (OD.get "prompt" items)
  | _ => ""
  end
  = match b with
    | Some (EDict items) => default "" (OD.get "prompt" items)
    | _ => ""
    end.
Proof.
  destruct a as [[x|]|], b as [[y|]|]; simpl; try done.
  intros Hk. by rewrite Hk.
Qed.

Lemma written_file (w : World) (yaml_file text : string) :
  is_empty yaml_file = false ->
  path_exists (set_files (<[yaml_file := text]> (files w)) w) yaml_file
  = true.
Proof.
  intros Hn. unfold path_exists. simpl. by rewrite lookup_insert_eq.
Qed.

(** X20.  [_delete_title] answers [False] and writes nothing when the
    file is missing, cannot be read, or does not hold the title, and
    whenever the write fails.  When it answers [True] the document has
    been written back without that title, the other titles keeping their
    entries; and once the written file loads with the content it was
    given, the deleted title reads as the empty prompt and every other
    title reads as it did before. *)
Theorem delete_title_removes_one_entry (w : World)
    (yaml_file title : string) :
  let outcome := _delete_title w yaml_file title in
  (outcome.1 = false -> outcome.2 = w)
  /\ (path_exists w yaml_file = false -> outcome = (false, w))
  /\ forall data : Document,
       path_exists w yaml_file = true ->
       load_or_dict w yaml_file = Some (DataDoc data) ->
       NoDup (OD.keys data) ->
       (OD.mem title data = false -> outcome = (false, w))
       /\ (OD.mem title data = true -> disk_ok w = true ->
           outcome
           = (true,
              set_files
                (<[yaml_file := yaml_dump (OD.del title data)]> (files w)) w)
           /\ OD.mem title (OD.del title data) = false
           /\ (forall t : string,
                 t <> title ->
                 OD.get t (OD.del title data) = OD.get t data)
           /\ forall data' : Document,
                load_or_dict outcome.2 yaml_file = Some (DataDoc data') ->
                same_content (OD.del title data) data' ->
                _get_prompt_data outcome.2 yaml_file title = (title, "")
                /\ forall t : string,
                     t <> title ->
                     _get_prompt_data outcome.2 yaml_file t
                     = _get_prompt_data w yaml_file t).
Proof.
  intros outcome. subst outcome. split; [| split].
  { unfold _delete_title, _save_yaml.
    repeat (case_match; simpl; try done). }
  { intros Hex. unfold _delete_title. by rewrite Hex. }
  intros data Hex Hload Hnd. split.
  { intros Hmem. unfold _delete_title. by rewrite Hex, Hload, Hmem. }
  intros Hmem Hdisk.
  assert (Hname : is_empty yaml_file = false).
  { unfold load_or_dict, read_text in Hload.
    by destruct (is_empty yaml_file). }
  assert (Hout : _delete_title w yaml_file title
    = (true,
       set_files
         (<[yaml_file := yaml_dump (OD.del title data)]> (files w)) w)).
  { unfold _delete_title, _save_yaml.
    by rewrite Hex, Hload, Hmem, Hdisk, Hname. }
  rewrite Hout. cbn [snd].
  assert (Hgone : OD.mem title (OD.del title data) = false).
  { destruct (OD.mem title (OD.del title data)) eqn:E; [| done].
    apply od_mem_true in E. rewrite od_del_keys in E.
    by apply list_remove_gone in E. }
  split; [done |]. split; [done |].
  split; [intros t Ht; by apply od_get_del_other |].
  intros data' Hload' Hsame.
  assert (Hex' := written_file w yaml_file
                    (yaml_dump (OD.del title data)) Hname).
  split.
  - rewrite (prompt_data_of _ _ _ data') by done.
    rewrite <- (same_entry_prompt _ _ (Hsame title)).
    unfold OD.mem in Hgone.
    by destruct (OD.get title (OD.del title data)).
  - intros t Ht.
    rewrite (prompt_data_of _ _ _ data') by done.
    rewrite (prompt_data_of _ _ _ data) by done.
    rewrite <- (same_entry_prompt _ _ (Hsame t)).
    by rewrite od_get_del_other.
Qed.

(** X21.  A prompt stored by [run] reads back: outside a running event
    loop and with the directory writable, [run] writes the document with
    the prompt set under the title, the title added at the end when it is
    new, the other keys of the entry and the other titles kept; and once
    the written file loads with the content it was given,
    [_get_prompt_data] answers the stored prompt for the title and, for
    every other title, what the document held before. *)
Theorem stored_prompt_reads_back (w : World)
    (select_yaml select title prompt unique_id : string)
    (data : Document) :
  let items :=
    match OD.get title data with
    | Some (EDict items) => items
    | _ => []
    end in
  let written :=
    OD.set title (EDict (OD.set "prompt" prompt items)) data in
  (if path_exists w select_yaml then load_or_dict w select_yaml
   else Some (DataDoc [])) = Some (DataDoc data) ->
  OD.get title data <> Some ENotDict ->
  title <> "" -> prompt <> "" -> is_empty select_yaml = false ->
  disk_ok w = true -> event_loop w <> LoopRunning ->
  exists w' : World,
    run w select_yaml select title prompt unique_id = (Return [prompt], w')
    /\ files w' = <[select_yaml := yaml_dump written]> (files w)
    /\ OD.keys written
       = (if OD.mem title data then OD.keys data else OD.keys data ++ [title])
    /\ forall data' : Document,
         load_or_dict w' select_yaml = Some (DataDoc data') ->
         same_content written data' ->
         _get_prompt_data w' select_yaml title = (title, prompt)
         /\ forall t : string,
              t <> title ->
              (_get_prompt_data w' select_yaml t).2
              = match OD.get t data with
                | Some (EDict entry) => default "" (OD.get "prompt" entry)
                | _ => ""
                end.
Proof.
  intros items written Hload Hdict Htitle Hprompt Hname Hdisk Hloop.
  assert (Ht : is_empty title = false) by (by destruct title).
  assert (Hp : is_empty prompt = false) by (by destruct prompt).
  assert (Hrun : run w select_yaml select title prompt unique_id
    = (Return [prompt],
       set_files (<[select_yaml := yaml_dump written]> (files w)) w)).
  { unfold run, _save_yaml. rewrite Ht, Hp, Hload. simpl.
    subst written items. unfold OD.mem.
    destruct (OD.get title data) as [[entry|]|] eqn:E; [| done |].
    - rewrite E, Hdisk, Hname. simpl. by destruct (event_loop w).
    - rewrite od_get_set, od_set_set, Hdisk, Hname. simpl.
      by destruct (event_loop w). }
  eexists. split; [exact Hrun |]. split; [done |].
  split; [apply od_set_keys |].
  intros data' Hload' Hsame.
  assert (Hex' := written_file w select_yaml (yaml_dump written) Hname).
  split.
  - rewrite (prompt_data_of _ _ _ data') by done.
    rewrite <- (same_entry_prompt _ _ (Hsame title)).
    subst written. by rewrite !od_get_set.
  - intros t Hneq.
    rewrite (prompt_data_of _ _ _ data') by done. simpl.
    rewrite <- (same_entry_prompt _ _ (Hsame t)).
    subst written. by rewrite od_get_set_other.
Qed.

(** X22.  The prompt list moves aside every file whose titles it cannot
    list, not only the ones that fail to parse: for a file that the loader
    rejects, and equally for one that loads as something other than a
    mapping, listing the titles answers the one-element list with the empty
    title, moves the file to bad_<timestamp>_<name> with its text, and
    leaves the comment-only placeholder at the old path, every other file
    staying as it is; reading a prompt from such a file, or deleting a
    title from it, answers empty and moves nothing. *)
Theorem prompt_list_moves_unlistable_files_aside (now : string) (w : World)
    (yaml_file title text : string) :
  files w !! yaml_file = Some text ->
  is_empty yaml_file = false ->
  safe_load text = None
  \/ (exists has, safe_load text = Some (TopOther has)) ->
  _get_prompt_data w yaml_file title = (title, "")
  /\ _delete_title w yaml_file title = (false, w)
  /\ (disk_ok w = true ->
      exists w' : World,
        _get_titles_from_yaml now w yaml_file = (Return [""], w')
        /\ files w' !! ("bad_" +:+ now +:+ "_" +:+ yaml_file) = Some text
        /\ files w' !! yaml_file
           = Some ("# Recovered from corrupt file" +:+ String newline "")
        /\ forall n : string,
             n <> yaml_file -> n <> "bad_" +:+ now +:+ "_" +:+ yaml_file ->
             files w' !! n = files w !! n).
Proof.
  intros Hfile Hname Hbad.
  assert (Hex : path_exists w yaml_file = true).
  { unfold path_exists. by rewrite Hfile. }
  assert (Hload : load_or_dict w yaml_file = None
                  \/ exists has, load_or_dict w yaml_file = Some (DataOther has)).
  { unfold load_or_dict, read_text. rewrite Hname, Hfile.
    destruct Hbad as [-> | (has & ->)]; [by left | right; by exists has]. }
  split.
  { unfold _get_prompt_data. rewrite Hex. simpl.
    by destruct Hload as [-> | (has & ->)]. }
  split.
  { unfold _delete_title. rewrite Hex. simpl.
    by destruct Hload as [-> | (has & ->)]. }
  intros Hdisk.
  unfold _get_titles_from_yaml, _handle_corrupt_yaml.
  rewrite Hex, Hfile, Hdisk. simpl.
  fold (bad_name now yaml_file).
  assert (Hne := prompt_bad_name_differs now yaml_file).
  assert (Hfiles : forall fs : gmap string string,
    fs = <[yaml_file := placeholder]>
           (<[bad_name now yaml_file := text]> (delete yaml_file (files w))) ->
    fs !! bad_name now yaml_file = Some text
    /\ fs !! yaml_file = Some placeholder
    /\ forall n : string,
         n <> yaml_file -> n <> bad_name now yaml_file ->
         fs !! n = files w !! n).
  { intros fs ->. split; [| split].
    - rewrite lookup_insert_ne by done. by rewrite lookup_insert_eq.
    - by rewrite lookup_insert_eq.
    - intros n Hn1 Hn2. rewrite !lookup_insert_ne by done.
      by rewrite lookup_delete_ne. }
  destruct Hload as [-> | (has & ->)]; eexists; (split; [done |]);
    by apply Hfiles.
Qed.

End Prompts.

(** *** Instances *)

Import (hints) Sample.

Ltac same_titles t :=
  intros t; unfold same_entry; cbn [OD.get];
  repeat match goal with
         | |- context [String.eqb t ?s] =>
             let E := fresh "E" in
             destruct (String.eqb t s) eqn:E;
             [apply String.eqb_eq in E; subst t |]
         end;
  cbn [OD.get String.eqb Ascii.eqb Bool.eqb]; try done.

Lemma delete_title_removes_one_entry_witness :
  OD.mem "sunset" Sample.notes = true
  /\ (_delete_title Sample.notebook "prompts.yaml" "sunset").1 = true
  /\ _get_prompt_data
        (_delete_title Sample.notebook "prompts.yaml" "sunset").2
        "prompts.yaml" "sunset" = ("sunset", "")
  /\ _get_prompt_data
        (_delete_title Sample.notebook "prompts.yaml" "sunset").2
        "prompts.yaml" "forest" = ("forest", "morning mist").
Proof.
  split; [reflexivity |].
  assert (Hex : path_exists Sample.notebook "prompts.yaml" = true).
  { vm_compute. reflexivity. }
  set (loaded :=
    [("forest", EDict [("negative", "fog"); ("prompt", "morning mist")]);
     ("sunset", EDict [("prompt", "golden hour")])]).
  assert (Hload : load_or_dict Sample.notebook "prompts.yaml"
                  = Some (DataDoc loaded)).
  { vm_compute. reflexivity. }
  assert (Hnd : NoDup (OD.keys loaded)).
  { compute_nodup. }
  destruct (delete_title_removes_one_entry (H := Sample.prompt_env)
              Sample.notebook "prompts.yaml" "sunset") as (_ & _ & Hdoc).
  destruct (Hdoc loaded Hex Hload Hnd) as [_ Hdone].
  destruct (Hdone eq_refl eq_refl) as (Hout & _ & _ & Hread).
  split; [by rewrite Hout |].
  assert (Hload' :
    load_or_dict (_delete_title Sample.notebook "prompts.yaml" "sunset").2
      "prompts.yaml" = Some (DataDoc (OD.del "sunset" loaded))).
  { vm_compute. reflexivity. }
  assert (Hsame : same_content (OD.del "sunset" loaded)
                    (OD.del "sunset" loaded)).
  { intros t. unfold same_entry.
    by destruct (OD.get t (OD.del "sunset" loaded)) as [[x|]|]. }
  destruct (Hread _ Hload' Hsame) as [Hgone Hrest].
  split; [exact Hgone |].
  rewrite (Hrest "forest") by discriminate. vm_compute. reflexivity.
Defined.

Lemma stored_prompt_reads_back_witness :
  OD.get "dawn" Sample.notes = None
  /\ exists w' : World,
       run Sample.notebook "prompts.yaml" "" "dawn" "first light" "3"
       = (Return ["first light"], w')
       /\ _get_prompt_data w' "prompts.yaml" "dawn" = ("dawn", "first light")
       /\ (_get_prompt_data w' "prompts.yaml" "forest").2 = "morning mist".
Proof.
  split; [reflexivity |].
  set (loaded :=
    [("forest", EDict [("negative", "fog"); ("prompt", "morning mist")]);
     ("sunset", EDict [("prompt", "golden hour")])]).
  assert (Hload : (if path_exists Sample.notebook "prompts.yaml"
                   then load_or_dict Sample.notebook "prompts.yaml"
                   else Some (DataDoc [])) = Some (DataDoc loaded)).
  { vm_compute. reflexivity. }
  assert (Hdict : OD.get "dawn" loaded <> Some ENotDict) by discriminate.
  assert (Htitle : "dawn" <> "") by discriminate.
  assert (Hprompt : "first light" <> "") by discriminate.
  assert (Hloop : event_loop Sample.notebook <> LoopRunning) by discriminate.
  destruct (stored_prompt_reads_back (H := Sample.prompt_env) Sample.notebook
              "prompts.yaml" "" "dawn" "first light" "3" loaded
              Hload Hdict Htitle Hprompt eq_refl eq_refl Hloop)
    as (w' & Hrun & Hfiles & _ & Hread).
  exists w'. split; [exact Hrun |].
  set (back :=
    [("dawn", EDict [("prompt", "first light")]);
     ("forest", EDict [("negative", "fog"); ("prompt", "morning mist")]);
     ("sunset", EDict [("prompt", "golden hour")])]).
  assert (Hload' : load_or_dict w' "prompts.yaml" = Some (DataDoc back)).
  { unfold load_or_dict, read_text. rewrite Hfiles.
    cbn [is_empty]. rewrite lookup_insert_eq. vm_compute. reflexivity. }
  assert (Hsame : same_content
    (OD.set "dawn"
       (EDict (OD.set "prompt" "first light"
                 match OD.get "dawn" loaded with
                 | Some (EDict items) => items
                 | _ => []
                 end)) loaded) back).
  { subst loaded back. cbn [OD.get OD.set String.eqb Ascii.eqb Bool.eqb].
    same_titles t. }
  destruct (Hread back Hload' Hsame) as [Hnew Hold].
  split; [exact Hnew |].
  exact (Hold "forest" ltac:(discriminate)).
Defined.

Lemma prompt_list_moves_unlistable_files_aside_witness :
  files Sample.notebook !! "torn.yaml" = Some Sample.garbage
  /\ safe_load Sample.garbage = None
  /\ _get_prompt_data Sample.notebook "torn.yaml" "sunset" = ("sunset", "")
  /\ exists w' : World,
       _get_titles_from_yaml "20240101_120000" Sample.notebook "torn.yaml"
       = (Return [""], w')
       /\ files w' !! "bad_20240101_120000_torn.yaml" = Some Sample.garbage.
Proof.
  assert (Hfile : files Sample.notebook !! "torn.yaml" = Some Sample.garbage).
  { vm_compute. reflexivity. }
  assert (Hload : safe_load Sample.garbage = None).
  { vm_compute. reflexivity. }
  split; [exact Hfile |]. split; [exact Hload |].
  destruct (prompt_list_moves_unlistable_files_aside (H := Sample.prompt_env)
              "20240101_120000" Sample.notebook "torn.yaml" "sunset"
              Sample.garbage Hfile eq_refl (or_introl Hload))
    as (Hread & _ & Hmove).
  split; [exact Hread |].
  destruct (Hmove eq_refl) as (w' & Htitles & Hbad & _).
  exists w'. split; [exact Htitles | exact Hbad].
Defined.

End PromptListOps.

(** ** The codec: sorted dumps and repeated keys *)

Lemma od_get_app {V : Type} (k : string) (a b : list (string * V)) :
  OD.get k (a ++ b)
  = match OD.get k a with Some v => Some v | None => OD.get k b end.
Proof.
  induction a as [|[k' v] a IH]; simpl; [done |].
  by destruct (String.eqb k k').
Qed.

(** Pairs put into a mapping one by one: the last value given for a key is
    the one it holds. *)
Lemma od_fold_set_get {V : Type} (k : string) (l acc : list (string * V)) :
  OD.get k (fold_left (fun d kv => OD.set kv.1 kv.2 d) l acc)
  = match OD.get k (rev l) with Some v => Some v | None => OD.get k acc end.
Proof.
  revert acc. induction l as [|[k0 v0] l IH]; intros acc; simpl; [done |].
  rewrite IH, od_get_app. destruct (OD.get k (rev l)); [done |].
  simpl. destruct (String.eqb k k0) eqn:E.
  - apply String.eqb_eq in E. subst. apply od_get_set.
  - apply String.eqb_neq in E. by apply od_get_set_other.
Qed.

Lemma od_fold_set_nodup {V : Type} (l acc : list (string * V)) :
  NoDup (OD.keys acc) ->
  NoDup (OD.keys (fold_left (fun d kv => OD.set kv.1 kv.2 d) l acc)).
Proof.
  revert acc. induction l as [|[k v] l IH]; intros acc Hnd; simpl; [done |].
  apply IH. rewrite od_set_keys. destruct (OD.mem k acc) eqn:E; [done |].
  apply NoDup_app. split; [done |]. split; [| apply NoDup_singleton].
  intros x Hx ->%list_elem_of_singleton.
  apply list_elem_of_In, od_mem_true in Hx. congruence.
Qed.

Lemma od_fold_set_keys_in {V : Type} (k : string)
    (l acc : list (string * V)) :
  In k (OD.keys (fold_left (fun d kv => OD.set kv.1 kv.2 d) l acc))
  <-> In k (OD.keys acc) \/ In k (OD.keys l).
Proof.
  revert acc. induction l as [|[k0 v0] l IH]; intros acc; simpl; [tauto |].
  rewrite IH, od_set_keys. destruct (OD.mem k0 acc) eqn:E.
  - apply od_mem_true in E. split; [tauto |].
    intros [? | [<- | ?]]; tauto.
  - rewrite in_app_iff. simpl. tauto.
Qed.

Lemma od_get_map {V W : Type} (f : V -> W) (k : string)
    (l : list (string * V)) :
  OD.get k (map (fun kv => (kv.1, f kv.2)) l) = f <$> OD.get k l.
Proof.
  induction l as [|[k' v] l IH]; simpl; [done |].
  by destruct (String.eqb k k').
Qed.

Lemma od_get_In {V : Type} (k : string) (v : V) (l : list (string * V)) :
  NoDup (OD.keys l) -> OD.get k l = Some v <-> In (k, v) l.
Proof.
  unfold OD.keys. induction l as [|[k' v'] l IH]; simpl; [by split |].
  intros Hnd. apply NoDup_cons in Hnd. destruct Hnd as [Hk' Hnd].
  destruct (String.eqb k k') eqn:E.
  - apply String.eqb_eq in E. subst k'. split.
    + intros [= ->]. by left.
    + intros [[= ->] | Hin]; [done |]. exfalso. apply Hk'.
      apply list_elem_of_In, in_map_iff. by exists (k, v).
  - apply String.eqb_neq in E. rewrite IH by done. split; [tauto |].
    intros [[= <- <-] | Hin]; done.
Qed.

Lemma od_get_perm {V : Type} (k : string) (l l' : list (string * V)) :
  NoDup (OD.keys l) -> l ≡ₚ l' -> OD.get k l = OD.get k l'.
Proof.
  intros Hnd Hp.
  assert (Hnd' : NoDup (OD.keys l')).
  { unfold OD.keys in *. by rewrite <- Hp. }
  apply option_eq. intros v.
  rewrite !od_get_In by done. rewrite <- !list_elem_of_In. by rewrite Hp.
Qed.

Module CodecOps.
Import Codec.

Lemma insert_item_perm (kv : string * node) (l : list (string * node)) :
  insert_item kv l ≡ₚ kv :: l.
Proof.
  induction l as [|kv' l IH]; simpl; [done |].
  destruct (String.ltb kv.1 kv'.1); [done |].
  rewrite IH. apply Permutation_swap.
Qed.

Lemma sorted_items_perm (l : list (string * node)) : sorted_items l ≡ₚ l.
Proof.
  induction l as [|kv l IH]; simpl; [done |].
  unfold sorted_items in *. simpl. by rewrite insert_item_perm, IH.
Qed.

Lemma ltb_leb (a b : string) : String.ltb a b = true -> String.leb a b = true.
Proof. unfold String.ltb, String.leb. by destruct (String.compare a b). Qed.

Lemma not_ltb_leb (a b : string) :
  String.ltb a b = false -> String.leb b a = true.
Proof.
  unfold String.ltb, String.leb. rewrite (String.compare_antisym a b).
  by destruct (String.compare b a).
Qed.

Lemma insert_item_ascending (kv : string * node)
    (l : list (string * node)) :
  FlexPreset.ascending (map fst l) = true ->
  FlexPreset.ascending (map fst (insert_item kv l)) = true.
Proof.
  induction l as [|kv' l IH]; [done |].
  intros Hl. cbn [insert_item].
  destruct (String.ltb kv.1 kv'.1) eqn:E.
  - change (String.leb kv.1 kv'.1
            && FlexPreset.ascending (map fst (kv' :: l)) = true).
    by rewrite (ltb_leb _ _ E).
  - assert (Hge := not_ltb_leb _ _ E).
    assert (Htail : FlexPreset.ascending (map fst l) = true).
    { cbn [map FlexPreset.ascending] in Hl. destruct (map fst l); [done |].
      apply andb_true_iff in Hl. by destruct Hl. }
    specialize (IH Htail).
    destruct l as [|kv'' l].
    + cbn. by rewrite Hge.
    + cbn [insert_item] in *.
      cbn [map FlexPreset.ascending] in Hl. apply andb_true_iff in Hl.
      destruct Hl as [Hle _].
      destruct (String.ltb kv.1 kv''.1);
        cbn [map FlexPreset.ascending].
      * rewrite Hge. simpl. exact IH.
      * rewrite Hle. simpl. exact IH.
Qed.

Lemma sorted_items_ascending (l : list (string * node)) :
  FlexPreset.ascending (map fst (sorted_items l)) = true.
Proof.
  induction l as [|kv l IH]; [done |].
  unfold sorted_items in *. simpl. by apply insert_item_ascending.
Qed.

(** X23.  What the prompt list writes it reads back sorted: serializer
    and composer being inverse on node trees, a mapping with distinct keys
    that is dumped with [sort_keys=True] and loaded again has the same
    keys, in ascending order, and under each key the round trip of what
    the key held; a text comes back as it is.  So no key and no text is
    lost or changed, only the order. *)
Theorem promptlist_round_trip_sorts {text : Type} (serialize : node -> text)
    (compose : text -> option node) (items : list (string * pyobj)) :
  (forall n : node, compose (serialize n) = Some n) ->
  NoDup (map fst items) ->
  exists items' : list (string * pyobj),
    safe_load compose (PromptList_dump serialize (PDict items))
    = Some (PDict items')
    /\ map fst items' ≡ₚ map fst items
    /\ FlexPreset.ascending (map fst items') = true
    /\ (forall k : string,
          OD.get k items'
          = (fun v => construct_mapping (PromptList_represent v))
              <$> OD.get k items)
    /\ forall s : string,
         construct_mapping (PromptList_represent (PStr s)) = PStr s.
Proof.
  intros Hinv Hnd.
  set (value := map (fun kv : string * pyobj =>
                       (kv.1, represent false true kv.2)) items).
  assert (Hkeys : map fst value = map fst items).
  { subst value. rewrite map_map. done. }
  assert (Hperm := sorted_items_perm value).
  assert (Hnd' : NoDup (map fst (sorted_items value))).
  { rewrite Hperm, Hkeys. done. }
  exists (map (fun kv : string * node => (kv.1, construct_mapping kv.2))
            (sorted_items value)).
  assert (Hkeys' : map fst
    (map (fun kv : string * node => (kv.1, construct_mapping kv.2))
       (sorted_items value)) = map fst (sorted_items value)).
  { rewrite map_map. done. }
  split.
  { unfold safe_load, PromptList_dump. rewrite Hinv. simpl. f_equal.
    fold value. f_equal. apply od_of_pairs_nodup.
    unfold OD.keys. by rewrite Hkeys'. }
  split; [by rewrite Hkeys', Hperm, Hkeys |].
  split; [rewrite Hkeys'; apply sorted_items_ascending |].
  split; [| done].
  intros k. rewrite od_get_map.
  rewrite (od_get_perm k (sorted_items value) value) by done.
  subst value. rewrite od_get_map.
  by destruct (OD.get k items).
Qed.

(** X24.  A mapping node that repeats a key is constructed without
    complaint: the mapping that comes out has each key once, holds for
    every key the value given last, and a key repeated at the end stays
    where it first stood. *)
Theorem repeated_key_takes_last_value (value : list (string * node)) :
  exists items : list (string * pyobj),
    construct_mapping (MappingNode value) = PDict items
    /\ NoDup (map fst items)
    /\ (forall k : string, In k (map fst items) <-> In k (map fst value))
    /\ (forall k : string,
          OD.get k items = construct_mapping <$> OD.get k (rev value))
    /\ forall (k : string) (n : node),
         In k (map fst value) ->
         exists items2 : list (string * pyobj),
           construct_mapping (MappingNode (value ++ [(k, n)])) = PDict items2
           /\ map fst items2 = map fst items
           /\ OD.get k items2 = Some (construct_mapping n).
Proof.
  set (pairs := map (fun kv : string * node =>
                       (kv.1, construct_mapping kv.2)) value).
  assert (Hkeys : OD.keys pairs = map fst value).
  { subst pairs. unfold OD.keys. rewrite map_map. done. }
  exists (OD.of_pairs pairs). split; [done |].
  split; [apply od_fold_set_nodup, NoDup_nil_2 |].
  split.
  { intros k. unfold OD.of_pairs.
    change (map fst ?l) with (OD.keys l) at 1.
    rewrite od_fold_set_keys_in, Hkeys. simpl. tauto. }
  split.
  { intros k. unfold OD.of_pairs. rewrite od_fold_set_get. simpl.
    subst pairs. rewrite <- map_rev, od_get_map.
    by destruct (OD.get k (rev value)). }
  intros k n Hin.
  exists (OD.set k (construct_mapping n) (OD.of_pairs pairs)).
  split.
  { simpl. f_equal. rewrite map_app. simpl. fold pairs.
    unfold OD.of_pairs. by rewrite fold_left_app. }
  split; [| apply od_get_set].
  change (map fst ?l) with (OD.keys l).
  rewrite od_set_keys.
  assert (Hmem : OD.mem k (OD.of_pairs pairs) = true).
  { apply od_mem_true. unfold OD.of_pairs.
    rewrite od_fold_set_keys_in, Hkeys. by right. }
  by rewrite Hmem.
Qed.

Lemma promptlist_round_trip_sorts_witness :
  (forall n : node, Some ((fun n0 : node => n0) n) = Some n)
  /\ NoDup ["sunset"; "forest"]
  /\ exists items' : list (string * pyobj),
       safe_load Some (PromptList_dump (fun n : node => n) Sample.prompts)
       = Some (PDict items')
       /\ map fst items' ≡ₚ ["sunset"; "forest"]
       /\ FlexPreset.ascending (map fst items') = true.
Proof.
  assert (Hinv : forall n : node, Some ((fun n0 : node => n0) n) = Some n).
  { intros n. reflexivity. }
  assert (Hnd : NoDup ["sunset"; "forest"]).
  { compute_nodup. }
  split; [exact Hinv |]. split; [exact Hnd |].
  destruct (promptlist_round_trip_sorts (fun n : node => n) Some
              [("sunset", PDict [("prompt", PStr "golden hour")]);
               ("forest", PDict [("prompt", PStr "morning mist")])]
              Hinv Hnd) as (items' & Hload & Hperm & Hasc & _).
  exists items'. split; [exact Hload |]. split; [exact Hperm | exact Hasc].
Defined.

End CodecOps.
